(** * Assignment tracking, attribute enrichment and campaign dispatch

    A shallow embedding of the three service objects of the Braze/Eppo
    integration server:

    - [Eppo]      : services/eppoService.js   (class EppoService)
    - [Hightouch] : services/hightouchService.js (class HightouchService)
    - [Braze]     : services/brazeService.js  (class BrazeService)

    JavaScript values are an inductive type, plain objects are finite maps
    from property names to values, the insertion-ordered [Map] of the
    assignment cache is an association list, the mutable service object is
    threaded explicitly, and a rejected promise or a thrown exception is
    the [Throw] case of a completion.  Console output is not modelled. *)

From stdpp Require Import gmap strings list fin_maps pretty.
From Stdlib Require Import ZArith Lia.

Set Warnings "-register-all".
Local Open Scope string_scope.

(** ** JavaScript values *)

Module Js.

(** Numbers are the integers among the doubles (no claim computes with
    them; they only matter through truthiness and [ToString]).  [VObj] is a
    plain object with its own enumerable data properties; [VArr] an array. *)
Inductive JsVal : Type :=
| VUndef
| VNull
| VBool (b : bool)
| VNum (n : Z)
| VStr (s : string)
| VArr (l : list JsVal)
| VObj (o : gmap string JsVal).

Abbreviation JsObj := (gmap string JsVal).

(** ToBoolean: [undefined], [null], [false], [0] and [""] are falsy. *)
Definition truthy (v : JsVal) : bool :=
  match v with
  | VUndef | VNull => false
  | VBool b => b
  | VNum n => negb (n =? 0)%Z
  | VStr s => negb (String.eqb s "")
  | VArr _ | VObj _ => true
  end.

(** [a || b] yields the operand, not a boolean. *)
Definition js_or (a b : JsVal) : JsVal := if truthy a then a else b.

(** [v === "s"] for a string literal. *)
Definition strict_eq_str (v : JsVal) (s : string) : bool :=
  match v with VStr s' => bool_decide (s' = s) | _ => false end.

(** [v === true] *)
Definition strict_eq_true (v : JsVal) : bool :=
  match v with VBool true => true | _ => false end.

(** [v === undefined || v === null] *)
Definition is_nullish (v : JsVal) : bool :=
  match v with VUndef | VNull => true | _ => false end.

(** ToString, as applied by a template literal [`${v}`]. *)
Fixpoint ToString (v : JsVal) : string :=
  match v with
  | VUndef => "undefined"
  | VNull => "null"
  | VBool true => "true"
  | VBool false => "false"
  | VNum n => pretty n
  | VStr s => s
  | VArr l =>
      String.concat ","
        (map (fun x => match x with VUndef | VNull => "" | _ => ToString x end) l)
  | VObj _ => "[object Object]"
  end.

(** [o.k] on an object: a missing property reads as [undefined]. *)
Definition prop (o : JsObj) (k : string) : JsVal := default VUndef (o !! k).

(** An object literal [{k1: v1, k2: v2, ...}]: later keys win. *)
Definition js_object (fields : list (string * JsVal)) : JsObj :=
  foldl (fun o kv => <[kv.1 := kv.2]> o) ∅ fields.

Definition indexed (l : list JsVal) : JsObj :=
  list_to_map (imap (fun i x => (pretty i, x)) l).

(** The own enumerable properties of a value: what [{...v}] copies and what
    [Object.keys(v)] lists.  Primitives other than strings have none. *)
Definition own_props (v : JsVal) : JsObj :=
  match v with
  | VObj o => o
  | VArr l => indexed l
  | VStr s => indexed ((fun c => VStr (String c "")) <$> String.list_ascii_of_string s)
  | _ => ∅
  end.

(** [{...a, ...b}]: the properties of [b] override those of [a]. *)
Definition spread (a b : JsObj) : JsObj := b ∪ a.

(** A default parameter [x = d] replaces [undefined] only. *)
Definition default_param (x d : JsVal) : JsVal :=
  match x with VUndef => d | _ => x end.

(** An environment variable is a string or missing; [!v] holds when it is
    missing or empty. *)
Definition env_truthy (v : option string) : bool :=
  match v with Some s => negb (String.eqb s "") | None => false end.

Definition env_str (v : option string) : string :=
  match v with Some s => s | None => "undefined" end.

(** *** Errors and completions *)

Record HttpResponse := { status : JsVal; data : JsVal }.

(** An [Error] object; an HTTP client error also carries the response. *)
Record JsError := { message : string; response : option HttpResponse }.

Definition Error (msg : string) : JsError :=
  {| message := msg; response := None |}.

Inductive Completion (A : Type) : Type :=
| Return (a : A)
| Throw (e : JsError).
Arguments Return {A} a.
Arguments Throw {A} e.

Definition bind {A B} (c : Completion A) (k : A -> Completion B) : Completion B :=
  match c with Return a => k a | Throw e => Throw e end.

(** [try { c } catch (error) { h error }] *)
Definition try_catch {A} (c : Completion A) (h : JsError -> Completion A)
  : Completion A :=
  match c with Return a => Return a | Throw e => h e end.

(** [v.k]: reading a property of [undefined] or [null] throws a TypeError.
    Only own data properties are modelled; the names the services read are
    never inherited ones. *)
Definition get_prop (v : JsVal) (k : string) : Completion JsVal :=
  match v with
  | VUndef | VNull =>
      Throw (Error ("Cannot read properties of " ++ ToString v ++
                    " (reading '" ++ k ++ "')"))
  | _ => Return (prop (own_props v) k)
  end.

(** *** The HTTP client (axios) *)

Record HttpRequest := {
  method : string;
  url : string;
  body : JsVal;
  headers : JsObj;
  timeout : option Z
}.

(** What the network does with a request: the promise resolves with a
    response or rejects with an error (a timeout rejects without response). *)
Definition Http := HttpRequest -> Completion HttpResponse.

End Js.

Import Js.

(** Sequencing of completions, written [x ← c; k]. *)
#[global] Instance completion_ret : MRet Completion := @Return.
#[global] Instance completion_bind : MBind Completion := fun A B k c => Js.bind c k.

(** ** The insertion-ordered [Map] *)

Section OrderedMap.
Context {V : Type}.

(** Entries are kept in insertion order, oldest first. *)

Fixpoint map_get (k : string) (m : list (string * V)) : option V :=
  match m with
  | [] => None
  | (k', v) :: m' => if decide (k = k') then Some v else map_get k m'
  end.

(** [set] on an existing key replaces the value and keeps the key's place;
    a new key goes last. *)
Fixpoint map_set (k : string) (v : V) (m : list (string * V))
  : list (string * V) :=
  match m with
  | [] => [(k, v)]
  | (k', v') :: m' =>
      if decide (k = k') then (k, v) :: m' else (k', v') :: map_set k v m'
  end.

Definition map_delete (k : string) (m : list (string * V))
  : list (string * V) :=
  filter (fun kv => kv.1 ≠ k) m.

Definition map_size (m : list (string * V)) : nat := length m.

Definition map_keys (m : list (string * V)) : list string := m.*1.

(** [m.keys().next().value] *)
Definition map_first_key (m : list (string * V)) : option string :=
  head (map_keys m).
End OrderedMap.

(** ** services/eppoService.js *)

Module Eppo.

(** [this.currentRequest], when not [null]. *)
Record RequestContext := {
  rc_flagKey : JsVal;
  rc_userId : JsVal;
  rc_userAttributes : JsVal
}.

(** The fields of the SDK client that the service reads or writes. *)
Record Client := {
  assignmentLogger : JsVal;
  assignmentCache : JsVal;
  _assignmentCache : JsVal
}.

(** The service object.  The records kept in [recentAssignments] are the
    object literals built by [logAssignment] and [getAssignment]. *)
Record EppoService := {
  client : option Client;
  initialized : bool;
  recentAssignments : list (string * JsObj);
  assignmentLoggerCalled : bool;
  currentRequest : option RequestContext
}.

(** [constructor()] *)
Definition new_EppoService : EppoService :=
  {| client := None; initialized := false; recentAssignments := [];
     assignmentLoggerCalled := false; currentRequest := None |}.

Definition with_client (c : option Client) (s : EppoService) :=
  {| client := c; initialized := initialized s;
     recentAssignments := recentAssignments s;
     assignmentLoggerCalled := assignmentLoggerCalled s;
     currentRequest := currentRequest s |}.

Definition with_initialized (b : bool) (s : EppoService) :=
  {| client := client s; initialized := b;
     recentAssignments := recentAssignments s;
     assignmentLoggerCalled := assignmentLoggerCalled s;
     currentRequest := currentRequest s |}.

Definition with_recentAssignments (m : list (string * JsObj)) (s : EppoService) :=
  {| client := client s; initialized := initialized s;
     recentAssignments := m;
     assignmentLoggerCalled := assignmentLoggerCalled s;
     currentRequest := currentRequest s |}.

Definition with_assignmentLoggerCalled (b : bool) (s : EppoService) :=
  {| client := client s; initialized := initialized s;
     recentAssignments := recentAssignments s;
     assignmentLoggerCalled := b;
     currentRequest := currentRequest s |}.

Definition with_currentRequest (r : option RequestContext) (s : EppoService) :=
  {| client := client s; initialized := initialized s;
     recentAssignments := recentAssignments s;
     assignmentLoggerCalled := assignmentLoggerCalled s;
     currentRequest := r |}.

(** The bound of the clean-up in [logAssignment] ("keep only last 100"). *)
Definition capacity : nat := 100.

(** [`${subject}:${flagKey}`] *)
Definition assignment_key (subject flagKey : JsVal) : string :=
  ToString subject ++ ":" ++ ToString flagKey.

(** The assignment logger registered with the SDK (lines 22-44), in the
    order of its statements.  [now] is the reading of
    [new Date().toISOString()]. *)

(** [assignment.flagKey || (this.currentRequest ? this.currentRequest.flagKey : 'unknown')] *)
Definition loggedFlagKey (assignment : JsObj) (s : EppoService) : JsVal :=
  js_or (prop assignment "flagKey")
        (match currentRequest s with
         | Some r => rc_flagKey r
         | None => VStr "unknown"
         end).

(** [assignment.subject || (this.currentRequest ? this.currentRequest.userId : 'unknown')] *)
Definition loggedSubject (assignment : JsObj) (s : EppoService) : JsVal :=
  js_or (prop assignment "subject")
        (match currentRequest s with
         | Some r => rc_userId r
         | None => VStr "unknown"
         end).

Definition loggedKey (assignment : JsObj) (s : EppoService) : string :=
  assignment_key (loggedSubject assignment s) (loggedFlagKey assignment s).

(** [{...assignment, flagKey: flagKey, timestamp: assignment.timestamp || now}] *)
Definition assignmentToStore (now : string) (assignment : JsObj)
    (s : EppoService) : JsObj :=
  <["timestamp" := js_or (prop assignment "timestamp") (VStr now)]>
    (<["flagKey" := loggedFlagKey assignment s]> assignment).

(** "Clean up old assignments (keep only last 100)": once the size is over
    the bound, delete the first key of the iteration order. *)
Definition cleanUp (m : list (string * JsObj)) : list (string * JsObj) :=
  if decide (capacity < map_size m) then
    match map_first_key m with
    | Some firstKey => map_delete firstKey m
    | None => m
    end
  else m.

Definition logAssignment (now : string) (assignment : JsObj) (s : EppoService)
  : EppoService :=
  let s1 := with_assignmentLoggerCalled true s in
  with_recentAssignments
    (cleanUp (map_set (loggedKey assignment s)
                      (assignmentToStore now assignment s)
                      (recentAssignments s1)))
    s1.

(** One invocation of the logger by the SDK. *)
Record SinkEvent := { ev_now : string; ev_assignment : JsObj }.

(** What a call into the SDK client does: it invokes the registered logger
    some number of times (possibly none), then returns a value or throws. *)
Record ProviderCall := {
  fired : list SinkEvent;
  outcome : Completion JsVal
}.

(** The SDK's typed assignment methods, by their four arguments
    [(flagKey, subject, attributes, default)]. *)
Definition Provider := JsVal -> JsVal -> JsVal -> JsVal -> ProviderCall.

Definition fire (evs : list SinkEvent) (s : EppoService) : EppoService :=
  foldl (fun s ev => logAssignment (ev_now ev) (ev_assignment ev) s) s evs.

(** [initializeEppo()]: [EPPO_SDK_KEY] is the environment variable and
    [init] what [EppoSdk.init] followed by [EppoSdk.getInstance()] yields. *)
Definition initializeEppo (EPPO_SDK_KEY : option string)
    (init : Completion Client) (s : EppoService)
  : Completion unit * EppoService :=
  if negb (env_truthy EPPO_SDK_KEY) then
    (Throw (Error "EPPO_SDK_KEY environment variable is required"),
     with_initialized false s)
  else
    match init with
    | Throw error => (Throw error, with_initialized false s)
    | Return c =>
        let c :=
          {| assignmentLogger := assignmentLogger c;
             assignmentCache :=
               match assignmentCache c with
               | VUndef => VUndef
               | _ => VBool false
               end;
             _assignmentCache :=
               match _assignmentCache c with
               | VUndef => VUndef
               | _ => VBool false
               end |} in
        (Return (), with_initialized true (with_client (Some c) s))
    end.

(** Lines 104-125 of [getAssignment]: the look-up under the request's key,
    then under the key an event without flag key was stored under. *)
Definition lookupStored (assignmentKey : string) (userId flagKey : JsVal)
    (m : list (string * JsObj)) : option JsObj * list (string * JsObj) :=
  match map_get assignmentKey m with
  | Some assignmentDetails => (Some assignmentDetails, m)
  | None =>
      let undefinedKey := ToString userId ++ ":undefined" in
      match map_get undefinedKey m with
      | Some storedWithUndefinedKey =>
          let assignmentDetails := <["flagKey" := flagKey]> storedWithUndefinedKey in
          (Some assignmentDetails,
           map_delete undefinedKey (map_set assignmentKey assignmentDetails m))
      | None => (None, m)
      end
  end.

(** Lines 93-97 of [getAssignment]: reset the logger flag and store the
    request context for the logger. *)
Definition beginRequest (flagKey userId userAttributes : JsVal)
    (s : EppoService) : EppoService :=
  let s := with_assignmentLoggerCalled false s in
  with_currentRequest
    (Some {| rc_flagKey := flagKey; rc_userId := userId;
             rc_userAttributes := userAttributes |}) s.

Definition strict_eq_false (v : JsVal) : bool :=
  match v with VBool false => true | _ => false end.

(** [getAssignment(flagKey, userId, userAttributes = {})].  [sdk] is
    [this.client.getStringAssignment]; [now] stands for the readings of
    [new Date().toISOString()] during the call. *)
Definition getAssignment (sdk : Provider) (now : string)
    (flagKey userId userAttributes : JsVal) (s : EppoService)
  : Completion JsVal * EppoService :=
  let userAttributes := default_param userAttributes (VObj ∅) in
  let not_initialized :=
    (Return (VObj (js_object
       [("assignment", VNull);
        ("flagKey", flagKey);
        ("userId", userId);
        ("userAttributes", userAttributes);
        ("initialized", VBool false);
        ("assignmentDetails", VNull);
        ("timestamp", VStr now)])), s) in
  match client s with
  | None => not_initialized
  | Some c =>
    if negb (initialized s) then not_initialized
    else
      let s := beginRequest flagKey userId userAttributes s in
      let call := sdk flagKey userId userAttributes VNull in
      let s := fire (fired call) s in
      match outcome call with
      | Return assignment =>
          let assignmentKey := assignment_key userId flagKey in
          let '(assignmentDetails, m) :=
            lookupStored assignmentKey userId flagKey (recentAssignments s) in
          let s := with_recentAssignments m s in
          let fallbackDetails := js_object
            [("flagKey", flagKey);
             ("allocation", VNull);
             ("variation", assignment);
             ("subject", userId);
             ("experiment", VNull);
             ("featureFlag", VNull);
             ("timestamp", VStr now);
             ("debug", VObj (js_object
                [("assignmentLoggerFired", VBool (assignmentLoggerCalled s));
                 ("storedAssignmentsCount",
                  VNum (Z.of_nat (map_size (recentAssignments s))));
                 ("lookupKey", VStr assignmentKey);
                 ("note", VStr (if assignmentLoggerCalled s
                    then "Logger fired but assignment not found in storage"
                    else "Assignment logger did not fire - may be cached or default assignment"))]))] in
          let s := with_currentRequest None s in
          (Return (VObj (js_object
             [("assignment", assignment);
              ("flagKey", flagKey);
              ("userId", userId);
              ("userAttributes", userAttributes);
              ("assignmentDetails",
               VObj (match assignmentDetails with
                     | Some d => d
                     | None => fallbackDetails
                     end));
              ("clientInfo", VObj (js_object
                 [("initialized", VBool (initialized s));
                  ("hasClient", VBool true);
                  ("sdkVersion", VStr "node-server-sdk-3.11.0");
                  ("hasAssignmentLogger", VBool (truthy (assignmentLogger c)));
                  ("cacheDisabled",
                   VBool (strict_eq_false (assignmentCache c)
                          || strict_eq_false (_assignmentCache c)))]));
              ("timestamp", VStr now)])), s)
      | Throw error =>
          (Return (VObj (js_object
             [("assignment", VNull);
              ("flagKey", flagKey);
              ("userId", userId);
              ("userAttributes", userAttributes);
              ("assignmentDetails", VNull);
              ("error", VStr (message error));
              ("timestamp", VStr now)])), s)
      end
  end.

(** The body shared by [getBooleanAssignment] and [getNumericAssignment]:
    they differ in the SDK method called and in the parameter's default. *)
Definition getTypedAssignment (dflt : JsVal) (sdk : Provider)
    (flagKey userId userAttributes defaultValue : JsVal) (s : EppoService)
  : Completion JsVal * EppoService :=
  let userAttributes := default_param userAttributes (VObj ∅) in
  let defaultValue := default_param defaultValue dflt in
  match client s with
  | None => (Return defaultValue, s)
  | Some _ =>
    if negb (initialized s) then (Return defaultValue, s)
    else
      let call := sdk flagKey userId userAttributes defaultValue in
      let s := fire (fired call) s in
      match outcome call with
      | Return assignment => (Return assignment, s)
      | Throw error => (Return defaultValue, s)
      end
  end.

(** [getBooleanAssignment(flagKey, userId, userAttributes = {}, defaultValue = false)] *)
Definition getBooleanAssignment := getTypedAssignment (VBool false).

(** [getNumericAssignment(flagKey, userId, userAttributes = {}, defaultValue = 0)] *)
Definition getNumericAssignment := getTypedAssignment (VNum 0).

Definition isInitialized (s : EppoService) : bool := initialized s.

Definition getClientInfo (s : EppoService) : JsObj :=
  js_object
    [("initialized", VBool (initialized s));
     ("hasClient", VBool (bool_decide (is_Some (client s))));
     ("clientType", match client s with
                    | Some _ => VStr "EppoClient"
                    | None => VNull
                    end);
     ("recentAssignmentsCount", VNum (Z.of_nat (map_size (recentAssignments s))));
     ("hasAssignmentLogger",
      VBool (match client s with
             | Some c => truthy (assignmentLogger c)
             | None => false
             end))].

End Eppo.

(** ** services/hightouchService.js *)

Module Hightouch.

Record HightouchService := {
  apiKey : option string;
  baseUrl : string;
  collectionName : string
}.


(** The object [getUserAudiences] resolves with; a property the literal
    leaves out reads as [undefined]. *)
Record AudienceLookup := {
  audiences : JsVal;
  attributes : JsObj;
  found : JsVal;
  error : JsVal
}.

(** The request of [axios.get] in [getUserAudiences]. *)
Definition lookupRequest (svc : HightouchService) (userId : JsVal) : HttpRequest :=
  {| method := "GET";
     url := baseUrl svc ++ "/v1/collections/" ++ collectionName svc ++
            "/records/id/" ++ ToString userId;
     body := VUndef;
     headers := js_object
       [("Authorization", VStr ("Bearer " ++ env_str (apiKey svc)));
        ("Content-Type", VStr "application/json")];
     timeout := Some 5000%Z |}.

(** [error.response?.status === 404] *)
Definition is_404 (e : JsError) : bool :=
  match response e with
  | Some r => match status r with VNum 404 => true | _ => false end
  | None => false
  end.

(** [async getUserAudiences(userId)] *)
Definition getUserAudiences (http : Http) (svc : HightouchService)
    (userId : JsVal) : Completion AudienceLookup :=
  if negb (env_truthy (apiKey svc)) then
    mret {| audiences := VObj ∅; attributes := ∅;
            found := VUndef; error := VUndef |}
  else
    try_catch
      (response ← http (lookupRequest svc userId);
       let userData := data response in
       _audiences ← get_prop userData "_audiences";
       let audiences := js_or _audiences (VObj ∅) in
       lifetime_value ← get_prop userData "lifetime_value";
       churn_risk ← get_prop userData "churn_risk";
       tier ← get_prop userData "tier";
       subscription_status ← get_prop userData "subscription_status";
       custom_attributes ← get_prop userData "custom_attributes";
       let attributes :=
         spread (js_object [("lifetime_value", lifetime_value);
                            ("churn_risk", churn_risk);
                            ("tier", tier);
                            ("subscription_status", subscription_status)])
                (own_props custom_attributes) in
       mret {| audiences := audiences; attributes := attributes;
               found := VBool true; error := VUndef |})
      (fun error =>
         if is_404 error then
           mret {| audiences := VObj ∅; attributes := ∅;
                   found := VBool false; error := VUndef |}
         else
           mret {| audiences := VObj ∅; attributes := ∅;
                   found := VBool false; error := VStr (message error) |}).

(** [async isUserInAudience(userId, audienceName)] *)
Definition isUserInAudience (http : Http) (svc : HightouchService)
    (userId : JsVal) (audienceName : string) : Completion bool :=
  r ← getUserAudiences http svc userId;
  mret (strict_eq_true (prop (own_props (audiences r)) audienceName)).

(** The first branch of [getEnrichedUserAttributes] (lines 96-104). *)
Definition fromHightouch (existingAttributes : JsObj) (audiences : JsVal)
    (attributes : JsObj) : JsObj :=
  let a := own_props audiences in
  <["at_risk_churn" := VBool (strict_eq_true (prop a "at_risk_churn"))]>
  (<["high_value_customer" := VBool (strict_eq_true (prop a "high_value_customer"))]>
  (<["premium_subscriber" := VBool (strict_eq_true (prop a "premium_subscriber"))]>
  (spread existingAttributes attributes))).

(** The second branch (lines 108-135): the browser or request attributes. *)
Definition fromBrowser (existingAttributes : JsObj) : JsObj :=
  let ea := prop existingAttributes in
  spread existingAttributes (js_object
    [("premium_subscriber",
      js_or (ea "premium_subscriber")
     (js_or (ea "isPremium")
     (js_or (VBool (strict_eq_str (ea "subscription_tier") "premium"))
     (js_or (VBool (strict_eq_str (ea "subscriptionTier") "premium"))
            (VBool false)))));
     ("high_value_customer",
      js_or (ea "high_value_customer")
     (js_or (ea "isHighValue")
     (js_or (VBool (strict_eq_str (ea "subscription_tier") "premium"))
     (js_or (VBool (strict_eq_str (ea "subscriptionTier") "premium"))
            (VBool false)))));
     ("at_risk_churn",
      js_or (ea "at_risk_churn")
     (js_or (ea "isAtRisk")
     (js_or (VBool (strict_eq_str (ea "subscription_tier") "free"))
     (js_or (VBool (strict_eq_str (ea "subscriptionTier") "free"))
            (VBool false)))));
     ("subscription_tier",
      js_or (ea "subscription_tier")
     (js_or (ea "subscriptionTier") (ea "tier")));
     ("user_segment", js_or (ea "user_segment") (ea "segment"));
     ("country", ea "country");
     ("device_type", ea "device_type");
     ("_attribute_source", VStr "browser")]).

(** Lines 139-143: delete every key whose value is [undefined] or [null]. *)
Definition removeNullish (o : JsObj) : JsObj :=
  filter (fun kv => is_nullish kv.2 = false) o.

(** [async getEnrichedUserAttributes(userId, existingAttributes = {})].
    [existingAttributes] is an attribute object, as documented
    ([@param {Object}]); [None] is an omitted argument. *)
Definition getEnrichedUserAttributes (http : Http) (svc : HightouchService)
    (userId : JsVal) (existingAttributes : option JsObj) : Completion JsObj :=
  let existingAttributes := default ∅ existingAttributes in
  r ← getUserAudiences http svc userId;
  let enrichedAttributes :=
    if truthy (found r) && bool_decide (0 < size (own_props (audiences r)))
    then fromHightouch existingAttributes (audiences r) (attributes r)
    else fromBrowser existingAttributes in
  mret (removeNullish enrichedAttributes).

End Hightouch.

(** ** services/brazeService.js *)

Module Braze.

Record BrazeService := {
  apiKey : option string;
  restEndpoint : option string;
  appId : option string
}.

(** [constructor()], reading [process.env]. *)
Definition new_BrazeService (env : gmap string string) : BrazeService :=
  {| apiKey := env !! "BRAZE_API_KEY";
     restEndpoint := env !! "BRAZE_REST_ENDPOINT";
     appId := env !! "BRAZE_APP_ID" |}.

Definition configuration_missing : JsError :=
  Error "Braze API configuration missing. Check BRAZE_API_KEY and BRAZE_REST_ENDPOINT".

(** [axios.post(`${this.restEndpoint}<path>`, data, {headers})] *)
Definition postRequest (svc : BrazeService) (path : string) (payload : JsVal)
  : HttpRequest :=
  {| method := "POST";
     url := env_str (restEndpoint svc) ++ path;
     body := payload;
     headers := js_object
       [("Authorization", VStr ("Bearer " ++ env_str (apiKey svc)));
        ("Content-Type", VStr "application/json")];
     timeout := None |}.

Definition configured (svc : BrazeService) : bool :=
  env_truthy (apiKey svc) && env_truthy (restEndpoint svc).

(** [async sendMessage({ userId, messageType, customAttributes = {} })] *)
Definition sendMessage (http : Http) (svc : BrazeService)
    (userId messageType customAttributes : JsVal) : Completion HttpResponse :=
  let customAttributes := default_param customAttributes (VObj ∅) in
  if negb (configured svc) then Throw configuration_missing
  else
    let messageData := VObj (js_object
      [("external_user_ids", VArr [userId]);
       ("messages", VObj (js_object
          [("push", VObj (js_object
             [("alert", VStr (if strict_eq_str messageType "treatment"
                              then "🎉 Special offer just for you!"
                              else "Welcome to our app!"));
              ("title", VStr (if strict_eq_str messageType "treatment"
                              then "Exclusive Deal"
                              else "Welcome"));
              ("extra", VObj (spread (js_object [("variant", messageType)])
                                     (own_props customAttributes)))]))]))]) in
    try_catch
      (response ← http (postRequest svc "/messages/send" messageData);
       mret response)
      (fun error => Throw error).

(** [async trackEvent({ userId, eventName, eventProperties = {}, userAttributes = {} })] *)
Definition trackEvent (http : Http) (now : string) (svc : BrazeService)
    (userId eventName eventProperties userAttributes : JsVal)
  : Completion HttpResponse :=
  let eventProperties := default_param eventProperties (VObj ∅) in
  let userAttributes := default_param userAttributes (VObj ∅) in
  if negb (configured svc) then Throw configuration_missing
  else
    let eventData := VObj (js_object
      [("attributes",
        VArr [VObj (spread (js_object [("external_id", userId)])
                           (own_props userAttributes))]);
       ("events",
        VArr [VObj (js_object
          [("external_id", userId);
           ("name", eventName);
           ("time", VStr now);
           ("properties", eventProperties)])])]) in
    try_catch
      (response ← http (postRequest svc "/users/track" eventData);
       mret response)
      (fun error => Throw error).

(** [async updateUserAttributes({ userId, attributes })] *)
Definition updateUserAttributes (http : Http) (svc : BrazeService)
    (userId attributes : JsVal) : Completion HttpResponse :=
  if negb (configured svc) then Throw configuration_missing
  else
    let attributeData := VObj (js_object
      [("attributes",
        VArr [VObj (spread (js_object [("external_id", userId);
                                       ("email_subscribe", VStr "subscribed");
                                       ("push_subscribe", VStr "subscribed")])
                           (own_props attributes))])]) in
    try_catch
      (response ← http (postRequest svc "/users/track" attributeData);
       mret response)
      (fun error => Throw error).

(** The error [triggerCampaign] builds in its [catch]:
    [`Request failed with status code ${error.response ? error.response.status : 'unknown'}`] *)
Definition request_failed (error : JsError) : JsError :=
  Error ("Request failed with status code " ++
         match response error with
         | Some r => ToString (status r)
         | None => "unknown"
         end).

(** [async triggerCampaign({ userId, campaignId, triggerProperties = {}, userAttributes = {} })] *)
Definition triggerCampaign (http : Http) (svc : BrazeService)
    (userId campaignId triggerProperties userAttributes : JsVal)
  : Completion JsVal :=
  let triggerProperties := default_param triggerProperties (VObj ∅) in
  let userAttributes := default_param userAttributes (VObj ∅) in
  if negb (configured svc && truthy campaignId) then
    Throw (Error "Braze API configuration or campaignId is missing.")
  else
    let campaignData := VObj (js_object
      [("campaign_id", campaignId);
       ("recipients",
        VArr [VObj (js_object
          [("external_user_id", userId);
           ("trigger_properties", triggerProperties);
           ("attributes",
            VObj (spread (js_object [("email_subscribe", VStr "subscribed");
                                     ("push_subscribe", VStr "subscribed")])
                         (own_props userAttributes)))])])]) in
    try_catch
      (response ← http (postRequest svc "/campaigns/trigger/send" campaignData);
       mret (data response))
      (fun error => Throw (request_failed error)).

(** [async triggerCanvas({ canvasId, userId, canvasEntryProperties = {} })] *)
Definition triggerCanvas (http : Http) (svc : BrazeService)
    (canvasId userId canvasEntryProperties : JsVal) : Completion HttpResponse :=
  let canvasEntryProperties := default_param canvasEntryProperties (VObj ∅) in
  if negb (configured svc) then Throw configuration_missing
  else
    let canvasData := VObj (js_object
      [("canvas_id", canvasId);
       ("recipients",
        VArr [VObj (js_object
          [("external_user_id", userId);
           ("canvas_entry_properties", canvasEntryProperties)])])]) in
    try_catch
      (response ← http (postRequest svc "/canvas/trigger/send" canvasData);
       mret response)
      (fun error => Throw error).

End Braze.


(** ** server.js *)

Module Server.

(** The calls the request handlers make on the [brazeService] object, in
    the order they are made. *)
Inductive BrazeCall : Type :=
| UpdateUserAttributes (userId attributes : JsVal)
| TriggerCampaign (userId campaignId triggerProperties : JsVal)
| TrackEvent (userId eventName eventProperties userAttributes : JsVal).

(** What a request handler runs against: the network, the SDK's
    string-assignment method at this request, the clock, [process.env] and
    the [brazeService] object. *)
Record Runtime := {
  rt_http : Http;
  rt_sdk : Eppo.Provider;
  rt_now : string;
  rt_env : gmap string string;
  rt_braze : Braze.BrazeService
}.

(** An [async] handler: it runs on the [eppoService] object, completes or
    throws, and leaves the calls it made on [brazeService]. *)
Definition Handler (A : Type) : Type :=
  Eppo.EppoService -> Completion A * Eppo.EppoService * list BrazeCall.

#[global] Instance handler_ret : MRet Handler :=
  fun A a s => (Return a, s, []).

#[global] Instance handler_bind : MBind Handler :=
  fun A B k m s =>
    match m s with
    | (Return a, s1, l1) =>
        match k a s1 with (r, s2, l2) => (r, s2, (l1 ++ l2)%list) end
    | (Throw e, s1, l1) => (Throw e, s1, l1)
    end.

(** A completion that touches neither object. *)
Definition liftC {A} (c : Completion A) : Handler A := fun s => (c, s, []).

(** [try { m } catch (error) { h error }] *)
Definition tryH {A} (m : Handler A) (h : JsError -> Handler A) : Handler A :=
  fun s =>
    match m s with
    | (Return a, s1, l1) => (Return a, s1, l1)
    | (Throw e, s1, l1) =>
        match h e s1 with (r, s2, l2) => (r, s2, (l1 ++ l2)%list) end
    end.

(** Reading the [eppoService] object. *)
Definition getService : Handler Eppo.EppoService := fun s => (Return s, s, []).

(** [await brazeService.updateUserAttributes({ userId, attributes })] *)
Definition brazeUpdateUserAttributes (w : Runtime) (userId attributes : JsVal)
  : Handler HttpResponse :=
  fun s => (Braze.updateUserAttributes (rt_http w) (rt_braze w) userId attributes,
            s, [UpdateUserAttributes userId attributes]).

(** [await brazeService.triggerCampaign({ userId, campaignId, triggerProperties })] *)
Definition brazeTriggerCampaign (w : Runtime)
    (userId campaignId triggerProperties : JsVal) : Handler JsVal :=
  fun s => (Braze.triggerCampaign (rt_http w) (rt_braze w) userId campaignId
                                  triggerProperties VUndef,
            s, [TriggerCampaign userId campaignId triggerProperties]).

(** [await brazeService.trackEvent({ userId, eventName, eventProperties, userAttributes })] *)
Definition brazeTrackEvent (w : Runtime)
    (userId eventName eventProperties userAttributes : JsVal)
  : Handler HttpResponse :=
  fun s => (Braze.trackEvent (rt_http w) (rt_now w) (rt_braze w) userId eventName
                             eventProperties userAttributes,
            s, [TrackEvent userId eventName eventProperties userAttributes]).

(** [eppoService.getAssignment(flagKey, userId, userAttributes)] *)
Definition eppoGetAssignment (w : Runtime) (flagKey userId userAttributes : JsVal)
  : Handler JsVal :=
  fun s =>
    match Eppo.getAssignment (rt_sdk w) (rt_now w) flagKey userId userAttributes s with
    | (r, s') => (r, s', [])
    end.

(** [v !== undefined] *)
Definition not_undefined (v : JsVal) : bool :=
  match v with VUndef => false | _ => true end.

(** [process.env.K || d] *)
Definition env_or (v : option string) (d : string) : string :=
  if env_truthy v then env_str v else d.

(** [process.env.EXPERIMENT_FLAG_KEY || 'braze_message_experiment'] *)
Definition experimentFlagKey (env : gmap string string) : string :=
  env_or (env !! "EXPERIMENT_FLAG_KEY") "braze_message_experiment".

(** [s.includes(sub)] *)
Definition includes (sub s : string) : bool :=
  match String.index 0 sub s with Some _ => true | None => false end.

(** [const { k, ... } = v]: destructuring [undefined] or [null] throws a
    TypeError. *)
Definition destructure (v : JsVal) (k what : string) : Completion JsVal :=
  match v with
  | VUndef | VNull =>
      Throw (Error ("Cannot destructure property '" ++ k ++ "' of '" ++ what ++
                    "' as it is " ++ ToString v ++ "."))
  | _ => Return (prop (own_props v) k)
  end.

(** The gate step shared by the handlers:
    [try { await brazeService.updateUserAttributes({userId, attributes: {eppo_gate: true}}) } catch (brazeError) { log }] *)
Definition gateAttributes : JsVal :=
  VObj (js_object [("eppo_gate", VBool true)]).

Definition ensureGate (w : Runtime) (userId : JsVal) : Handler unit :=
  tryH (_ ← brazeUpdateUserAttributes w userId gateAttributes;
        mret tt)
       (fun brazeError => mret tt).

(** The message that would be sent, by exact match on the assignment
    (lines 538-559 of the server). *)
Definition messagePreviewFor (assignment : JsVal) : JsObj :=
  if strict_eq_str assignment "treatment" then
    js_object
      [("type", VStr "TREATMENT");
       ("subject", VStr "🎉 Special Offer - Treatment Version!");
       ("body", VStr "You've been selected for our premium treatment experience!");
       ("message_variation_id", VStr "treatment_variation")]
  else if strict_eq_str assignment "control" then
    js_object
      [("type", VStr "CONTROL");
       ("subject", VStr "📰 Your Weekly Update");
       ("body", VStr "Here's your regular weekly update with the latest news.");
       ("message_variation_id", VStr "control_variation")]
  else
    js_object
      [("type", VStr "DEFAULT");
       ("subject", VStr "👋 Hello from our integration!");
       ("body", VStr "This is a default message for users not in the experiment.");
       ("message_variation_id", VStr "default_variation")].

(** [{ eppo_flag_key: flagKey, eppo_assignment: assignment }] *)
Definition triggerPropertiesFor (flagKey assignment : JsVal) : JsVal :=
  VObj (js_object [("eppo_flag_key", flagKey);
                   ("eppo_assignment", assignment)]).

(** The campaign step (lines 512-535): only for a request that does not
    look like a Braze webhook; every error is caught and logged. *)
Definition maybeTriggerCampaign (w : Runtime) (isFromBrazeWebhook : bool)
    (userId flagKey assignment : JsVal) : Handler unit :=
  if negb isFromBrazeWebhook then
    let campaignId := rt_env w !! "BRAZE_WEBHOOK_CAMPAIGN_ID" in
    tryH (if env_truthy campaignId && includes "your_" (env_str campaignId) then
            mret tt
          else if env_truthy campaignId then
            _ ← brazeTriggerCampaign w userId (VStr (env_str campaignId))
                  (triggerPropertiesFor flagKey assignment);
            mret tt
          else mret tt)
         (fun brazeError => mret tt)
  else mret tt.

(** The origin test of [processWebhookAndSendMessage] on the fields of the
    body: any of the four being other than [undefined] marks a Braze
    webhook. *)
Definition isFromBrazeWebhook (field : string -> JsVal) : bool :=
  not_undefined (field "trigger_properties")
  || not_undefined (field "eppo_variant")
  || not_undefined (field "eppo_flagkey")
  || not_undefined (field "subject").

(** [webhookData.user_id || webhookData.external_user_id || webhookData.userId
     || webhookData.subject || 'unknown-user'] *)
Definition webhookUserId (field : string -> JsVal) : JsVal :=
  js_or (field "user_id")
 (js_or (field "external_user_id")
 (js_or (field "userId")
 (js_or (field "subject") (VStr "unknown-user")))).

(** [webhookData.user_attributes || webhookData.attributes || {}] *)
Definition webhookUserAttributes (field : string -> JsVal) : JsVal :=
  js_or (field "user_attributes") (js_or (field "attributes") (VObj ∅)).

(** [async function processWebhookAndSendMessage(webhookData)] *)
Definition processWebhookAndSendMessage (w : Runtime) (webhookData : JsVal)
  : Handler JsVal :=
  _ ← liftC (get_prop webhookData "trigger_properties");
  let field := prop (own_props webhookData) in
  let fromBraze := isFromBrazeWebhook field in
  let userId := webhookUserId field in
  let userAttributes := webhookUserAttributes field in
  _ ← ensureGate w userId;
  let flagKey := VStr (experimentFlagKey (rt_env w)) in
  assignmentData ← eppoGetAssignment w flagKey userId userAttributes;
  assignment ← liftC (get_prop assignmentData "assignment");
  _ ← maybeTriggerCampaign w fromBraze userId flagKey assignment;
  let messagePreview := messagePreviewFor assignment in
  assignmentDetails ← liftC (get_prop assignmentData "assignmentDetails");
  mret (VObj (js_object
    [("userId", userId);
     ("eppoAssignment", assignment);
     ("flagKey", flagKey);
     ("assignmentDetails", assignmentDetails);
     ("messagePreview", VObj messagePreview);
     ("messageType", js_or assignment (VStr "default"));
     ("timestamp", VStr (rt_now w));
     ("demo_mode", VBool true);
     ("note", VStr "This is a demo - no actual messages were sent")])).

(** What a route sends: [res.status(code).json(body)]. *)
Record Reply := { code : Z; json : JsVal }.

(** [app.post('/')] and [app.post('/webhook')]: the two handlers differ in
    their console output only. *)
Definition webhookRoute (w : Runtime) (body : JsVal) : Handler Reply :=
  tryH (result ← processWebhookAndSendMessage w body;
        messagePreview ← liftC (get_prop result "messagePreview");
        mret {| code := 200; json := js_or messagePreview (VObj ∅) |})
       (fun error =>
          mret {| code := 500;
                  json := VObj (js_object
                    [("status", VStr "error");
                     ("message", VStr "Failed to process webhook");
                     ("error", VStr (message error));
                     ("timestamp", VStr (rt_now w))]) |}).

(** [app.post('/get-assignment')] *)
Definition getAssignmentRoute (w : Runtime) (body : JsVal) : Handler Reply :=
  tryH (userId ← liftC (destructure body "userId" "req.body");
        let userAttributes :=
          default_param (prop (own_props body) "userAttributes") (VObj ∅) in
        if negb (truthy userId) then
          mret {| code := 400;
                  json := VObj (js_object [("error", VStr "userId is required")]) |}
        else
          _ ← ensureGate w userId;
          let flagKey := VStr (experimentFlagKey (rt_env w)) in
          assignmentData ← eppoGetAssignment w flagKey userId userAttributes;
          s ← getService;
          let response :=
            spread (own_props assignmentData) (js_object
              [("serverInfo", VObj (js_object
                 [("flagKey", flagKey);
                  ("eppoInitialized", VBool (Eppo.isInitialized s));
                  ("clientInfo", VObj (Eppo.getClientInfo s));
                  ("environment",
                   VStr (env_or (rt_env w !! "NODE_ENV") "development"))]))]) in
          mret {| code := 200; json := VObj response |})
       (fun error =>
          mret {| code := 500;
                  json := VObj (js_object
                    [("error", VStr "Failed to get assignment");
                     ("details", VStr (message error));
                     ("timestamp", VStr (rt_now w))]) |}).

(** [app.post('/send-message')] *)
Definition sendMessageRoute (w : Runtime) (body : JsVal) : Handler Reply :=
  tryH (userId ← liftC (destructure body "userId" "req.body");
        let userAttributes :=
          default_param (prop (own_props body) "userAttributes") (VObj ∅) in
        if negb (truthy userId) then
          mret {| code := 400;
                  json := VObj (js_object [("error", VStr "userId is required")]) |}
        else
          webhookResponse ← processWebhookAndSendMessage w
            (VObj (js_object [("userId", userId);
                              ("user_attributes", userAttributes)]));
          messagePreview ← liftC (get_prop webhookResponse "messagePreview");
          flagKey ← liftC (get_prop webhookResponse "flagKey");
          eppoAssignment ← liftC (get_prop webhookResponse "eppoAssignment");
          mret {| code := 200;
                  json := VObj (js_object
                    [("messagePreview", messagePreview);
                     ("eventToTrack", VObj (js_object
                        [("name", VStr "message_sent_demo");
                         ("properties", VObj (js_object
                            [("eppo_flag_key", flagKey);
                             ("eppo_assignment", eppoAssignment)]))]));
                     ("webhookResponse", webhookResponse);
                     ("note", VStr "This is a demo response. No real messages were sent.")]) |})
       (fun error =>
          mret {| code := 500;
                  json := VObj (js_object
                    [("error", VStr "Failed to process demo message");
                     ("details", VStr (message error))]) |}).

(** [app.post('/track-event')] *)
Definition trackEventRoute (w : Runtime) (body : JsVal) : Handler Reply :=
  tryH (userId ← liftC (destructure body "userId" "req.body");
        let eventName := prop (own_props body) "eventName" in
        let eventProperties :=
          default_param (prop (own_props body) "eventProperties") (VObj ∅) in
        let userAttributes :=
          default_param (prop (own_props body) "userAttributes") (VObj ∅) in
        if negb (truthy userId) || negb (truthy eventName) then
          mret {| code := 400;
                  json := VObj (js_object
                    [("error", VStr "userId and eventName are required")]) |}
        else
          let flagKey := VStr (experimentFlagKey (rt_env w)) in
          flagAssignment ← eppoGetAssignment w flagKey userId userAttributes;
          let enrichedProperties := VObj (spread (own_props eventProperties)
            (js_object
               [("eppo_flag_key", flagKey);
                ("eppo_assignment", flagAssignment);
                ("experiment_id",
                 match rt_env w !! "EXPERIMENT_FLAG_KEY" with
                 | Some k => VStr k
                 | None => VUndef
                 end);
                ("timestamp", VStr (rt_now w))])) in
          brazeResponse ← brazeTrackEvent w userId eventName enrichedProperties
            (VObj (spread (own_props userAttributes)
                          (js_object [("eppo_variant", flagAssignment)])));
          mret {| code := 200;
                  json := VObj (js_object
                    [("success", VBool true);
                     ("userId", userId);
                     ("eventName", eventName);
                     ("eppoVariant", flagAssignment);
                     ("eventProperties", enrichedProperties);
                     ("brazeResponse", data brazeResponse);
                     ("timestamp", VStr (rt_now w))]) |})
       (fun error =>
          mret {| code := 500;
                  json := VObj (js_object
                    [("error", VStr "Failed to track event");
                     ("details", VStr (message error))]) |}).

(** [app.get('/health')] *)
Definition healthRoute (w : Runtime) : Handler Reply :=
  s ← getService;
  mret {| code := 200;
          json := VObj (js_object
            [("status", VStr "healthy");
             ("timestamp", VStr (rt_now w));
             ("eppoInitialized", VBool (Eppo.isInitialized s))]) |}.

End Server.
(** * Reachable states and fixtures *)

Import Eppo.

Local Open Scope list_scope.
Local Open Scope nat_scope.

(** The states the service object can be in: the constructor's state, and
    whatever its methods and the SDK's calls of the logger make of it. *)
Inductive reachable : EppoService → Prop :=
| reach_new : reachable new_EppoService
| reach_initializeEppo key init s :
    reachable s → reachable (initializeEppo key init s).2
| reach_logAssignment now assignment s :
    reachable s → reachable (logAssignment now assignment s)
| reach_getAssignment sdk now flagKey userId userAttributes s :
    reachable s →
    reachable (getAssignment sdk now flagKey userId userAttributes s).2
| reach_getBooleanAssignment sdk flagKey userId userAttributes d s :
    reachable s →
    reachable (getBooleanAssignment sdk flagKey userId userAttributes d s).2
| reach_getNumericAssignment sdk flagKey userId userAttributes d s :
    reachable s →
    reachable (getNumericAssignment sdk flagKey userId userAttributes d s).2.

(** No key twice, and never more entries than the bound. *)
Definition cache_inv (m : list (string * JsObj)) : Prop :=
  NoDup (map_keys m) ∧ map_size m ≤ capacity.

(** The property [k] of the object a call returned; [None] when the call
    threw, returned no object, or the object has no such property. *)
Definition result_field (c : Completion JsVal) (k : string) : option JsVal :=
  match c with
  | Return (VObj o) => o !! k
  | _ => None
  end.

(** The SDK's string-assignment call of this request. *)
Definition stringCall (sdk : Provider) (flagKey userId userAttributes : JsVal)
  : ProviderCall :=
  sdk flagKey userId (default_param userAttributes (VObj ∅)) VNull.

(** The service object at the moment [getAssignment] looks the cache up:
    the request context is set and the SDK call has invoked the logger. *)
Definition atLookup (sdk : Provider) (flagKey userId userAttributes : JsVal)
    (s : EppoService) : EppoService :=
  fire (fired (stringCall sdk flagKey userId userAttributes))
       (beginRequest flagKey userId (default_param userAttributes (VObj ∅)) s).

(** The guard [!this.client || !this.initialized] of the three getters. *)
Definition not_initialized (s : EppoService) : Prop :=
  client s = None ∨ initialized s = false.

(** The request context [getAssignment] stores. *)
Definition contextOf (flagKey userId userAttributes : JsVal)
  : option RequestContext :=
  Some {| rc_flagKey := flagKey; rc_userId := userId;
          rc_userAttributes := default_param userAttributes (VObj ∅) |}.

(** What holds of a typed getter [get] whose parameter default is [dflt]:
    the default comes back when the service object is not initialized or
    the SDK call throws; the value returned does not depend on the cache;
    and the cache changes only by the logger invocations the SDK makes
    during the call. *)
Definition typed_getter_contract (dflt : JsVal)
    (get : Provider → JsVal → JsVal → JsVal → JsVal → EppoService →
           Completion JsVal * EppoService) : Prop :=
  ∀ sdk flagKey userId userAttributes defaultValue s,
    let d := default_param defaultValue dflt in
    let call := sdk flagKey userId (default_param userAttributes (VObj ∅)) d in
    let r := get sdk flagKey userId userAttributes defaultValue s in
    (not_initialized s → r = (Return d, s)) ∧
    (∀ e, outcome call = Throw e → r.1 = Return d) ∧
    (∀ m, (get sdk flagKey userId userAttributes defaultValue
               (with_recentAssignments m s)).1 = r.1) ∧
    (¬ not_initialized s → r.2 = fire (fired call) s) ∧
    (fired call = [] → r.2 = s).

(** ** Vocabulary of the enrichment claims *)

(** The output of the fallback path for the attributes [ea]. *)
Definition enrichFallback (ea : JsObj) : JsObj :=
  Hightouch.removeNullish (Hightouch.fromBrowser ea).

(** The [else] branch is taken: not found, or found without audiences. *)
Definition no_audience_data (r : Hightouch.AudienceLookup) : Prop :=
  truthy (Hightouch.found r)
  && bool_decide (0 < size (own_props (Hightouch.audiences r))) = false.

(** An explicit flag [k] holds in [ea] when its value is truthy. *)
Definition explicit (ea : JsObj) (k : string) : bool := truthy (prop ea k).

(** A flag that is a boolean, or is not given. *)
Definition is_flag (v : JsVal) : Prop := v = VUndef ∨ ∃ b, v = VBool b.

(** A value survives the final clean-up unless it is [undefined] or [null]. *)
Definition present (v : JsVal) : option JsVal :=
  if is_nullish v then None else Some v.

(** The output flag [flag] of [out] follows the inclusive OR of the explicit
    flag, its alias and the two tier spellings compared with [tier]: it is
    truthy exactly when one of the four holds, it is [false] when none
    does, and it is the boolean of the OR when the two explicit flags are
    booleans or not given. *)
Definition flag_follows (ea out : JsObj) (flag alias tier : string) : Prop :=
  let holds :=
    explicit ea flag || explicit ea alias
    || strict_eq_str (prop ea "subscription_tier") tier
    || strict_eq_str (prop ea "subscriptionTier") tier in
  (∃ v, out !! flag = Some v ∧ truthy v = holds) ∧
  (holds = false → out !! flag = Some (VBool false)) ∧
  (is_flag (prop ea flag) → is_flag (prop ea alias) →
   out !! flag = Some (VBool holds)).

(** ** Fixtures for the concrete checks *)

(** A network on which every request is rejected with [e]. *)
Definition http_down (e : JsError) : Http := fun _ => Throw e.

(** A rejection by timeout: no response. *)
Definition timeout_error : JsError := Error "timeout of 5000ms exceeded".

(** A rejection with an HTTP status. *)
Definition status_error (code : Z) : JsError :=
  {| message := "Request failed with status code " +:+ pretty code;
     response := Some {| status := VNum code;
                         data := VObj (js_object [("message", VStr "upstream")]%string) |} |}.

Definition hightouch : Hightouch.HightouchService :=
  {| Hightouch.apiKey := Some "ht-key"%string;
     Hightouch.baseUrl := "https://personalization.us-west-2.hightouch.com";
     Hightouch.collectionName := "customers" |}.


Definition braze : Braze.BrazeService :=
  {| Braze.apiKey := Some "braze-key"%string;
     Braze.restEndpoint := Some "https://rest.iad-01.braze.com"%string;
     Braze.appId := Some "app"%string |}.

Definition sdk_client : Client :=
  {| assignmentLogger := VObj ∅; assignmentCache := VUndef;
     _assignmentCache := VUndef |}.

(** A service object after a successful [initializeEppo]. *)
Definition ready : EppoService :=
  (initializeEppo (Some "sdk-key"%string) (Return sdk_client) new_EppoService).2.

(** A logger invocation whose payload names subject and flag. *)
Definition event (subject flagKey : string) : SinkEvent :=
  {| ev_now := "2024-01-01T00:00:00.000Z"%string;
     ev_assignment := js_object
       [("subject", VStr subject); ("flagKey", VStr flagKey);
        ("variation", VStr "control")]%string |}.

(** An SDK call that does not invoke the logger. *)
Definition silent (r : Completion JsVal) : Provider :=
  fun _ _ _ _ => {| fired := []; outcome := r |}.

(** An SDK call that invokes the logger once and returns [r]. *)
Definition logging (ev : SinkEvent) (r : JsVal) : Provider :=
  fun _ _ _ _ => {| fired := [ev]; outcome := Return r |}.

(** The cache filled to its bound: A, B, C, then 97 further users. *)
Definition full_cache : EppoService :=
  fire (event "A" "f" :: event "B" "f" :: event "C" "f" ::
        ((fun i => event ("user-" +:+ pretty i) "f") <$> seq 0 97)) ready.

(** A payload that names neither flag key nor subject. *)
Definition bare_event : SinkEvent :=
  {| ev_now := "2024-01-01T00:00:00.000Z"%string;
     ev_assignment := js_object [("variation", VStr "control")]%string |}.


(** ** Vocabulary of the further properties *)

(** The property [k] of an optional object value. *)
Definition field_of (v : option JsVal) (k : string) : option JsVal :=
  match v with
  | Some (VObj o) => o !! k
  | _ => None
  end.

(** The record the logger files for the payload [a] during the request
    [(flagKey, userId)] when the payload names neither flag key nor
    subject. *)
Definition requestRecord (now : string) (flagKey : JsVal) (a : JsObj) : JsObj :=
  <["timestamp" := js_or (prop a "timestamp") (VStr now)]>
    (<["flagKey" := flagKey]> a).

(** A network that answers every request with status 200 and body [d]. *)
Definition http_ok (d : JsVal) : Http :=
  fun _ => Return {| status := VNum 200; data := d |}.

(** A Hightouch record with one audience and some attributes. *)
Definition hightouch_record : JsVal :=
  VObj (js_object
    [("_audiences", VObj (js_object [("premium_subscriber", VBool true);
                                     ("at_risk_churn", VStr "true")]));
     ("lifetime_value", VNum 1492);
     ("custom_attributes", VObj (js_object [("plan", VStr "annual")]))])%string.

(** The attributes [getUserAudiences] extracts from the record [o]. *)
Definition providerAttributes (o : JsObj) : JsObj :=
  spread (js_object [("lifetime_value", prop o "lifetime_value");
                     ("churn_risk", prop o "churn_risk");
                     ("tier", prop o "tier");
                     ("subscription_status", prop o "subscription_status")]%string)
         (own_props (prop o "custom_attributes")).

(** The audiences [getUserAudiences] extracts from the record [o]:
    [userData._audiences || {}]. *)
Definition providerAudiences (o : JsObj) : JsVal :=
  js_or (prop o "_audiences") (VObj ∅).

(** The keys the two branches of [getEnrichedUserAttributes] write. *)
Definition audienceFlags : list string :=
  ["premium_subscriber"; "high_value_customer"; "at_risk_churn"]%string.

Definition browserKeys : list string :=
  audienceFlags ++ ["subscription_tier"; "user_segment"; "country";
                    "device_type"; "_attribute_source"]%string.

Definition providerKeys : list string :=
  ["lifetime_value"; "churn_risk"; "tier"; "subscription_status"]%string.

(** ** Vocabulary of the server properties *)

(** The campaign id the server would trigger: the configured one, unless it
    is missing, empty, or still a placeholder containing "your_". *)
Definition campaignToTrigger (env : gmap string string) : option string :=
  match env !! "BRAZE_WEBHOOK_CAMPAIGN_ID"%string with
  | Some id =>
      if env_truthy (Some id) && negb (Server.includes "your_" id)
      then Some id else None
  | None => None
  end.

(** The calls on [brazeService] the campaign step makes. *)
Definition dispatchCalls (w : Server.Runtime) (fromBraze : bool)
    (userId flagKey assignment : JsVal) : list Server.BrazeCall :=
  match campaignToTrigger (Server.rt_env w) with
  | Some id =>
      if fromBraze then []
      else [Server.TriggerCampaign userId (VStr id)
              (Server.triggerPropertiesFor flagKey assignment)]
  | None => []
  end.

(** The fields whose presence marks a body as a Braze webhook. *)
Definition originFields : list string :=
  ["trigger_properties"; "eppo_variant"; "eppo_flagkey"; "subject"]%string.

(** What [processWebhookAndSendMessage] derives from a body and hands to
    [eppoService.getAssignment]. *)
Definition webhookAssignment (w : Server.Runtime) (body : JsVal)
    (s : EppoService) : Completion JsVal * EppoService :=
  let field := prop (own_props body) in
  getAssignment (Server.rt_sdk w) (Server.rt_now w)
                (VStr (Server.experimentFlagKey (Server.rt_env w)))
                (Server.webhookUserId field)
                (Server.webhookUserAttributes field) s.

(** A server whose Braze credentials and campaign id are configured. *)
Definition demo_env : gmap string string :=
  list_to_map [("BRAZE_WEBHOOK_CAMPAIGN_ID", "campaign-1");
               ("EXPERIMENT_FLAG_KEY", "flagX")]%string.

Definition demo_runtime (http : Http) (sdk : Provider) : Server.Runtime :=
  {| Server.rt_http := http; Server.rt_sdk := sdk;
     Server.rt_now := "2024-01-01T00:00:00.000Z"%string;
     Server.rt_env := demo_env; Server.rt_braze := braze |}.

(** The body the README configures for the Braze webhook campaign. *)
Definition documented_webhook_body : JsVal :=
  VObj (js_object [("user_id", VStr "user1");
                   ("eppo_flag_key", VStr "flagX");
                   ("eppo_assignment", VStr "treatment")])%string.

(** A body as Braze sends it with trigger properties. *)
Definition braze_webhook_body : JsVal :=
  VObj (js_object [("user_id", VStr "user1");
                   ("trigger_properties",
                    VObj (js_object [("eppo_flag_key", VStr "flagX")]))])%string.
(** * Properties *)

(** ** The insertion-ordered map *)

Section OrderedMapFacts.
Context {V : Type}.
Implicit Types (m : list (string * V)) (k : string) (v : V).

Lemma map_get_set_eq k v m : map_get k (map_set k v m) = Some v.
Proof.
  induction m as [|[k' v'] m IH]; simpl.
  - by rewrite decide_True.
  - destruct (decide (k = k')) as [->|Hne]; simpl.
    + by rewrite decide_True.
    + by rewrite decide_False.
Qed.

Lemma map_get_set_ne k k' v m :
  k ≠ k' → map_get k' (map_set k v m) = map_get k' m.
Proof.
  intros Hne. induction m as [|[k0 v0] m IH]; simpl.
  - by rewrite decide_False.
  - destruct (decide (k = k0)) as [->|Hk]; simpl.
    + by rewrite !decide_False.
    + by rewrite IH.
Qed.


Lemma map_get_delete_ne k k' m :
  k ≠ k' → map_get k' (map_delete k m) = map_get k' m.
Proof.
  intros Hne. unfold map_delete. induction m as [|[k0 v0] m IH]; [done|].
  rewrite filter_cons. simpl. destruct (decide (k0 ≠ k)) as [Hk|Hk]; simpl.
  - by rewrite IH.
  - apply dec_stable in Hk. subst k0. by rewrite decide_False.
Qed.

Lemma map_get_None_keys k m : map_get k m = None ↔ k ∉ map_keys m.
Proof.
  unfold map_keys. induction m as [|[k' v'] m IH]; simpl.
  - split; [intros _; apply not_elem_of_nil | done].
  - rewrite not_elem_of_cons. destruct (decide (k = k')) as [->|Hne].
    + split; [done | intros [? _]; done].
    + rewrite IH. tauto.
Qed.

Lemma map_get_Some_keys k m : is_Some (map_get k m) ↔ k ∈ map_keys m.
Proof.
  rewrite <- not_eq_None_Some, map_get_None_keys.
  split; [apply dec_stable | auto].
Qed.

(** A new key is appended; an existing key keeps its place. *)
Lemma map_set_fresh k v m : map_get k m = None → map_set k v m = m ++ [(k, v)].
Proof.
  induction m as [|[k' v'] m IH]; simpl; [done|].
  destruct (decide (k = k')); [done|]. intros H. by rewrite IH.
Qed.

Lemma map_keys_set_present k v m :
  is_Some (map_get k m) → map_keys (map_set k v m) = map_keys m.
Proof.
  unfold map_keys. induction m as [|[k' v'] m IH]; cbn [map_get map_set].
  - by intros [? ?].
  - destruct (decide (k = k')) as [->|Hne]; [done|].
    intros H. rewrite !fmap_cons. f_equal. by apply IH.
Qed.

Lemma length_map_keys m : length (map_keys m) = map_size m.
Proof. apply length_fmap. Qed.

Lemma map_size_set_present k v m :
  is_Some (map_get k m) → map_size (map_set k v m) = map_size m.
Proof.
  intros H. apply map_keys_set_present with (v := v) in H.
  by rewrite <- !length_map_keys, H.
Qed.

Lemma map_size_set_fresh k v m :
  map_get k m = None → map_size (map_set k v m) = S (map_size m).
Proof.
  intros H. rewrite map_set_fresh by done. unfold map_size.
  rewrite length_app. simpl. lia.
Qed.

Lemma map_size_set_le k v m : map_size (map_set k v m) ≤ S (map_size m).
Proof.
  destruct (map_get k m) eqn:E.
  - rewrite map_size_set_present by eauto. lia.
  - rewrite map_size_set_fresh by done. lia.
Qed.

Lemma map_keys_delete k m :
  map_keys (map_delete k m) = filter (λ k', k' ≠ k) (map_keys m).
Proof.
  unfold map_keys, map_delete. induction m as [|[k' v'] m IH]; [done|].
  rewrite fmap_cons, !filter_cons. cbn [fst].
  destruct (decide (k' ≠ k)); [rewrite fmap_cons; cbn [fst]; f_equal|];
    exact IH.
Qed.

Lemma map_size_delete_le k m : map_size (map_delete k m) ≤ map_size m.
Proof. apply length_filter. Qed.

Lemma map_size_delete_present k m :
  is_Some (map_get k m) → S (map_size (map_delete k m)) ≤ map_size m.
Proof.
  intros H. apply map_get_Some_keys in H. unfold map_keys in H.
  apply list_elem_of_fmap in H as [[k' v'] [-> Hin]].
  unfold map_size, map_delete.
  apply (length_filter_lt (λ kv : string * V, kv.1 ≠ k') m (k', v')); [done|].
  simpl. tauto.
Qed.

Lemma map_delete_absent k m : map_get k m = None → map_delete k m = m.
Proof.
  unfold map_delete. induction m as [|[k' v'] m IH]; simpl; [done|].
  destruct (decide (k = k')) as [->|Hne]; [done|]. intros H.
  rewrite filter_cons_True by (simpl; congruence). by rewrite IH.
Qed.

(** Deleting the first key of a map without repeated keys drops exactly
    the first entry. *)
Lemma map_delete_first k v m :
  NoDup (map_keys ((k, v) :: m)) → map_delete k ((k, v) :: m) = m.
Proof.
  unfold map_keys. simpl. rewrite NoDup_cons. intros [Hk _].
  unfold map_delete. rewrite filter_cons_False by (simpl; tauto).
  apply (map_delete_absent k m). by apply map_get_None_keys.
Qed.

Lemma NoDup_map_set k v m :
  NoDup (map_keys m) → NoDup (map_keys (map_set k v m)).
Proof.
  intros Hnd. destruct (map_get k m) eqn:E.
  - by rewrite map_keys_set_present by eauto.
  - rewrite map_set_fresh by done. unfold map_keys in *.
    rewrite fmap_app. apply NoDup_app. split; [done|]. split.
    + intros x Hx. simpl. rewrite list_elem_of_singleton. intros ->.
      by apply map_get_None_keys in E.
    + simpl. apply NoDup_singleton.
Qed.

Lemma NoDup_map_delete k m :
  NoDup (map_keys m) → NoDup (map_keys (map_delete k m)).
Proof. rewrite map_keys_delete. apply NoDup_filter. Qed.
End OrderedMapFacts.

(** ** The assignment cache of [EppoService] *)

Lemma cleanUp_small m : map_size m ≤ capacity → cleanUp m = m.
Proof. intros H. unfold cleanUp. by rewrite decide_False by lia. Qed.

Lemma cleanUp_over k v m :
  NoDup (map_keys ((k, v) :: m)) → capacity < map_size ((k, v) :: m) →
  cleanUp ((k, v) :: m) = m.
Proof.
  intros Hnd Hlt. unfold cleanUp. rewrite decide_True by done.
  cbn [map_first_key map_keys fmap list_fmap head fst].
  by apply map_delete_first.
Qed.

Lemma cleanUp_inv m :
  NoDup (map_keys m) → map_size m ≤ S capacity → cache_inv (cleanUp m).
Proof.
  intros Hnd Hsz. destruct (decide (capacity < map_size m)) as [Hlt|Hle].
  - destruct m as [|[k v] m]; [simpl in Hlt; unfold capacity in Hlt; lia|].
    rewrite cleanUp_over by done. split.
    + unfold map_keys in *. rewrite fmap_cons in Hnd.
      by apply NoDup_cons in Hnd as [_ ?].
    + unfold map_size in *. simpl in Hsz. lia.
  - rewrite cleanUp_small by lia. split; [done | lia].
Qed.

Lemma logAssignment_inv now assignment s :
  cache_inv (recentAssignments s) →
  cache_inv (recentAssignments (logAssignment now assignment s)).
Proof.
  intros [Hnd Hsz]. unfold logAssignment. cbn [recentAssignments with_recentAssignments with_assignmentLoggerCalled].
  apply cleanUp_inv.
  - by apply NoDup_map_set.
  - etrans; [apply map_size_set_le|]. lia.
Qed.

Lemma fire_inv evs s :
  cache_inv (recentAssignments s) → cache_inv (recentAssignments (fire evs s)).
Proof.
  revert s. induction evs as [|ev evs IH]; intros s H; [done|].
  apply IH. by apply logAssignment_inv.
Qed.

Lemma lookupStored_inv key userId flagKey m :
  cache_inv m → cache_inv (lookupStored key userId flagKey m).2.
Proof.
  intros [Hnd Hsz]. unfold lookupStored.
  destruct (map_get key m) eqn:Hk; [by split|].
  destruct (map_get (ToString userId +:+ ":undefined") m) as [r|] eqn:Hu;
    [|by split].
  cbn [snd]. split.
  - by apply NoDup_map_delete, NoDup_map_set.
  - assert (ToString userId ++ ":undefined" ≠ key)%string as Hne
      by (intros <-; congruence).
    pose proof (map_size_delete_present (ToString userId ++ ":undefined")%string
                  (map_set key (<["flagKey":=flagKey]> r) m)) as Hd.
    rewrite map_get_set_ne, Hu, map_size_set_fresh in Hd by (done || eauto).
    specialize (Hd (ltac:(eauto))). lia.
Qed.

Lemma getAssignment_inv sdk now flagKey userId userAttributes s :
  cache_inv (recentAssignments s) →
  cache_inv (recentAssignments
               (getAssignment sdk now flagKey userId userAttributes s).2).
Proof.
  intros H. unfold getAssignment.
  destruct (client s); [|done].
  destruct (initialized s); [|done]. cbn [negb].
  set (s1 := fire _ _).
  assert (cache_inv (recentAssignments s1)) as H1 by (by apply fire_inv).
  destruct (outcome _); [|done].
  pose proof (lookupStored_inv (assignment_key userId flagKey) userId flagKey
                (recentAssignments s1) H1) as H2.
  destruct (lookupStored _ _ _ _) as [d m]. done.
Qed.

Lemma getTypedAssignment_inv dflt sdk flagKey userId userAttributes d s :
  cache_inv (recentAssignments s) →
  cache_inv (recentAssignments
               (getTypedAssignment dflt sdk flagKey userId userAttributes d s).2).
Proof.
  intros H. unfold getTypedAssignment.
  destruct (client s); [|done].
  destruct (initialized s); [|done]. cbn [negb].
  destruct (outcome _); by apply fire_inv.
Qed.

Lemma initializeEppo_cache key init s :
  recentAssignments (initializeEppo key init s).2 = recentAssignments s.
Proof.
  unfold initializeEppo. destruct (negb _); [done|]. by destruct init.
Qed.

Lemma reachable_cache_inv s : reachable s → cache_inv (recentAssignments s).
Proof.
  induction 1.
  - split; [apply NoDup_nil_2 | unfold capacity; simpl; lia].
  - by rewrite initializeEppo_cache.
  - by apply logAssignment_inv.
  - by apply getAssignment_inv.
  - by apply getTypedAssignment_inv.
  - by apply getTypedAssignment_inv.
Qed.

Lemma reachable_fire evs s : reachable s → reachable (fire evs s).
Proof.
  revert s. induction evs as [|ev evs IH]; intros s H; [done|].
  apply IH. by constructor.
Qed.

Lemma logAssignment_cache now assignment s :
  recentAssignments (logAssignment now assignment s) =
  cleanUp (map_set (loggedKey assignment s) (assignmentToStore now assignment s)
                   (recentAssignments s)).
Proof. reflexivity. Qed.

(** A look-up that hits, in a call during which the SDK does not invoke the
    logger, leaves the cache exactly as it was: order included. *)
Lemma getAssignment_read sdk now flagKey userId userAttributes s :
  fired (stringCall sdk flagKey userId userAttributes) = [] →
  is_Some (map_get (assignment_key userId flagKey) (recentAssignments s)) →
  recentAssignments (getAssignment sdk now flagKey userId userAttributes s).2
  = recentAssignments s.
Proof.
  intros Hf [d Hd]. unfold getAssignment, stringCall in *.
  destruct (client s); [|done].
  destruct (initialized s); [|done]. cbn [negb].
  rewrite Hf. cbn [fire foldl].
  destruct (outcome _); [|done].
  unfold lookupStored, beginRequest.
  cbn [recentAssignments with_currentRequest with_assignmentLoggerCalled].
  by rewrite Hd.
Qed.

(** An insertion that brings the size past the bound removes the oldest
    entry and nothing else. *)
Lemma logAssignment_evicts_oldest now assignment s :
  cache_inv (recentAssignments s) →
  capacity < map_size (map_set (loggedKey assignment s)
                               (assignmentToStore now assignment s)
                               (recentAssignments s)) →
  ∃ oldest v rest,
    recentAssignments s = (oldest, v) :: rest ∧
    oldest ≠ loggedKey assignment s ∧
    recentAssignments (logAssignment now assignment s) =
      rest ++ [(loggedKey assignment s, assignmentToStore now assignment s)].
Proof.
  intros [Hnd Hsz] Hover. rewrite logAssignment_cache.
  set (key := loggedKey assignment s) in *.
  set (record := assignmentToStore now assignment s) in *.
  destruct (map_get key (recentAssignments s)) eqn:Hget.
  { rewrite map_size_set_present in Hover by eauto. lia. }
  pose proof (NoDup_map_set key record _ Hnd) as Hnd'.
  rewrite map_set_fresh in * by done.
  destruct (recentAssignments s) as [|[oldest v] rest] eqn:Hm.
  { unfold capacity in Hover. simpl in Hover. lia. }
  exists oldest, v, rest. split; [done|]. split.
  - intros ->. simpl in Hget. by rewrite decide_True in Hget.
  - by apply (cleanUp_over oldest v).
Qed.

(** C2. After every invocation of the assignment logger on a reachable
    service object the cache holds at most 100 entries.  When the insertion
    brings the size past 100, the entry removed is the oldest-inserted one
    (the head of the insertion order) and the rest is kept in order with
    the new record last.  Reading an entry through [getAssignment] does not
    move it, so after a read of the oldest key A an insertion past the
    bound still evicts A: first-in first-out, not least-recently-used. *)
Theorem logAssignment_bound_fifo :
  ∀ (now : string) (assignment : JsObj) (s : EppoService),
    reachable s →
    map_size (recentAssignments (logAssignment now assignment s)) ≤ 100 ∧
    (100 < map_size (map_set (loggedKey assignment s)
                             (assignmentToStore now assignment s)
                             (recentAssignments s)) →
     ∃ oldest v rest,
       recentAssignments s = (oldest, v) :: rest ∧
       oldest ≠ loggedKey assignment s ∧
       recentAssignments (logAssignment now assignment s) =
         rest ++ [(loggedKey assignment s, assignmentToStore now assignment s)]) ∧
    (∀ sdk now' flagKey userId userAttributes,
       fired (stringCall sdk flagKey userId userAttributes) = [] →
       is_Some (map_get (assignment_key userId flagKey) (recentAssignments s)) →
       recentAssignments (getAssignment sdk now' flagKey userId userAttributes s).2
       = recentAssignments s) ∧
    (∀ sdk now' flagKey userId userAttributes A,
       map_first_key (recentAssignments s) = Some A →
       assignment_key userId flagKey = A →
       fired (stringCall sdk flagKey userId userAttributes) = [] →
       let s1 := (getAssignment sdk now' flagKey userId userAttributes s).2 in
       100 < map_size (map_set (loggedKey assignment s1)
                               (assignmentToStore now assignment s1)
                               (recentAssignments s1)) →
       recentAssignments (logAssignment now assignment s1) =
         tail (recentAssignments s) ++
         [(loggedKey assignment s1, assignmentToStore now assignment s1)] ∧
       map_get A (recentAssignments (logAssignment now assignment s1)) = None).
Proof.
  intros now assignment s Hr.
  pose proof (reachable_cache_inv s Hr) as Hinv.
  split; [apply (logAssignment_inv now assignment s Hinv)|].
  split; [apply (logAssignment_evicts_oldest now assignment s Hinv)|].
  split; [intros; by apply getAssignment_read|].
  intros sdk now' flagKey userId userAttributes A Hfirst HA Hf s1 Hover.
  destruct (recentAssignments s) as [|[A' vA] rest] eqn:Hm; [done|].
  injection Hfirst as ->. cbn [tail].
  assert (recentAssignments s1 = recentAssignments s) as Hs1.
  { apply getAssignment_read; [done|]. rewrite HA, Hm. simpl.
    rewrite decide_True by done. eauto. }
  rewrite Hm in Hs1.
  assert (cache_inv (recentAssignments s1)) as Hinv1 by (by rewrite Hs1).
  destruct (logAssignment_evicts_oldest now assignment s1 Hinv1 Hover)
    as (oldest & v & rest' & Hm1 & Hne & Hres).
  rewrite Hs1 in Hm1. injection Hm1 as <- <- <-.
  split; [done|]. rewrite Hres.
  apply map_get_None_keys. unfold map_keys. rewrite fmap_app.
  rewrite elem_of_app. intros [Hin|Hin].
  - destruct Hinv as [Hnd _]. unfold map_keys in Hnd.
    rewrite fmap_cons in Hnd. by apply NoDup_cons in Hnd as [? _].
  - simpl in Hin. apply list_elem_of_singleton in Hin. done.
Qed.

Lemma reachable_ready : reachable ready.
Proof. apply reach_initializeEppo, reach_new. Qed.

Lemma reachable_full_cache : reachable full_cache.
Proof. apply reachable_fire, reachable_ready. Qed.

(** The scenario of C2 on the filled cache: A, B, C, ... are inserted, A is
    read, D is inserted past the bound; A is the entry evicted while B and C
    stay. *)
Lemma logAssignment_bound_fifo_witness :
  let D := ev_assignment (event "D" "f") in
  let read_A :=
    (getAssignment (silent (Return (VStr "control"))) "t1"
                   (VStr "f") (VStr "A") VUndef full_cache).2 in
  reachable full_cache ∧
  map_size (recentAssignments full_cache) = 100 ∧
  map_first_key (recentAssignments full_cache) = Some "A:f"%string ∧
  map_size (recentAssignments (logAssignment "t2" D full_cache)) ≤ 100 ∧
  recentAssignments (logAssignment "t2" D read_A) =
    tail (recentAssignments full_cache) ++
    [(loggedKey D read_A, assignmentToStore "t2" D read_A)] ∧
  map_get "A:f" (recentAssignments (logAssignment "t2" D read_A)) = None.
Proof.
  intros D read_A.
  pose proof (logAssignment_bound_fifo "t2" D full_cache reachable_full_cache)
    as (Hbound & _ & _ & Hscenario).
  split; [exact reachable_full_cache|].
  split; [vm_compute; reflexivity|].
  split; [vm_compute; reflexivity|].
  split; [exact Hbound|].
  apply (Hscenario (silent (Return (VStr "control"))) "t1"%string
           (VStr "f") (VStr "A") VUndef "A:f"%string).
  - vm_compute; reflexivity.
  - vm_compute; reflexivity.
  - reflexivity.
  - vm_compute. lia.
Defined.

(** Reading a property of an object literal. *)
Ltac js_lookup :=
  unfold result_field, js_object; cbn [foldl fst snd];
  repeat (rewrite lookup_insert_ne by done); rewrite ?lookup_insert_eq.

(** What [getAssignment] does once the SDK call has returned. *)
Lemma getAssignment_returned sdk now flagKey userId userAttributes s c assignment :
  client s = Some c → initialized s = true →
  outcome (stringCall sdk flagKey userId userAttributes) = Return assignment →
  let s1 := atLookup sdk flagKey userId userAttributes s in
  let found := lookupStored (assignment_key userId flagKey) userId flagKey
                            (recentAssignments s1) in
  let r := getAssignment sdk now flagKey userId userAttributes s in
  (∀ d, found.1 = Some d → result_field r.1 "assignmentDetails" = Some (VObj d)) ∧
  recentAssignments r.2 = found.2 ∧
  currentRequest r.2 = None.
Proof.
  intros Hc Hi Ho s1 found r. subst r found s1.
  unfold getAssignment, atLookup, stringCall in *.
  rewrite Hc, Hi. cbn [negb]. rewrite Ho.
  destruct (lookupStored _ _ _ _) as [d m]. cbn [fst snd].
  split; [|done]. intros d' ->. by js_lookup.
Qed.



(** The request context over a call of [getAssignment]: set before the SDK
    call, seen by every logger invocation of the call, cleared when the SDK
    call returns, and left in place when it throws. *)
Lemma currentRequest_logAssignment now assignment s :
  currentRequest (logAssignment now assignment s) = currentRequest s.
Proof. reflexivity. Qed.

Lemma currentRequest_fire evs s : currentRequest (fire evs s) = currentRequest s.
Proof.
  revert s. induction evs as [|ev evs IH]; intros s; [done|].
  change (currentRequest
            (fire evs (logAssignment (ev_now ev) (ev_assignment ev) s))
          = currentRequest s).
  by rewrite IH.
Qed.

Lemma getAssignment_context sdk now flagKey userId userAttributes s c :
  client s = Some c → initialized s = true →
  let ctx := contextOf flagKey userId userAttributes in
  let r := getAssignment sdk now flagKey userId userAttributes s in
  currentRequest (atLookup sdk flagKey userId userAttributes s) = ctx ∧
  (∀ a, outcome (stringCall sdk flagKey userId userAttributes) = Return a →
        currentRequest r.2 = None) ∧
  (∀ e, outcome (stringCall sdk flagKey userId userAttributes) = Throw e →
        currentRequest r.2 = ctx ∧
        result_field r.1 "assignmentDetails" = Some VNull).
Proof.
  intros Hc Hi ctx r. split; [apply currentRequest_fire|]. split.
  - intros a Ho.
    by destruct (getAssignment_returned sdk now flagKey userId userAttributes
                   s c a Hc Hi Ho) as (_ & _ & ?).
  - intros e Ho. subst r. unfold getAssignment, stringCall in *.
    rewrite Hc, Hi. cbn [negb]. rewrite Ho. cbn [fst snd].
    split; [apply currentRequest_fire | by js_lookup].
Qed.

(** C3. The context is set to [{flagKey, userId, userAttributes}] for the
    SDK call, but it is not cleared when that call throws: with an SDK whose
    string-assignment call throws, [getAssignment("flagX", "user1", {})] on
    an initialized service object returns (with [assignmentDetails: null])
    while [currentRequest] still holds the request's context. *)
Theorem getAssignment_throw_leaves_context :
  let r := getAssignment (silent (Throw (Error "SDK failure"))) "t"
                         (VStr "flagX") (VStr "user1") (VObj ∅) ready in
  currentRequest ready = None ∧
  result_field r.1 "assignmentDetails" = Some VNull ∧
  currentRequest r.2 =
    Some {| rc_flagKey := VStr "flagX"; rc_userId := VStr "user1";
            rc_userAttributes := VObj ∅ |}.
Proof. vm_compute. done. Qed.

(** A consequence: a logger invocation made later by a typed getter, which
    sets no context of its own, is filed under the stale request. *)
Lemma stale_context_misattributes :
  let s1 := (getAssignment (silent (Throw (Error "SDK failure"))) "t"
                           (VStr "flagX") (VStr "user1") (VObj ∅) ready).2 in
  let s2 := (getBooleanAssignment (logging bare_event (VBool true))
               (VStr "other_flag") (VStr "user2") (VObj ∅) (VBool false) s1).2 in
  map_keys (recentAssignments s2) = ["user1:flagX"%string].
Proof. vm_compute. done. Qed.

(** C4. When the service object is not initialized, [getAssignment] returns
    an object whose [assignment] and [assignmentDetails] are [null] and
    whose [initialized] is [false]; it returns normally, without calling the
    SDK and without touching the service object. *)
Theorem getAssignment_not_initialized :
  ∀ sdk now flagKey userId userAttributes s,
    not_initialized s →
    let r := getAssignment sdk now flagKey userId userAttributes s in
    result_field r.1 "assignment" = Some VNull ∧
    result_field r.1 "assignmentDetails" = Some VNull ∧
    result_field r.1 "initialized" = Some (VBool false) ∧
    (∃ v, r.1 = Return v) ∧
    r.2 = s.
Proof.
  intros sdk now flagKey userId userAttributes s Hs r.
  assert (r = (Return (VObj (js_object
       [("assignment", VNull);
        ("flagKey", flagKey);
        ("userId", userId);
        ("userAttributes", default_param userAttributes (VObj ∅));
        ("initialized", VBool false);
        ("assignmentDetails", VNull);
        ("timestamp", VStr now)]%string)), s)) as ->.
  { subst r. unfold getAssignment. destruct Hs as [->| ->]; [done|].
    by destruct (client s). }
  cbn [fst snd]. repeat split; try by js_lookup. eauto.
Qed.

Lemma getAssignment_not_initialized_witness :
  let r := getAssignment (silent (Return (VStr "control"))) "t"
                         (VStr "flagX") (VStr "user1") VUndef new_EppoService in
  result_field r.1 "assignment" = Some VNull ∧
  result_field r.1 "assignmentDetails" = Some VNull ∧
  result_field r.1 "initialized" = Some (VBool false) ∧
  (∃ v, r.1 = Return v) ∧
  r.2 = new_EppoService.
Proof.
  apply (getAssignment_not_initialized (silent (Return (VStr "control"))) "t"%string
           (VStr "flagX") (VStr "user1") VUndef new_EppoService).
  left. reflexivity.
Defined.

(** ** The typed getters *)

Lemma getTypedAssignment_contract dflt :
  typed_getter_contract dflt (getTypedAssignment dflt).
Proof.
  intros sdk flagKey userId userAttributes defaultValue s d call r.
  subst r call d. unfold getTypedAssignment, not_initialized.
  cbn [client initialized with_recentAssignments].
  destruct (client s) as [c|] eqn:Hc; [destruct (initialized s) eqn:Hi|];
    cbn [negb fst snd].
  - split; [intros [?|?]; done|].
    split; [by intros e ->|].
    split; [intros m; by destruct (outcome _)|].
    split; [intros _; by destruct (outcome _)|].
    intros ->. by destruct (outcome _).
  - repeat split; try done. intros H. destruct H. by right.
  - repeat split; try done. intros H. destruct H. by left.
Qed.

(** C9 as stated fails: a typed getter writes the cache whenever the SDK
    invokes the logger during the typed call.  Here the cache of an
    initialized service object is empty before [getBooleanAssignment] and
    holds the logged record after it. *)
Lemma getBooleanAssignment_writes_cache :
  let r := getBooleanAssignment (logging (event "user1" "flagX") (VBool true))
             (VStr "flagX") (VStr "user1") (VObj ∅) (VBool false) ready in
  r.1 = Return (VBool true) ∧
  recentAssignments ready = [] ∧
  map_keys (recentAssignments r.2) = ["user1:flagX"%string].
Proof. vm_compute. done. Qed.

(** C9, amended.  [getBooleanAssignment] and [getNumericAssignment] return
    the supplied default (the parameter's default, [false] or [0], when
    none is supplied) whenever the service object is not initialized or the
    SDK's typed call throws.  The value they return never depends on the
    cache, and they do not write it themselves: the service object after
    the call is the one before it with the logger invocations applied that
    the SDK made during the call; it is unchanged when the service object
    is not initialized or the SDK invokes no logger. *)
Theorem typed_getters_default_and_cache :
  typed_getter_contract (VBool false) getBooleanAssignment ∧
  typed_getter_contract (VNum 0) getNumericAssignment.
Proof. split; apply getTypedAssignment_contract. Qed.

Lemma typed_getters_default_and_cache_witness :
  let failing := silent (Throw (Error "SDK failure")) in
  (getBooleanAssignment failing (VStr "flagX") (VStr "user1") VUndef
                        (VBool true) new_EppoService).1 = Return (VBool true) ∧
  (getBooleanAssignment failing (VStr "flagX") (VStr "user1") VUndef
                        (VBool true) ready).1 = Return (VBool true) ∧
  (getNumericAssignment failing (VStr "flagX") (VStr "user1") VUndef
                        (VNum 7) ready) = (Return (VNum 7), ready).
Proof.
  intros failing.
  destruct typed_getters_default_and_cache as [HB HN].
  destruct (HB failing (VStr "flagX") (VStr "user1") VUndef (VBool true)
               new_EppoService) as (Hun & _).
  destruct (HB failing (VStr "flagX") (VStr "user1") VUndef (VBool true) ready)
    as (_ & Hth & _).
  destruct (HN failing (VStr "flagX") (VStr "user1") VUndef (VNum 7) ready)
    as (_ & Hth' & _ & _ & Hsilent).
  split; [by rewrite Hun by (by left)|].
  split; [by apply (Hth (Error "SDK failure"))|].
  apply injective_projections.
  - by apply (Hth' (Error "SDK failure")).
  - by apply Hsilent.
Defined.

(** ** Records logged without any context *)

Lemma map_get_app_fresh {V} (k : string) (v : V) (m : list (string * V)) :
  map_get k m = None → map_get k (m ++ [(k, v)]) = Some v.
Proof.
  intros H. rewrite <- (map_set_fresh k v m) by done. apply map_get_set_eq.
Qed.

(** Under the invariant the logger's record is in the cache when the logger
    returns: the clean-up never removes the record just stored. *)
Lemma logAssignment_stores now assignment s :
  cache_inv (recentAssignments s) →
  map_get (loggedKey assignment s)
          (recentAssignments (logAssignment now assignment s))
  = Some (assignmentToStore now assignment s).
Proof.
  intros Hinv.
  destruct (decide (capacity < map_size
              (map_set (loggedKey assignment s) (assignmentToStore now assignment s)
                       (recentAssignments s)))) as [Hover|Hle].
  - destruct (logAssignment_evicts_oldest now assignment s Hinv Hover)
      as (oldest & v & rest & Hm & Hne & ->).
    apply map_get_app_fresh.
    destruct (map_get (loggedKey assignment s) (recentAssignments s)) eqn:Hget.
    { destruct Hinv. rewrite map_size_set_present in Hover by eauto. lia. }
    rewrite Hm in Hget. simpl in Hget. by rewrite decide_False in Hget.
  - rewrite logAssignment_cache, cleanUp_small by lia. apply map_get_set_eq.
Qed.

Lemma key_unknown_inv (a b : string) :
  a +:+ ":" +:+ b = "unknown:unknown"%string →
  a = "unknown"%string ∧ b = "unknown"%string.
Proof.
  intros H.
  do 7 (destruct a as [|? a];
        [ discriminate H | try discriminate H; injection H as -> H ]).
  destruct a as [|? a].
  - cbv [String.append] in H. by injection H as ->.
  - try discriminate H. injection H as -> H.
    do 8 (destruct a as [|? a];
          [ discriminate H | try discriminate H; injection H as -> H ]).
Qed.

Lemma undefined_key_not_unknown (a : string) :
  a +:+ ":undefined" ≠ "unknown:unknown"%string.
Proof.
  intros H.
  do 16 (destruct a as [|? a];
         [ discriminate H | try discriminate H; injection H as -> H ]).
Qed.

(** A request other than ("unknown", "unknown") looks up two keys, neither
    of which is "unknown:unknown". *)
Lemma lookupStored_ignores_unknown userId flagKey (m : list (string * JsObj)) :
  ¬ (ToString userId = "unknown"%string ∧ ToString flagKey = "unknown"%string) →
  let found := lookupStored (assignment_key userId flagKey) userId flagKey m in
  found.1 = (lookupStored (assignment_key userId flagKey) userId flagKey
                          (map_delete "unknown:unknown" m)).1 ∧
  map_get "unknown:unknown" found.2 = map_get "unknown:unknown" m.
Proof.
  intros Hreal found. subst found.
  assert (assignment_key userId flagKey ≠ "unknown:unknown"%string) as HK
    by (intros H; by apply Hreal, key_unknown_inv).
  pose proof (undefined_key_not_unknown (ToString userId)) as HU.
  unfold lookupStored.
  rewrite !(map_get_delete_ne "unknown:unknown"%string) by done.
  destruct (map_get (assignment_key userId flagKey) m); [done|].
  destruct (map_get (ToString userId +:+ ":undefined") m); [|done].
  cbn [fst snd]. split; [done|].
  by rewrite map_get_delete_ne, map_get_set_ne.
Qed.

(** C10. When the payload carries neither flag key nor subject (both read
    as falsy) and no request context is live, the logger stores its record
    under the literal key "unknown:unknown", and the record is in the cache
    when the logger returns.  A later [getAssignment] for any user id and
    flag key other than the placeholder pair ("unknown", "unknown") looks
    up keys different from "unknown:unknown": what it finds is what it
    would find with that entry deleted, and its reconciliation leaves the
    entry as it is. *)
Theorem logAssignment_unknown_key :
  ∀ now assignment s,
    reachable s →
    truthy (prop assignment "flagKey") = false →
    truthy (prop assignment "subject") = false →
    currentRequest s = None →
    loggedKey assignment s = "unknown:unknown"%string ∧
    map_get "unknown:unknown" (recentAssignments (logAssignment now assignment s))
      = Some (assignmentToStore now assignment s) ∧
    ∀ flagKey userId (m : list (string * JsObj)),
      ¬ (ToString userId = "unknown"%string ∧ ToString flagKey = "unknown"%string) →
      let found := lookupStored (assignment_key userId flagKey) userId flagKey m in
      assignment_key userId flagKey ≠ "unknown:unknown"%string ∧
      ToString userId +:+ ":undefined" ≠ "unknown:unknown"%string ∧
      found.1 = (lookupStored (assignment_key userId flagKey) userId flagKey
                              (map_delete "unknown:unknown" m)).1 ∧
      map_get "unknown:unknown" found.2 = map_get "unknown:unknown" m ∧
      ∀ sdk now' userAttributes s2 c a,
        client s2 = Some c → initialized s2 = true →
        outcome (stringCall sdk flagKey userId userAttributes) = Return a →
        let cache := recentAssignments (atLookup sdk flagKey userId userAttributes s2) in
        let r := getAssignment sdk now' flagKey userId userAttributes s2 in
        map_get "unknown:unknown" (recentAssignments r.2)
          = map_get "unknown:unknown" cache ∧
        ∀ d, (lookupStored (assignment_key userId flagKey) userId flagKey cache).1
               = Some d →
             (lookupStored (assignment_key userId flagKey) userId flagKey
                           (map_delete "unknown:unknown" cache)).1 = Some d ∧
             result_field r.1 "assignmentDetails" = Some (VObj d).
Proof.
  intros now assignment s Hr Hf Hs Hc.
  assert (loggedKey assignment s = "unknown:unknown"%string) as Hkey.
  { unfold loggedKey, loggedSubject, loggedFlagKey, js_or.
    by rewrite Hf, Hs, Hc. }
  split; [done|]. split.
  - rewrite <- Hkey. by apply logAssignment_stores, reachable_cache_inv.
  - intros flagKey userId m Hreal found.
    split; [intros H; by apply Hreal, key_unknown_inv|].
    split; [apply undefined_key_not_unknown|].
    destruct (lookupStored_ignores_unknown userId flagKey m Hreal) as [H1 H2].
    split; [done|]. split; [done|].
    intros sdk now' userAttributes s2 c a Hcl Hin Hout cache r.
    destruct (getAssignment_returned sdk now' flagKey userId userAttributes
                s2 c a Hcl Hin Hout) as (Hd & Hm & _).
    fold cache in Hd, Hm. fold r in Hd, Hm.
    destruct (lookupStored_ignores_unknown userId flagKey cache Hreal)
      as [H3 H4].
    split; [by rewrite Hm|].
    intros d Hfound. split; [by rewrite <- H3 | by apply Hd].
Qed.

Lemma logAssignment_unknown_key_witness :
  let a := ev_assignment bare_event in
  let s' := logAssignment "t" a ready in
  let r := getAssignment (silent (Return (VStr "control"))) "t1"
                         (VStr "flagX") (VStr "user1") VUndef s' in
  map_keys (recentAssignments s') = ["unknown:unknown"%string] ∧
  map_get "unknown:unknown" (recentAssignments s')
    = Some (assignmentToStore "t" a ready) ∧
  map_get "unknown:unknown" (recentAssignments r.2)
    = map_get "unknown:unknown" (recentAssignments s').
Proof.
  intros a s' r.
  destruct (logAssignment_unknown_key "t"%string a ready reachable_ready)
    as (Hkey & Hstored & Hlater); [reflexivity..|].
  split; [vm_compute; reflexivity|]. split; [exact Hstored|].
  destruct (Hlater (VStr "flagX") (VStr "user1") (recentAssignments s'))
    as (_ & _ & _ & _ & Hcall).
  { intros [H _]. discriminate H. }
  destruct (Hcall (silent (Return (VStr "control"))) "t1"%string VUndef s'
              sdk_client (VStr "control")) as [Hkeep _]; [reflexivity..|].
  exact Hkeep.
Defined.

(** The placeholder pair itself does reach the record. *)
Lemma getAssignment_unknown_pair_finds :
  let a := ev_assignment bare_event in
  let s' := logAssignment "t" a ready in
  let r := getAssignment (silent (Return (VStr "control"))) "t1"
                         (VStr "unknown") (VStr "unknown") VUndef s' in
  result_field r.1 "assignmentDetails"
    = Some (VObj (assignmentToStore "t" a ready)).
Proof. vm_compute. reflexivity. Qed.

(** ** Attribute enrichment *)

Lemma js_or_truthy a b : truthy (js_or a b) = truthy a || truthy b.
Proof. unfold js_or. by destruct (truthy a) eqn:E; rewrite ?E. Qed.

Lemma truthy_not_nullish v : truthy v = true → is_nullish v = false.
Proof. by destruct v. Qed.

Lemma js_or_not_nullish a b :
  is_nullish b = false → is_nullish (js_or a b) = false.
Proof.
  intros Hb. unfold js_or. destruct (truthy a) eqn:E; [|done].
  by apply truthy_not_nullish.
Qed.

Lemma removeNullish_lookup (o : JsObj) k :
  Hightouch.removeNullish o !! k = o !! k ≫= present.
Proof.
  unfold Hightouch.removeNullish. rewrite map_lookup_filter.
  destruct (o !! k) as [x|]; [|done]. simpl. unfold present.
  destruct (is_nullish x); by case_guard.
Qed.

(** The keys the second branch writes override the caller's. *)
Ltac browser_lookup :=
  unfold Hightouch.fromBrowser, spread; apply lookup_union_Some_l; by js_lookup.

Lemma enrichFallback_flag (ea : JsObj) flag alias tier :
  Hightouch.fromBrowser ea !! flag =
    Some (js_or (prop ea flag)
         (js_or (prop ea alias)
         (js_or (VBool (strict_eq_str (prop ea "subscription_tier") tier))
         (js_or (VBool (strict_eq_str (prop ea "subscriptionTier") tier))
                (VBool false))))) →
  flag_follows ea (enrichFallback ea) flag alias tier.
Proof.
  intros Hlk. unfold flag_follows, enrichFallback.
  rewrite removeNullish_lookup, Hlk. cbn [mbind option_bind].
  set (v := js_or _ _).
  assert (is_nullish v = false) as Hv by (by repeat apply js_or_not_nullish).
  unfold present. rewrite Hv.
  assert (truthy v = explicit ea flag || explicit ea alias
          || strict_eq_str (prop ea "subscription_tier") tier
          || strict_eq_str (prop ea "subscriptionTier") tier) as Ht.
  { subst v. rewrite !js_or_truthy. unfold explicit. cbn [truthy].
    by rewrite orb_false_r, !orb_assoc. }
  split; [eauto|]. split.
  - intros Hnone. rewrite Hnone in Ht. f_equal. subst v. unfold explicit in *.
    apply orb_false_elim in Hnone as [Hnone H4].
    apply orb_false_elim in Hnone as [Hnone H3].
    apply orb_false_elim in Hnone as [H1 H2].
    unfold js_or. by rewrite H1, H2, H3, H4.
  - intros Hf Ha. f_equal. rewrite <- Ht. subst v. clear Hv Ht Hlk.
    unfold js_or.
    destruct Hf as [-> | [b1 ->]], Ha as [-> | [b2 ->]]; cbn [truthy];
      repeat match goal with
             | |- context [if ?b then _ else _] => destruct b eqn:?
             end; done.
Qed.

Lemma getEnriched_else_branch http svc userId existingAttributes lookup :
  Hightouch.getUserAudiences http svc userId = Return lookup →
  no_audience_data lookup →
  Hightouch.getEnrichedUserAttributes http svc userId existingAttributes
  = Return (enrichFallback (default ∅ existingAttributes)).
Proof.
  intros Hl Hno. unfold Hightouch.getEnrichedUserAttributes.
  rewrite Hl. cbn [mbind completion_bind Js.bind]. by rewrite Hno.
Qed.


(** What a failed look-up resolves with. *)
Lemma getUserAudiences_failed http svc userId e :
  env_truthy (Hightouch.apiKey svc) = true →
  http (Hightouch.lookupRequest svc userId) = Throw e →
  ∃ lookup, Hightouch.getUserAudiences http svc userId = Return lookup ∧
            Hightouch.found lookup = VBool false.
Proof.
  intros Hk He. unfold Hightouch.getUserAudiences. rewrite Hk, He.
  cbn [negb mbind completion_bind Js.bind try_catch].
  destruct (Hightouch.is_404 e); eauto.
Qed.


Lemma getUserAudiences_total http svc userId :
  ∃ lookup, Hightouch.getUserAudiences http svc userId = Return lookup.
Proof.
  unfold Hightouch.getUserAudiences.
  destruct (negb _); [eauto|].
  match goal with |- context [try_catch ?c _] => destruct c as [r|e] end;
    cbn [try_catch]; [eauto|].
  destruct (Hightouch.is_404 e); eauto.
Qed.




(** ** Pass-through attributes *)

Lemma enrichFallback_lookup (ea : JsObj) k v :
  Hightouch.fromBrowser ea !! k = Some v → enrichFallback ea !! k = present v.
Proof.
  intros H. unfold enrichFallback. by rewrite removeNullish_lookup, H.
Qed.

(** C8 as stated fails for falsy values of the first candidates: an empty
    [subscription_tier] is skipped by [||], and with no other candidate the
    key does not appear in the output at all. *)
Lemma getEnriched_drops_empty_tier :
  let ea := js_object [("subscription_tier", VStr "")]%string in
  ∃ out,
    Hightouch.getEnrichedUserAttributes (http_down timeout_error) hightouch
                                        (VStr "user1") (Some ea) = Return out ∧
    ea !! "subscription_tier"%string = Some (VStr "") ∧
    out !! "subscription_tier"%string = None.
Proof.
  intros ea. exists (enrichFallback ea). split; [reflexivity|].
  split; [vm_compute; reflexivity|].
  rewrite (enrichFallback_lookup ea "subscription_tier"
             (js_or (prop ea "subscription_tier")
                    (js_or (prop ea "subscriptionTier") (prop ea "tier"))))
    by browser_lookup.
  vm_compute. reflexivity.
Qed.

(** C8, amended.  In the fallback branch the output carries
    [subscription_tier] with the first truthy of the input's
    [subscription_tier], [subscriptionTier], [tier] (the last of them when
    none is truthy), [user_segment] with the first truthy of [user_segment],
    [segment] (the last when none is), and [country] and [device_type] with
    the input's value; a key whose value comes out [undefined] or [null] is
    left out.  So a truthy candidate passes through verbatim in the order of
    precedence, [country] and [device_type] pass through for every value
    other than [undefined] and [null], the empty string included, and a
    falsy [subscription_tier], [subscriptionTier] or [user_segment] does not
    pass through. *)
Theorem getEnriched_fallback_passthrough :
  ∀ http svc userId (ea : JsObj) lookup,
    Hightouch.getUserAudiences http svc userId = Return lookup →
    no_audience_data lookup →
    ∃ out,
      Hightouch.getEnrichedUserAttributes http svc userId (Some ea) = Return out ∧
      out !! "subscription_tier"%string =
        present (js_or (prop ea "subscription_tier")
                (js_or (prop ea "subscriptionTier") (prop ea "tier"))) ∧
      out !! "user_segment"%string =
        present (js_or (prop ea "user_segment") (prop ea "segment")) ∧
      out !! "country"%string = present (prop ea "country") ∧
      out !! "device_type"%string = present (prop ea "device_type") ∧
      (truthy (prop ea "subscription_tier") = true →
       out !! "subscription_tier"%string = Some (prop ea "subscription_tier")) ∧
      (truthy (prop ea "subscription_tier") = false →
       truthy (prop ea "subscriptionTier") = true →
       out !! "subscription_tier"%string = Some (prop ea "subscriptionTier")) ∧
      (truthy (prop ea "subscription_tier") = false →
       truthy (prop ea "subscriptionTier") = false →
       out !! "subscription_tier"%string = present (prop ea "tier")) ∧
      (truthy (prop ea "user_segment") = true →
       out !! "user_segment"%string = Some (prop ea "user_segment")) ∧
      (truthy (prop ea "user_segment") = false →
       out !! "user_segment"%string = present (prop ea "segment")) ∧
      (∀ k v, k = "country"%string ∨ k = "device_type"%string →
              ea !! k = Some v → is_nullish v = false → out !! k = Some v).
Proof.
  intros http svc userId ea lookup Hl Hno. exists (enrichFallback ea).
  split; [by apply (getEnriched_else_branch http svc userId (Some ea) lookup)|].
  assert (enrichFallback ea !! "subscription_tier"%string =
            present (js_or (prop ea "subscription_tier")
                    (js_or (prop ea "subscriptionTier") (prop ea "tier")))) as Ht
    by (apply enrichFallback_lookup; browser_lookup).
  assert (enrichFallback ea !! "user_segment"%string =
            present (js_or (prop ea "user_segment") (prop ea "segment"))) as Hs
    by (apply enrichFallback_lookup; browser_lookup).
  assert (enrichFallback ea !! "country"%string = present (prop ea "country"))
    as Hc by (apply enrichFallback_lookup; browser_lookup).
  assert (enrichFallback ea !! "device_type"%string
          = present (prop ea "device_type"))
    as Hd by (apply enrichFallback_lookup; browser_lookup).
  do 4 (split; [done|]).
  split; [|split; [|split; [|split; [|split]]]].
  - intros H. rewrite Ht. unfold js_or, present. rewrite H.
    by rewrite truthy_not_nullish.
  - intros H1 H2. rewrite Ht. unfold js_or, present. rewrite H1, H2.
    by rewrite truthy_not_nullish.
  - intros H1 H2. rewrite Ht. unfold js_or. by rewrite H1, H2.
  - intros H. rewrite Hs. unfold js_or, present. rewrite H.
    by rewrite truthy_not_nullish.
  - intros H. rewrite Hs. unfold js_or. by rewrite H.
  - intros k v [-> | ->] Hv Hn; [rewrite Hc | rewrite Hd];
      unfold prop; rewrite Hv; simpl; unfold present; by rewrite Hn.
Qed.

Lemma getEnriched_fallback_passthrough_witness :
  let ea := js_object [("subscriptionTier", VStr "gold");
                       ("segment", VStr "vip");
                       ("country", VStr "")]%string in
  ∃ out,
    Hightouch.getEnrichedUserAttributes (http_down timeout_error) hightouch
                                        (VStr "user1") (Some ea) = Return out ∧
    out !! "subscription_tier"%string = Some (VStr "gold") ∧
    out !! "user_segment"%string = Some (VStr "vip") ∧
    out !! "country"%string = Some (VStr "") ∧
    out !! "device_type"%string = None.
Proof.
  intros ea.
  pose (lookup := {| Hightouch.audiences := VObj ∅; Hightouch.attributes := ∅;
                     Hightouch.found := VBool false;
                     Hightouch.error := VStr "timeout of 5000ms exceeded" |}).
  assert (Hightouch.getUserAudiences (http_down timeout_error) hightouch
            (VStr "user1") = Return lookup) as Hl by reflexivity.
  assert (no_audience_data lookup) as Hno by reflexivity.
  destruct (getEnriched_fallback_passthrough _ _ _ ea lookup Hl Hno)
    as (out & Hout & _ & _ & _ & Hdev & _ & Htier & _ & _ & Hseg & Hpass).
  exists out. split; [exact Hout|].
  split; [apply Htier; vm_compute; reflexivity|].
  split; [rewrite Hseg by (vm_compute; reflexivity); vm_compute; reflexivity|].
  split; [apply Hpass; [by left | vm_compute; reflexivity | reflexivity]|].
  rewrite Hdev. vm_compute. reflexivity.
Defined.

(** ** Campaign dispatch *)

(** C7 as stated fails for four of the five operations: [trackEvent] (and
    likewise [updateUserAttributes], [triggerCanvas], [sendMessage])
    re-raises the HTTP client's error object itself, response included;
    only [triggerCampaign] builds a new "Request failed with status code"
    error. *)
Lemma trackEvent_rethrows_raw_error :
  let e := status_error 500 in
  Braze.trackEvent (http_down e) "t" braze (VStr "user1") (VStr "purchase")
                   VUndef VUndef = Throw e ∧
  e ≠ Braze.request_failed e ∧
  Braze.triggerCampaign (http_down e) braze (VStr "user1") (VStr "campaign-1")
                        VUndef VUndef
    = Throw (Error "Request failed with status code 500").
Proof.
  intros e. split; [reflexivity|]. split; [|vm_compute; reflexivity].
  intros H. apply (f_equal response) in H. discriminate H.
Qed.

(** C7, amended.  With the service configured and the outbound call
    rejected with [e]: [triggerCampaign] raises a new error whose message is
    "Request failed with status code " followed by the status of the
    response, or by "unknown" when the error has no response, and which
    carries nothing else of [e]; [sendMessage], [trackEvent],
    [updateUserAttributes] and [triggerCanvas] re-raise [e] itself. *)
Theorem dispatch_failure_errors :
  ∀ (http : Http) (e : JsError) (svc : Braze.BrazeService)
    (now : string) (userId x y z campaignId : JsVal),
    Braze.configured svc = true →
    (∀ req, http req = Throw e) →
    Braze.sendMessage http svc userId x y = Throw e ∧
    Braze.trackEvent http now svc userId x y z = Throw e ∧
    Braze.updateUserAttributes http svc userId x = Throw e ∧
    Braze.triggerCanvas http svc x userId y = Throw e ∧
    (truthy campaignId = true →
     Braze.triggerCampaign http svc userId campaignId x y
       = Throw (Braze.request_failed e)) ∧
    message (Braze.request_failed e) =
      "Request failed with status code " +:+
      match response e with
      | Some r => ToString (status r)
      | None => "unknown"%string
      end ∧
    response (Braze.request_failed e) = None.
Proof.
  intros http e svc now userId x y z campaignId Hcfg Hdown.
  unfold Braze.sendMessage, Braze.trackEvent, Braze.updateUserAttributes,
    Braze.triggerCanvas, Braze.triggerCampaign.
  rewrite Hcfg, !Hdown. cbn [negb andb mbind completion_bind Js.bind try_catch].
  repeat split; try done. by intros ->.
Qed.

Lemma dispatch_failure_errors_witness :
  Braze.updateUserAttributes (http_down timeout_error) braze (VStr "user1")
    (VObj (js_object [("eppo_gate", VBool true)]%string)) = Throw timeout_error ∧
  Braze.triggerCampaign (http_down timeout_error) braze (VStr "user1")
                        (VStr "campaign-1") VUndef VUndef
    = Throw (Error "Request failed with status code unknown").
Proof.
  destruct (dispatch_failure_errors (http_down timeout_error) timeout_error
              braze "t"%string (VStr "user1")
              (VObj (js_object [("eppo_gate", VBool true)]%string))
              VUndef VUndef (VStr "campaign-1"))
    as (_ & _ & Hupd & _ & _); [reflexivity | reflexivity |].
  split; [exact Hupd|].
  destruct (dispatch_failure_errors (http_down timeout_error) timeout_error
              braze "t"%string (VStr "user1") VUndef VUndef VUndef
              (VStr "campaign-1"))
    as (_ & _ & _ & _ & Hcamp & _); [reflexivity | reflexivity |].
  apply Hcamp. reflexivity.
Defined.

(** * Further properties *)

(** A decidable closed proposition, by evaluation. *)
Ltac by_decision := refine (bool_decide_unpack _ _); vm_compute; exact I.

(** ** [EppoService]: initialization *)

(** The not-initialized answer of [getAssignment]. *)
Lemma getAssignment_not_initialized_aux sdk now flagKey userId userAttributes s :
  not_initialized s →
  result_field (getAssignment sdk now flagKey userId userAttributes s).1
               "initialized" = Some (VBool false) ∧
  (getAssignment sdk now flagKey userId userAttributes s).2 = s.
Proof.
  intros Hs. unfold getAssignment.
  destruct Hs as [-> | Hi]; [split; [by js_lookup | done]|].
  destruct (client s); rewrite ?Hi; cbn [negb]; (split; [by js_lookup | done]).
Qed.

(** X1. A failed [initializeEppo] (the key is missing or empty, or the SDK's
    initialization throws) rethrows, leaves the service object marked as
    not initialized, even when it was initialized before, and keeps its
    cache; every later [getAssignment] answers with the not-initialized
    object and every typed getter with its default, without calling the
    SDK. *)
Theorem initializeEppo_failure_disables :
  ∀ key init s,
    env_truthy key = false ∨ (∃ e, init = Throw e) →
    let r := initializeEppo key init s in
    (∃ e, r.1 = Throw e) ∧
    (env_truthy key = false →
     r.1 = Throw (Error "EPPO_SDK_KEY environment variable is required")) ∧
    isInitialized r.2 = false ∧
    client r.2 = client s ∧
    recentAssignments r.2 = recentAssignments s ∧
    ∀ sdk now flagKey userId userAttributes d,
      result_field (getAssignment sdk now flagKey userId userAttributes r.2).1
                   "initialized" = Some (VBool false) ∧
      (getAssignment sdk now flagKey userId userAttributes r.2).2 = r.2 ∧
      getBooleanAssignment sdk flagKey userId userAttributes d r.2
        = (Return (default_param d (VBool false)), r.2).
Proof.
  intros key init s Hfail r.
  assert (r = (r.1, with_initialized false s) ∧ ∃ e, r.1 = Throw e ∧
          (env_truthy key = false →
           e = Error "EPPO_SDK_KEY environment variable is required"))
    as (Hr & e & He & Hmsg).
  { subst r. unfold initializeEppo.
    destruct (env_truthy key) eqn:Hk; cbn [negb].
    - destruct Hfail as [?|[e ->]]; [done|]. split; [done|]. exists e.
      split; [done|]. intros ?; done.
    - split; [done|]. eauto. }
  assert (r.2 = with_initialized false s) as Hs by (by rewrite Hr).
  split; [eauto|]. split; [intros Hk; rewrite He; f_equal; auto|].
  rewrite Hs. split; [done|]. split; [done|]. split; [done|].
  intros sdk now flagKey userId userAttributes d.
  assert (not_initialized (with_initialized false s)) as Hn by (by right).
  destruct (getAssignment_not_initialized_aux sdk now flagKey userId
              userAttributes _ Hn) as (Hf & Hst).
  split; [done|]. split; [done|].
  destruct (getTypedAssignment_contract (VBool false) sdk flagKey userId
              userAttributes d (with_initialized false s)) as (Hd & _).
  by apply Hd.
Qed.

Lemma initializeEppo_failure_disables_witness :
  let r := initializeEppo None (Return sdk_client) ready in
  isInitialized ready = true ∧
  isInitialized r.2 = false ∧
  result_field (getAssignment (silent (Return (VStr "control"))) "t"
                              (VStr "flagX") (VStr "user1") VUndef r.2).1
               "initialized" = Some (VBool false).
Proof.
  intros r. split; [reflexivity|].
  destruct (initializeEppo_failure_disables None (Return sdk_client) ready)
    as (_ & _ & Hi & _ & _ & Hlater); [left; reflexivity|].
  split; [exact Hi|].
  destruct (Hlater (silent (Return (VStr "control"))) "t"%string
              (VStr "flagX") (VStr "user1") VUndef VUndef) as (Hf & _).
  exact Hf.
Defined.

(** ** [EppoService]: what [getAssignment] returns *)

(** The whole of [getAssignment] once the SDK call has returned. *)
Lemma getAssignment_returned_eq sdk now flagKey userId userAttributes s c assignment :
  client s = Some c → initialized s = true →
  outcome (stringCall sdk flagKey userId userAttributes) = Return assignment →
  let s1 := atLookup sdk flagKey userId userAttributes s in
  let found := lookupStored (assignment_key userId flagKey) userId flagKey
                            (recentAssignments s1) in
  let r := getAssignment sdk now flagKey userId userAttributes s in
  recentAssignments r.2 = found.2 ∧
  assignmentLoggerCalled r.2 = assignmentLoggerCalled s1 ∧
  result_field r.1 "assignment" = Some assignment ∧
  result_field r.1 "flagKey" = Some flagKey ∧
  result_field r.1 "userId" = Some userId ∧
  (found.1 = None →
   let details := result_field r.1 "assignmentDetails" in
   field_of details "flagKey" = Some flagKey ∧
   field_of details "variation" = Some assignment ∧
   field_of details "subject" = Some userId ∧
   field_of (field_of details "debug") "assignmentLoggerFired"
     = Some (VBool (assignmentLoggerCalled s1)) ∧
   field_of (field_of details "debug") "storedAssignmentsCount"
     = Some (VNum (Z.of_nat (map_size (recentAssignments s1)))) ∧
   field_of (field_of details "debug") "lookupKey"
     = Some (VStr (assignment_key userId flagKey))) ∧
  field_of (result_field r.1 "clientInfo") "cacheDisabled"
    = Some (VBool (strict_eq_false (assignmentCache c)
                   || strict_eq_false (_assignmentCache c))).
Proof.
  intros Hc Hi Ho s1 found r. subst r found s1.
  unfold getAssignment, atLookup, stringCall in *.
  rewrite Hc, Hi. cbn [negb]. rewrite Ho.
  set (s1 := fire _ _).
  unfold lookupStored.
  destruct (map_get (assignment_key userId flagKey) (recentAssignments s1))
    as [d|] eqn:Hk; cbn [fst snd].
  { repeat split; try done; by js_lookup. }
  destruct (map_get (ToString userId +:+ ":undefined") (recentAssignments s1))
    as [d|] eqn:Hu; cbn [fst snd].
  { repeat split; try done; by js_lookup. }
  split; [done|]. split; [done|].
  do 3 (split; [by js_lookup|]).
  split.
  - intros _. unfold field_of. js_lookup.
    cbn [recentAssignments with_recentAssignments assignmentLoggerCalled].
    repeat split; try (by js_lookup); js_lookup; by js_lookup.
  - unfold field_of. js_lookup. by js_lookup.
Qed.

Lemma assignmentLoggerCalled_fire evs s :
  assignmentLoggerCalled (fire evs s) =
  match evs with [] => assignmentLoggerCalled s | _ => true end.
Proof.
  revert s. induction evs as [|ev evs IH]; intros s; [done|].
  change (assignmentLoggerCalled
            (fire evs (logAssignment (ev_now ev) (ev_assignment ev) s)) = true).
  rewrite IH. by destruct evs.
Qed.

Lemma fire_snoc evs ev s :
  fire (evs ++ [ev]) s = logAssignment (ev_now ev) (ev_assignment ev) (fire evs s).
Proof. unfold fire. by rewrite foldl_app. Qed.

Lemma recentAssignments_beginRequest flagKey userId userAttributes s :
  recentAssignments (beginRequest flagKey userId userAttributes s)
  = recentAssignments s.
Proof. reflexivity. Qed.



(** X3. When the SDK call returns and the cache looked up has an entry
    neither under "userId:flagKey" nor under "userId:undefined",
    [getAssignment] synthesizes the details itself: flag key, subject and
    variation of the request, and a [debug] object telling whether the
    logger was invoked during this very call (the flag is reset at the
    start of each call), the size of the cache and the key looked up.  The
    cache is left as the look-up found it. *)
Theorem getAssignment_fallback_details :
  ∀ sdk now flagKey userId userAttributes s c assignment,
    client s = Some c → initialized s = true →
    outcome (stringCall sdk flagKey userId userAttributes) = Return assignment →
    let cache := recentAssignments (atLookup sdk flagKey userId userAttributes s) in
    map_get (assignment_key userId flagKey) cache = None →
    map_get (ToString userId +:+ ":undefined") cache = None →
    let r := getAssignment sdk now flagKey userId userAttributes s in
    let details := result_field r.1 "assignmentDetails" in
    field_of details "flagKey" = Some flagKey ∧
    field_of details "variation" = Some assignment ∧
    field_of details "subject" = Some userId ∧
    field_of (field_of details "debug") "assignmentLoggerFired"
      = Some (VBool (bool_decide
                       (fired (stringCall sdk flagKey userId userAttributes) ≠ []))) ∧
    field_of (field_of details "debug") "storedAssignmentsCount"
      = Some (VNum (Z.of_nat (map_size cache))) ∧
    field_of (field_of details "debug") "lookupKey"
      = Some (VStr (assignment_key userId flagKey)) ∧
    recentAssignments r.2 = cache.
Proof.
  intros sdk now flagKey userId userAttributes s c assignment Hc Hi Ho
         cache Hk Hu r details.
  destruct (getAssignment_returned_eq sdk now flagKey userId userAttributes s c
              assignment Hc Hi Ho) as (Hm & _ & _ & _ & _ & Hfb & _).
  fold cache in Hm, Hfb. fold r in Hm, Hfb.
  unfold lookupStored in Hm, Hfb. rewrite Hk, Hu in Hm, Hfb.
  cbn [fst snd] in Hm, Hfb.
  destruct (Hfb eq_refl) as (H1 & H2 & H3 & H4 & H5 & H6).
  do 3 (split; [done|]). split; [|done].
  fold details in H4. rewrite H4. do 2 f_equal.
  unfold atLookup. rewrite assignmentLoggerCalled_fire.
  by destruct (fired _).
Qed.

Lemma getAssignment_fallback_details_witness :
  let r := getAssignment (silent (Return (VStr "control"))) "t"
                         (VStr "flagX") (VStr "user1") VUndef ready in
  let details := result_field r.1 "assignmentDetails" in
  field_of details "variation" = Some (VStr "control") ∧
  field_of (field_of details "debug") "assignmentLoggerFired"
    = Some (VBool false) ∧
  field_of (field_of details "debug") "storedAssignmentsCount"
    = Some (VNum 0).
Proof.
  intros r details.
  destruct (getAssignment_fallback_details
              (silent (Return (VStr "control"))) "t"%string
              (VStr "flagX") (VStr "user1") VUndef ready sdk_client
              (VStr "control") eq_refl eq_refl eq_refl eq_refl eq_refl)
    as (_ & Hv & _ & Hf & Hn & _).
  split; [exact Hv|]. split; [exact Hf | exact Hn].
Defined.

(** ** [EppoService]: logger and look-up together *)

Lemma client_fire evs s : client (fire evs s) = client s.
Proof.
  revert s. induction evs as [|ev evs IH]; intros s; [done|].
  change (client (fire evs (logAssignment (ev_now ev) (ev_assignment ev) s))
          = client s).
  by rewrite IH.
Qed.

Lemma initialized_fire evs s : initialized (fire evs s) = initialized s.
Proof.
  revert s. induction evs as [|ev evs IH]; intros s; [done|].
  change (initialized (fire evs (logAssignment (ev_now ev) (ev_assignment ev) s))
          = initialized s).
  by rewrite IH.
Qed.

Lemma getAssignment_keeps_client sdk now flagKey userId userAttributes s :
  client (getAssignment sdk now flagKey userId userAttributes s).2 = client s ∧
  initialized (getAssignment sdk now flagKey userId userAttributes s).2
  = initialized s.
Proof.
  unfold getAssignment.
  destruct (client s) eqn:Hc; [|done].
  destruct (initialized s) eqn:Hi; [|done]. cbn [negb].
  destruct (outcome _).
  - destruct (lookupStored _ _ _ _) as [d m]. cbn [snd].
    cbn [client initialized with_currentRequest with_recentAssignments].
    by rewrite client_fire, initialized_fire.
  - cbn [snd]. by rewrite client_fire, initialized_fire.
Qed.

(** The record filed by the last logger invocation of a request whose
    payload names neither flag key nor subject. *)
Lemma atLookup_last_event sdk flagKey userId userAttributes s evs ev :
  cache_inv (recentAssignments s) →
  fired (stringCall sdk flagKey userId userAttributes) = evs ++ [ev] →
  truthy (prop (ev_assignment ev) "flagKey") = false →
  truthy (prop (ev_assignment ev) "subject") = false →
  map_get (assignment_key userId flagKey)
          (recentAssignments (atLookup sdk flagKey userId userAttributes s))
  = Some (requestRecord (ev_now ev) flagKey (ev_assignment ev)).
Proof.
  intros Hinv Hf Hfk Hsub. unfold atLookup. rewrite Hf, fire_snoc.
  set (s0 := fire evs _).
  assert (currentRequest s0 = contextOf flagKey userId userAttributes) as Hctx
    by apply currentRequest_fire.
  assert (cache_inv (recentAssignments s0)) as Hinv0 by (by apply fire_inv).
  assert (loggedKey (ev_assignment ev) s0 = assignment_key userId flagKey) as Hkey.
  { unfold loggedKey, loggedSubject, loggedFlagKey, js_or.
    by rewrite Hfk, Hsub, Hctx. }
  assert (assignmentToStore (ev_now ev) (ev_assignment ev) s0
          = requestRecord (ev_now ev) flagKey (ev_assignment ev)) as Hrec.
  { unfold assignmentToStore, requestRecord, loggedFlagKey, js_or.
    by rewrite Hfk, Hctx. }
  rewrite <- Hkey, <- Hrec. by apply logAssignment_stores.
Qed.

(** X4. The ordinary path of [getAssignment]: when the SDK invokes the
    logger during the call and the payload of its last invocation names
    neither flag key nor subject, the record is filed under the request's
    own key and found by the look-up that follows.  The details returned
    are the payload with [flagKey] set to the requested flag key and
    [timestamp] set to the payload's own or else to the clock's; the cache
    maps "userId:flagKey" to them, and the request context is cleared. *)
Theorem getAssignment_finds_logged_record :
  ∀ sdk now flagKey userId userAttributes s c assignment evs ev,
    reachable s →
    client s = Some c → initialized s = true →
    outcome (stringCall sdk flagKey userId userAttributes) = Return assignment →
    fired (stringCall sdk flagKey userId userAttributes) = evs ++ [ev] →
    truthy (prop (ev_assignment ev) "flagKey") = false →
    truthy (prop (ev_assignment ev) "subject") = false →
    let r := getAssignment sdk now flagKey userId userAttributes s in
    let record := requestRecord (ev_now ev) flagKey (ev_assignment ev) in
    result_field r.1 "assignment" = Some assignment ∧
    result_field r.1 "assignmentDetails" = Some (VObj record) ∧
    map_get (assignment_key userId flagKey) (recentAssignments r.2) = Some record ∧
    record !! "flagKey"%string = Some flagKey ∧
    (∀ k, k ≠ "flagKey"%string → k ≠ "timestamp"%string →
          record !! k = ev_assignment ev !! k) ∧
    currentRequest r.2 = None.
Proof.
  intros sdk now flagKey userId userAttributes s c assignment evs ev
         Hr Hc Hi Ho Hf Hfk Hsub r record.
  pose proof (atLookup_last_event sdk flagKey userId userAttributes s evs ev
                (reachable_cache_inv s Hr) Hf Hfk Hsub) as Hstored.
  fold record in Hstored.
  destruct (getAssignment_returned_eq sdk now flagKey userId userAttributes s c
              assignment Hc Hi Ho) as (Hm & _ & Ha & _).
  destruct (getAssignment_returned sdk now flagKey userId userAttributes s c
              assignment Hc Hi Ho) as (Hd & _ & Hctx).
  fold r in Hm, Ha, Hd, Hctx.
  unfold lookupStored in Hm, Hd. rewrite Hstored in Hm, Hd.
  cbn [fst snd] in Hm, Hd.
  split; [done|]. split; [by apply Hd|]. split; [by rewrite Hm|].
  split; [|split; [|done]].
  - unfold record, requestRecord.
    by rewrite lookup_insert_ne, lookup_insert_eq.
  - intros k H1 H2. unfold record, requestRecord.
    by rewrite !lookup_insert_ne.
Qed.

Lemma getAssignment_finds_logged_record_witness :
  let r := getAssignment (logging bare_event (VStr "control")) "t"
                         (VStr "flagX") (VStr "user1") VUndef ready in
  result_field r.1 "assignment" = Some (VStr "control") ∧
  field_of (result_field r.1 "assignmentDetails") "flagKey"
    = Some (VStr "flagX") ∧
  field_of (result_field r.1 "assignmentDetails") "variation"
    = Some (VStr "control") ∧
  map_keys (recentAssignments r.2) = ["user1:flagX"%string].
Proof.
  intros r.
  destruct (getAssignment_finds_logged_record
              (logging bare_event (VStr "control")) "t"%string
              (VStr "flagX") (VStr "user1") VUndef ready sdk_client
              (VStr "control") [] bare_event reachable_ready
              eq_refl eq_refl eq_refl eq_refl eq_refl eq_refl)
    as (Ha & Hd & _ & Hfk & Hother & _).
  split; [exact Ha|]. fold r in Hd. rewrite Hd. cbn [field_of].
  split; [exact Hfk|]. split; [|vm_compute; reflexivity].
  rewrite Hother by done. vm_compute. reflexivity.
Defined.

(** X5. Consistency across calls on a warm cache: after such a call, a
    second [getAssignment] for the same user and flag during which the SDK
    does not invoke the logger returns the same [assignmentDetails], and
    leaves the cache as the first call left it. *)
Theorem getAssignment_warm_cache :
  ∀ sdk1 sdk2 now1 now2 flagKey userId attrs1 attrs2 s c v1 v2 evs ev,
    reachable s →
    client s = Some c → initialized s = true →
    outcome (stringCall sdk1 flagKey userId attrs1) = Return v1 →
    fired (stringCall sdk1 flagKey userId attrs1) = evs ++ [ev] →
    truthy (prop (ev_assignment ev) "flagKey") = false →
    truthy (prop (ev_assignment ev) "subject") = false →
    outcome (stringCall sdk2 flagKey userId attrs2) = Return v2 →
    fired (stringCall sdk2 flagKey userId attrs2) = [] →
    let r1 := getAssignment sdk1 now1 flagKey userId attrs1 s in
    let r2 := getAssignment sdk2 now2 flagKey userId attrs2 r1.2 in
    result_field r2.1 "assignmentDetails" = result_field r1.1 "assignmentDetails" ∧
    is_Some (result_field r1.1 "assignmentDetails") ∧
    recentAssignments r2.2 = recentAssignments r1.2.
Proof.
  intros sdk1 sdk2 now1 now2 flagKey userId attrs1 attrs2 s c v1 v2 evs ev
         Hr Hc Hi Ho1 Hf1 Hfk Hsub Ho2 Hf2 r1 r2.
  pose proof (atLookup_last_event sdk1 flagKey userId attrs1 s evs ev
                (reachable_cache_inv s Hr) Hf1 Hfk Hsub) as Hstored.
  destruct (getAssignment_returned sdk1 now1 flagKey userId attrs1 s c v1
              Hc Hi Ho1) as (Hd1 & Hm1 & _).
  fold r1 in Hd1, Hm1. unfold lookupStored in Hd1, Hm1.
  rewrite Hstored in Hd1, Hm1. cbn [fst snd] in Hd1, Hm1.
  destruct (getAssignment_keeps_client sdk1 now1 flagKey userId attrs1 s)
    as [Hc1 Hi1]. fold r1 in Hc1, Hi1. rewrite Hc in Hc1. rewrite Hi in Hi1.
  destruct (getAssignment_returned sdk2 now2 flagKey userId attrs2 r1.2 c v2
              Hc1 Hi1 Ho2) as (Hd2 & Hm2 & _).
  fold r2 in Hd2, Hm2. unfold atLookup in Hd2, Hm2. rewrite Hf2 in Hd2, Hm2.
  cbn [fire foldl] in Hd2, Hm2.
  rewrite recentAssignments_beginRequest, Hm1 in Hd2, Hm2.
  unfold lookupStored in Hd2, Hm2. rewrite Hstored in Hd2, Hm2.
  cbn [fst snd] in Hd2, Hm2.
  rewrite (Hd1 _ eq_refl), (Hd2 _ eq_refl). split; [done|].
  split; [eauto|]. by rewrite Hm2, Hm1.
Qed.

Lemma getAssignment_warm_cache_witness :
  let r1 := getAssignment (logging bare_event (VStr "control")) "t1"
                          (VStr "flagX") (VStr "user1") VUndef ready in
  let r2 := getAssignment (silent (Return (VStr "control"))) "t2"
                          (VStr "flagX") (VStr "user1") VUndef r1.2 in
  result_field r2.1 "assignmentDetails" = result_field r1.1 "assignmentDetails" ∧
  recentAssignments r2.2 = recentAssignments r1.2.
Proof.
  intros r1 r2.
  destruct (getAssignment_warm_cache
              (logging bare_event (VStr "control"))
              (silent (Return (VStr "control"))) "t1"%string "t2"%string
              (VStr "flagX") (VStr "user1") VUndef VUndef ready sdk_client
              (VStr "control") (VStr "control") [] bare_event reachable_ready
              eq_refl eq_refl eq_refl eq_refl eq_refl eq_refl eq_refl eq_refl)
    as (Hd & _ & Hm).
  split; [exact Hd | exact Hm].
Defined.

(** X6. The cache holds one record per key, and the logger upserts: in a
    reachable state no key occurs twice; logging under a key already
    present replaces that record where it stands, keeping the order of the
    keys and every other record; logging under a new key below the bound
    appends the record. *)
Theorem logAssignment_upsert :
  ∀ now a s,
    reachable s →
    let key := loggedKey a s in
    let record := assignmentToStore now a s in
    let after := recentAssignments (logAssignment now a s) in
    NoDup (map_keys (recentAssignments s)) ∧
    (is_Some (map_get key (recentAssignments s)) →
     map_keys after = map_keys (recentAssignments s) ∧
     map_get key after = Some record ∧
     ∀ k, k ≠ key → map_get k after = map_get k (recentAssignments s)) ∧
    (map_get key (recentAssignments s) = None →
     map_size (recentAssignments s) < 100 →
     after = recentAssignments s ++ [(key, record)]).
Proof.
  intros now a s Hr key record after.
  destruct (reachable_cache_inv s Hr) as [Hnd Hsz].
  split; [done|]. subst after. rewrite logAssignment_cache.
  fold key. fold record. split.
  - intros Hin.
    rewrite cleanUp_small by (by rewrite map_size_set_present).
    split; [by apply map_keys_set_present|].
    split; [apply map_get_set_eq|].
    intros k Hk. by apply map_get_set_ne.
  - intros Hnone Hlt.
    rewrite cleanUp_small
      by (rewrite map_size_set_fresh by done; unfold capacity; lia).
    by apply map_set_fresh.
Qed.

Lemma logAssignment_upsert_witness :
  let s1 := fire [event "A" "f"; event "B" "f"] ready in
  let again :=
    js_object [("subject", VStr "A"); ("flagKey", VStr "f");
               ("variation", VStr "treatment")]%string in
  let after := recentAssignments (logAssignment "t" again s1) in
  map_keys after = ["A:f"; "B:f"]%string ∧
  (map_get "A:f" after ≫= (.!! "variation"%string)) = Some (VStr "treatment").
Proof.
  intros s1 again after.
  destruct (logAssignment_upsert "t"%string again s1
              (reachable_fire _ _ reachable_ready)) as (_ & Hup & _).
  destruct Hup as (Hkeys & Hget & _); [by_decision|].
  split.
  - subst after. rewrite Hkeys. vm_compute. reflexivity.
  - assert (loggedKey again s1 = "A:f"%string) as Hk
      by (vm_compute; reflexivity).
    rewrite Hk in Hget. subst after. rewrite Hget. vm_compute. reflexivity.
Defined.

(** X7. When the SDK's string-assignment call throws, [getAssignment] still
    returns: [assignment] and [assignmentDetails] are [null] and [error] is
    the message of the error.  The service object is left as the SDK call
    left it: the records the logger filed before the throw stay in the
    cache. *)
Theorem getAssignment_sdk_throws :
  ∀ sdk now flagKey userId userAttributes s c e,
    client s = Some c → initialized s = true →
    outcome (stringCall sdk flagKey userId userAttributes) = Throw e →
    let r := getAssignment sdk now flagKey userId userAttributes s in
    (∃ o, r.1 = Return (VObj o)) ∧
    result_field r.1 "assignment" = Some VNull ∧
    result_field r.1 "assignmentDetails" = Some VNull ∧
    result_field r.1 "error" = Some (VStr (message e)) ∧
    result_field r.1 "initialized" = None ∧
    r.2 = atLookup sdk flagKey userId userAttributes s.
Proof.
  intros sdk now flagKey userId userAttributes s c e Hc Hi Ho r. subst r.
  unfold getAssignment, atLookup, stringCall in *.
  rewrite Hc, Hi. cbn [negb]. rewrite Ho. cbn [fst snd].
  split; [eauto|]. do 3 (split; [by js_lookup|]). split; [|done].
  js_lookup. by rewrite lookup_empty.
Qed.

Lemma getAssignment_sdk_throws_witness :
  let failing : Provider :=
    fun _ _ _ _ => {| fired := [event "user1" "flagX"];
                      outcome := Throw (Error "SDK failure") |} in
  let r := getAssignment failing "t" (VStr "flagX") (VStr "user1") VUndef ready in
  result_field r.1 "assignment" = Some VNull ∧
  result_field r.1 "error" = Some (VStr "SDK failure") ∧
  map_keys (recentAssignments r.2) = ["user1:flagX"%string].
Proof.
  intros failing r.
  destruct (getAssignment_sdk_throws failing "t"%string (VStr "flagX")
              (VStr "user1") VUndef ready sdk_client (Error "SDK failure")
              eq_refl eq_refl eq_refl) as (_ & Ha & _ & He & _ & Hs).
  split; [exact Ha|]. split; [exact He|].
  fold r in Hs. rewrite Hs. vm_compute. reflexivity.
Defined.

(** ** [HightouchService] *)

Lemma get_prop_defined v k :
  is_nullish v = false → get_prop v k = Return (prop (own_props v) k).
Proof. by destruct v. Qed.

(** What a successful look-up resolves with. *)
Lemma getUserAudiences_success http svc userId resp :
  env_truthy (Hightouch.apiKey svc) = true →
  http (Hightouch.lookupRequest svc userId) = Return resp →
  is_nullish (data resp) = false →
  Hightouch.getUserAudiences http svc userId =
  Return {| Hightouch.audiences := providerAudiences (own_props (data resp));
            Hightouch.attributes := providerAttributes (own_props (data resp));
            Hightouch.found := VBool true;
            Hightouch.error := VUndef |}.
Proof.
  intros Hk Hr Hd. unfold Hightouch.getUserAudiences. rewrite Hk, Hr.
  cbn [negb mbind completion_bind Js.bind].
  by rewrite !(get_prop_defined _ _ Hd).
Qed.

(** A response without a body: reading [userData._audiences] throws, and
    the [catch] answers "not found". *)
Lemma getUserAudiences_no_body http svc userId resp :
  env_truthy (Hightouch.apiKey svc) = true →
  http (Hightouch.lookupRequest svc userId) = Return resp →
  is_nullish (data resp) = true →
  ∃ lookup, Hightouch.getUserAudiences http svc userId = Return lookup ∧
            Hightouch.found lookup = VBool false ∧
            ∃ msg, Hightouch.error lookup = VStr msg.
Proof.
  intros Hk Hr Hd. unfold Hightouch.getUserAudiences. rewrite Hk, Hr.
  cbn [negb mbind completion_bind Js.bind].
  destruct (data resp); try discriminate Hd;
    cbn [get_prop Js.bind try_catch Hightouch.is_404 response Error];
    eauto.
Qed.


(** The three flags of the fallback output. *)
Lemma getEnriched_fallback_flags_aux (ea : JsObj) :
  flag_follows ea (enrichFallback ea) "premium_subscriber" "isPremium" "premium" ∧
  flag_follows ea (enrichFallback ea) "high_value_customer" "isHighValue" "premium" ∧
  flag_follows ea (enrichFallback ea) "at_risk_churn" "isAtRisk" "free".
Proof. split; [|split]; apply enrichFallback_flag; browser_lookup. Qed.

(** X9. In the fallback branch every attribute of the caller other than
    the eight keys the branch writes passes through unchanged (unless it is
    [undefined] or [null]), the three flags are always present, and the
    result is tagged [_attribute_source: 'browser'] whatever the caller
    passed under that key. *)
Theorem getEnriched_fallback_keeps_attributes :
  ∀ http svc userId (ea : JsObj) lookup,
    Hightouch.getUserAudiences http svc userId = Return lookup →
    no_audience_data lookup →
    ∃ out,
      Hightouch.getEnrichedUserAttributes http svc userId (Some ea) = Return out ∧
      out !! "_attribute_source"%string = Some (VStr "browser") ∧
      (∀ flag, flag ∈ audienceFlags → is_Some (out !! flag)) ∧
      (∀ k, k ∉ browserKeys → out !! k = ea !! k ≫= present).
Proof.
  intros http svc userId ea lookup Hl Hno. exists (enrichFallback ea).
  split; [by apply (getEnriched_else_branch http svc userId (Some ea) lookup)|].
  split; [|split].
  - rewrite (enrichFallback_lookup ea "_attribute_source" (VStr "browser"))
      by browser_lookup.
    done.
  - intros flag Hin.
    destruct (getEnriched_fallback_flags_aux ea) as (H1 & H2 & H3).
    unfold audienceFlags in Hin. rewrite !elem_of_cons in Hin.
    destruct Hin as [-> | [-> | [-> | Hin]]];
      [destruct H1 as [(v & -> & _) _] | destruct H2 as [(v & -> & _) _]
       | destruct H3 as [(v & -> & _) _] | by apply elem_of_nil in Hin]; eauto.
  - intros k Hk. unfold browserKeys, audienceFlags in Hk. simpl in Hk.
    rewrite !not_elem_of_cons in Hk.
    destruct Hk as (? & ? & ? & ? & ? & ? & ? & ? & _).
    unfold enrichFallback. rewrite removeNullish_lookup. f_equal.
    unfold Hightouch.fromBrowser, spread. apply lookup_union_r.
    unfold js_object. cbn [foldl fst snd].
    rewrite !lookup_insert_ne by done. apply lookup_empty.
Qed.

Lemma getEnriched_fallback_keeps_attributes_witness :
  let ea := js_object [("plan", VStr "annual");
                       ("_attribute_source", VStr "crm");
                       ("referrer", VNull)]%string in
  ∃ out,
    Hightouch.getEnrichedUserAttributes (http_down (status_error 503)) hightouch
                                        (VStr "user1") (Some ea) = Return out ∧
    out !! "_attribute_source"%string = Some (VStr "browser") ∧
    out !! "plan"%string = Some (VStr "annual") ∧
    out !! "referrer"%string = None ∧
    is_Some (out !! "premium_subscriber"%string).
Proof.
  intros ea.
  destruct (getUserAudiences_failed (http_down (status_error 503)) hightouch
              (VStr "user1") (status_error 503) eq_refl eq_refl)
    as (lookup & Hl & Hf).
  destruct (getEnriched_fallback_keeps_attributes _ _ (VStr "user1") ea lookup Hl)
    as (out & Hout & Hsrc & Hflags & Hkeep).
  { unfold no_audience_data. by rewrite Hf. }
  exists out. split; [exact Hout|]. split; [exact Hsrc|].
  split; [rewrite Hkeep by by_decision; vm_compute; reflexivity|].
  split; [rewrite Hkeep by by_decision; vm_compute; reflexivity|].
  apply Hflags. by_decision.
Defined.

(** X10. In the audience branch (the look-up answers with a record that has
    at least one own property under [_audiences]) each of the three flags
    is the boolean [audiences.flag === true], so a value such as the string
    "true" counts as false.  Every other key comes from the provider's
    attributes, which win over the caller's.  The provider's four standard
    attributes are always written: where the record lacks one and
    [custom_attributes] does not supply it, the caller's value under that
    key is lost. *)
Theorem getEnriched_audience_branch :
  ∀ http svc userId (ea : JsObj) resp,
    env_truthy (Hightouch.apiKey svc) = true →
    http (Hightouch.lookupRequest svc userId) = Return resp →
    is_nullish (data resp) = false →
    let o := own_props (data resp) in
    let audiences := own_props (providerAudiences o) in
    0 < size audiences →
    ∃ out,
      Hightouch.getEnrichedUserAttributes http svc userId (Some ea) = Return out ∧
      (∀ flag, flag ∈ audienceFlags →
         out !! flag = Some (VBool (strict_eq_true (prop audiences flag)))) ∧
      (∀ k, k ∉ audienceFlags →
         out !! k = (providerAttributes o ∪ ea) !! k ≫= present) ∧
      (∀ k, k ∈ providerKeys →
         own_props (prop o "custom_attributes") !! k = None →
         out !! k = present (prop o k)).
Proof.
  intros http svc userId ea resp Hk Hr Hd o audiences Hsz.
  eexists. split.
  { unfold Hightouch.getEnrichedUserAttributes.
    rewrite (getUserAudiences_success http svc userId resp Hk Hr Hd).
    cbn [mbind completion_bind Js.bind mret completion_ret
         Hightouch.found Hightouch.audiences Hightouch.attributes truthy].
    fold o. fold audiences. rewrite bool_decide_eq_true_2 by done.
    cbn [andb default from_option id]. reflexivity. }
  assert (∀ k, k ∉ audienceFlags →
            Hightouch.removeNullish
              (Hightouch.fromHightouch ea (providerAudiences o)
                 (providerAttributes o)) !! k
            = (providerAttributes o ∪ ea) !! k ≫= present) as Hother.
  { intros k Hn. unfold audienceFlags in Hn. rewrite !not_elem_of_cons in Hn.
    destruct Hn as (? & ? & ? & _).
    rewrite removeNullish_lookup. f_equal.
    unfold Hightouch.fromHightouch, spread.
    by rewrite !lookup_insert_ne. }
  split; [|split].
  - intros flag Hin. unfold audienceFlags in Hin. rewrite !elem_of_cons in Hin.
    rewrite removeNullish_lookup. unfold Hightouch.fromHightouch.
    fold audiences.
    destruct Hin as [-> | [-> | [-> | Hin]]]; [..|by apply elem_of_nil in Hin].
    + rewrite !lookup_insert_ne by done. by rewrite lookup_insert_eq.
    + rewrite lookup_insert_ne by done. by rewrite lookup_insert_eq.
    + by rewrite lookup_insert_eq.
  - done.
  - intros k Hin Hcustom. unfold providerKeys in Hin.
    rewrite !elem_of_cons in Hin.
    destruct Hin as [-> | [-> | [-> | [-> | Hin]]]];
      [..|by apply elem_of_nil in Hin];
      (rewrite Hother by by_decision;
       unfold providerAttributes, spread;
       match goal with
       | |- (_ ∪ _) !! ?k ≫= _ = _ =>
           rewrite (lookup_union_Some_l _ ea k (prop o k)); [done|]
       end;
       rewrite lookup_union_r by done; by js_lookup).
Qed.

Lemma getEnriched_audience_branch_witness :
  let ea := js_object [("tier", VStr "gold"); ("country", VStr "US");
                       ("premium_subscriber", VBool false)]%string in
  ∃ out,
    Hightouch.getEnrichedUserAttributes (http_ok hightouch_record) hightouch
                                        (VStr "user1") (Some ea) = Return out ∧
    out !! "premium_subscriber"%string = Some (VBool true) ∧
    out !! "at_risk_churn"%string = Some (VBool false) ∧
    out !! "tier"%string = None ∧
    out !! "country"%string = Some (VStr "US") ∧
    out !! "plan"%string = Some (VStr "annual").
Proof.
  intros ea.
  destruct (getEnriched_audience_branch (http_ok hightouch_record) hightouch
              (VStr "user1") ea {| status := VNum 200; data := hightouch_record |}
              eq_refl eq_refl eq_refl)
    as (out & Hout & Hflags & Hother & Hprov); [vm_compute; lia|].
  exists out. split; [exact Hout|].
  split; [rewrite Hflags by by_decision; vm_compute; reflexivity|].
  split; [rewrite Hflags by by_decision; vm_compute; reflexivity|].
  split; [rewrite Hprov by (by_decision || (vm_compute; reflexivity));
          vm_compute; reflexivity|].
  split; rewrite Hother by by_decision; vm_compute; reflexivity.
Defined.

(** X11. A look-up that succeeds without audience data is treated like a
    user who was not found: when the response has no body, or its record
    has no own property under [_audiences], the result is the fallback
    output for the caller's attributes, and the provider's attributes
    ([lifetime_value], [tier], ...) are not used at all. *)
Theorem getEnriched_found_without_audiences :
  ∀ http svc userId existingAttributes resp,
    env_truthy (Hightouch.apiKey svc) = true →
    http (Hightouch.lookupRequest svc userId) = Return resp →
    is_nullish (data resp) = true
    ∨ size (own_props (providerAudiences (own_props (data resp)))) = 0 →
    Hightouch.getEnrichedUserAttributes http svc userId existingAttributes
    = Return (enrichFallback (default ∅ existingAttributes)).
Proof.
  intros http svc userId existingAttributes resp Hk Hr Hcase.
  destruct (is_nullish (data resp)) eqn:Hd.
  - destruct (getUserAudiences_no_body http svc userId resp Hk Hr Hd)
      as (l & Hl & Hf & _).
    apply (getEnriched_else_branch http svc userId existingAttributes l Hl).
    unfold no_audience_data. by rewrite Hf.
  - destruct Hcase as [?|Hsz]; [done|].
    apply (getEnriched_else_branch http svc userId existingAttributes _
             (getUserAudiences_success http svc userId resp Hk Hr Hd)).
    unfold no_audience_data. cbn [Hightouch.found Hightouch.audiences truthy].
    rewrite Hsz. done.
Qed.

Lemma getEnriched_found_without_audiences_witness :
  let ea := Some (js_object [("subscriptionTier", VStr "premium")]%string) in
  let record := VObj (js_object [("lifetime_value", VNum 1492);
                                 ("tier", VStr "gold")]%string) in
  let not_found :=
    Hightouch.getEnrichedUserAttributes (http_down (status_error 404)) hightouch
                                        (VStr "user1") ea in
  Hightouch.getEnrichedUserAttributes (http_ok record) hightouch
                                      (VStr "user1") ea = not_found ∧
  Hightouch.getEnrichedUserAttributes (http_ok VNull) hightouch
                                      (VStr "user1") ea = not_found.
Proof.
  intros ea record not_found.
  assert (not_found = Return (enrichFallback (default ∅ ea))) as ->
    by reflexivity.
  split.
  - apply (getEnriched_found_without_audiences (http_ok record) hightouch
             (VStr "user1") ea {| status := VNum 200; data := record |}
             eq_refl eq_refl).
    right. vm_compute. reflexivity.
  - apply (getEnriched_found_without_audiences (http_ok VNull) hightouch
             (VStr "user1") ea {| status := VNum 200; data := VNull |}
             eq_refl eq_refl).
    left. reflexivity.
Defined.

(** X12. [isUserInAudience] never raises.  It answers [true] only when the
    look-up succeeds and the record's audience of that name is the boolean
    [true]; it answers [false] when the service is not configured, when the
    request is rejected, and when the response has no body. *)
Theorem isUserInAudience_answers :
  ∀ http svc userId audienceName,
    let r := Hightouch.isUserInAudience http svc userId audienceName in
    (∃ b, r = Return b) ∧
    (env_truthy (Hightouch.apiKey svc) = false → r = Return false) ∧
    (∀ e, http (Hightouch.lookupRequest svc userId) = Throw e → r = Return false) ∧
    (∀ resp, http (Hightouch.lookupRequest svc userId) = Return resp →
       env_truthy (Hightouch.apiKey svc) = true →
       r = Return (negb (is_nullish (data resp))
                   && strict_eq_true
                        (prop (own_props (providerAudiences (own_props (data resp))))
                              audienceName))).
Proof.
  intros http svc userId audienceName r. subst r.
  unfold Hightouch.isUserInAudience.
  assert (∀ l, Hightouch.getUserAudiences http svc userId = Return l →
               Hightouch.audiences l = VObj ∅ →
               (l ← Hightouch.getUserAudiences http svc userId;
                mret (strict_eq_true
                        (prop (own_props (Hightouch.audiences l)) audienceName)))
               = Return false) as Hempty.
  { intros l -> Ha. cbn [mbind completion_bind Js.bind]. rewrite Ha.
    unfold prop. cbn [own_props]. by rewrite lookup_empty. }
  split; [|split; [|split]].
  - destruct (getUserAudiences_total http svc userId) as [l ->].
    cbn [mbind completion_bind Js.bind mret completion_ret]. eauto.
  - intros Hk. unfold Hightouch.getUserAudiences in *. rewrite Hk in *.
    cbn [negb] in *. by apply (Hempty _ eq_refl).
  - intros e He. destruct (env_truthy (Hightouch.apiKey svc)) eqn:Hk.
    + unfold Hightouch.getUserAudiences in *. rewrite Hk, He in *.
      cbn [negb mbind completion_bind Js.bind try_catch] in *.
      destruct (Hightouch.is_404 e); by apply (Hempty _ eq_refl).
    + unfold Hightouch.getUserAudiences in *. rewrite Hk in *.
      cbn [negb] in *. by apply (Hempty _ eq_refl).
  - intros resp Hr Hk. destruct (is_nullish (data resp)) eqn:Hd.
    + unfold Hightouch.getUserAudiences in *. rewrite Hk, Hr in *.
      cbn [negb mbind completion_bind Js.bind] in *.
      destruct (data resp); try discriminate Hd;
        cbn [get_prop Js.bind try_catch Hightouch.is_404 response Error] in *;
        by apply (Hempty _ eq_refl).
    + by rewrite (getUserAudiences_success http svc userId resp Hk Hr Hd).
Qed.

Lemma isUserInAudience_answers_witness :
  Hightouch.isUserInAudience (http_ok hightouch_record) hightouch
                             (VStr "user1") "premium_subscriber"
    = Return true ∧
  Hightouch.isUserInAudience (http_ok hightouch_record) hightouch
                             (VStr "user1") "at_risk_churn"
    = Return false ∧
  Hightouch.isUserInAudience (http_down timeout_error) hightouch
                             (VStr "user1") "premium_subscriber"
    = Return false.
Proof.
  destruct (isUserInAudience_answers (http_ok hightouch_record) hightouch
              (VStr "user1") "premium_subscriber"%string) as (_ & _ & _ & H1).
  destruct (isUserInAudience_answers (http_ok hightouch_record) hightouch
              (VStr "user1") "at_risk_churn"%string) as (_ & _ & _ & H2).
  destruct (isUserInAudience_answers (http_down timeout_error) hightouch
              (VStr "user1") "premium_subscriber"%string) as (_ & _ & H3 & _).
  split; [|split].
  - rewrite (H1 _ eq_refl eq_refl). vm_compute. reflexivity.
  - rewrite (H2 _ eq_refl eq_refl). vm_compute. reflexivity.
  - apply (H3 timeout_error). reflexivity.
Defined.


(** ** [BrazeService] *)

(** X13. Every operation of [BrazeService] fails fast: with the API key or
    the REST endpoint missing or empty it throws the configuration error
    whatever the network would answer, and [triggerCampaign] does the same,
    with its own message, also when the campaign id is falsy. *)
Theorem braze_requires_configuration :
  ∀ (http : Http) (svc : Braze.BrazeService) (now : string)
    (userId x y z campaignId : JsVal),
    env_truthy (Braze.apiKey svc) = false
    ∨ env_truthy (Braze.restEndpoint svc) = false
    ∨ truthy campaignId = false →
    Braze.triggerCampaign http svc userId campaignId x y
      = Throw (Error "Braze API configuration or campaignId is missing.") ∧
    (Braze.configured svc = false →
     Braze.sendMessage http svc userId x y = Throw Braze.configuration_missing ∧
     Braze.trackEvent http now svc userId x y z = Throw Braze.configuration_missing ∧
     Braze.updateUserAttributes http svc userId x = Throw Braze.configuration_missing ∧
     Braze.triggerCanvas http svc x userId y = Throw Braze.configuration_missing).
Proof.
  intros http svc now userId x y z campaignId Hmiss. split.
  - unfold Braze.triggerCampaign, Braze.configured.
    destruct Hmiss as [-> | [-> | ->]]; cbn [andb negb];
      by rewrite ?andb_false_r.
  - intros Hcfg.
    unfold Braze.sendMessage, Braze.trackEvent, Braze.updateUserAttributes,
      Braze.triggerCanvas.
    by rewrite Hcfg.
Qed.

Lemma braze_requires_configuration_witness :
  let no_endpoint :=
    {| Braze.apiKey := Some "braze-key"%string; Braze.restEndpoint := None;
       Braze.appId := None |} in
  Braze.triggerCampaign (http_ok VNull) no_endpoint (VStr "user1")
                        (VStr "campaign-1") VUndef VUndef
    = Throw (Error "Braze API configuration or campaignId is missing.") ∧
  Braze.updateUserAttributes (http_ok VNull) no_endpoint (VStr "user1") VUndef
    = Throw Braze.configuration_missing ∧
  Braze.triggerCampaign (http_ok VNull) braze (VStr "user1") (VStr "")
                        VUndef VUndef
    = Throw (Error "Braze API configuration or campaignId is missing.").
Proof.
  intros no_endpoint.
  destruct (braze_requires_configuration (http_ok VNull) no_endpoint "t"%string
              (VStr "user1") VUndef VUndef VUndef (VStr "campaign-1"))
    as (Hc & Hrest); [right; left; reflexivity|].
  destruct (Hrest eq_refl) as (_ & _ & Hupd & _).
  destruct (braze_requires_configuration (http_ok VNull) braze "t"%string
              (VStr "user1") VUndef VUndef VUndef (VStr ""))
    as (Hc' & _); [right; right; reflexivity|].
  split; [exact Hc|]. split; [exact Hupd | exact Hc'].
Defined.

(** X14. A configured [updateUserAttributes] makes one POST to
    "<restEndpoint>/users/track" with the bearer key and resolves or
    rejects exactly as that request does.  The one attributes object it
    sends carries the caller's attributes as they are; for the keys the
    caller does not give, it carries [external_id] the user id and
    [email_subscribe] and [push_subscribe] "subscribed".  So a caller's own
    [email_subscribe] or [external_id] overrides the implicit one. *)
Theorem updateUserAttributes_request :
  ∀ (http : Http) (svc : Braze.BrazeService) (userId attributes : JsVal),
    Braze.configured svc = true →
    ∃ req sent,
      Braze.updateUserAttributes http svc userId attributes = http req ∧
      method req = "POST"%string ∧
      url req = (env_str (Braze.restEndpoint svc) +:+ "/users/track") ∧
      headers req !! "Authorization"%string
        = Some (VStr ("Bearer " +:+ env_str (Braze.apiKey svc))) ∧
      body req = VObj (js_object [("attributes", VArr [VObj sent])]%string) ∧
      (∀ k v, own_props attributes !! k = Some v → sent !! k = Some v) ∧
      (∀ k, own_props attributes !! k = None →
            sent !! k = js_object [("external_id", userId);
                                   ("email_subscribe", VStr "subscribed");
                                   ("push_subscribe", VStr "subscribed")]%string
                        !! k).
Proof.
  intros http svc userId attributes Hcfg.
  unfold Braze.updateUserAttributes. rewrite Hcfg. cbn [negb].
  set (sent := spread (js_object [("external_id", userId);
                                  ("email_subscribe", VStr "subscribed");
                                  ("push_subscribe", VStr "subscribed")]%string)
                      (own_props attributes)).
  exists (Braze.postRequest svc "/users/track"
            (VObj (js_object [("attributes", VArr [VObj sent])]%string))), sent.
  split.
  { unfold try_catch, mbind, completion_bind, Js.bind, mret, completion_ret.
    by destruct (http _). }
  split; [done|]. split; [done|].
  split; [cbn [headers Braze.postRequest]; by js_lookup|].
  split; [reflexivity|]. subst sent. unfold spread. split.
  - intros k v Hk. by apply lookup_union_Some_l.
  - intros k Hk. by apply lookup_union_r.
Qed.

Lemma updateUserAttributes_request_witness :
  ∃ req sent,
    Braze.updateUserAttributes (http_down timeout_error) braze (VStr "user1")
      (VObj (js_object [("eppo_gate", VBool true);
                        ("email_subscribe", VStr "unsubscribed")]%string))
    = http_down timeout_error req ∧
    body req = VObj (js_object [("attributes", VArr [VObj sent])]%string) ∧
    sent !! "eppo_gate"%string = Some (VBool true) ∧
    sent !! "email_subscribe"%string = Some (VStr "unsubscribed") ∧
    sent !! "push_subscribe"%string = Some (VStr "subscribed") ∧
    sent !! "external_id"%string = Some (VStr "user1").
Proof.
  destruct (updateUserAttributes_request (http_down timeout_error) braze
              (VStr "user1")
              (VObj (js_object [("eppo_gate", VBool true);
                                ("email_subscribe", VStr "unsubscribed")]%string))
              eq_refl)
    as (req & sent & Hres & _ & _ & _ & Hbody & Hcaller & Himplicit).
  exists req, sent. split; [exact Hres|]. split; [exact Hbody|].
  split; [apply Hcaller; vm_compute; reflexivity|].
  split; [apply Hcaller; vm_compute; reflexivity|].
  split; (rewrite Himplicit by (vm_compute; reflexivity);
          vm_compute; reflexivity).
Defined.

(** X15. A configured [triggerCampaign] with a truthy campaign id makes one
    POST to "<restEndpoint>/campaigns/trigger/send" for one recipient.  It
    resolves with the [data] of the response, not the response, and rejects
    with the rebuilt "Request failed" error.  The recipient carries the
    trigger properties ([{}] when none are given) and an attributes object
    in which [email_subscribe] and [push_subscribe] are "subscribed" unless
    the caller's user attributes say otherwise. *)
Theorem triggerCampaign_request :
  ∀ (http : Http) (svc : Braze.BrazeService)
    (userId campaignId triggerProperties userAttributes : JsVal),
    Braze.configured svc = true →
    truthy campaignId = true →
    ∃ req sent,
      Braze.triggerCampaign http svc userId campaignId triggerProperties
                            userAttributes
      = match http req with
        | Return response => Return (data response)
        | Throw e => Throw (Braze.request_failed e)
        end ∧
      method req = "POST"%string ∧
      url req = (env_str (Braze.restEndpoint svc) +:+ "/campaigns/trigger/send") ∧
      body req = VObj (js_object
        [("campaign_id", campaignId);
         ("recipients", VArr [VObj (js_object
            [("external_user_id", userId);
             ("trigger_properties", default_param triggerProperties (VObj ∅));
             ("attributes", VObj sent)])])]%string) ∧
      (∀ k v, own_props userAttributes !! k = Some v → sent !! k = Some v) ∧
      (∀ k, own_props userAttributes !! k = None →
            sent !! k = js_object [("email_subscribe", VStr "subscribed");
                                   ("push_subscribe", VStr "subscribed")]%string
                        !! k).
Proof.
  intros http svc userId campaignId triggerProperties userAttributes Hcfg Hid.
  unfold Braze.triggerCampaign. rewrite Hcfg, Hid. cbn [negb andb].
  set (sent := spread (js_object [("email_subscribe", VStr "subscribed");
                                  ("push_subscribe", VStr "subscribed")]%string)
                      (own_props (default_param userAttributes (VObj ∅)))).
  exists (Braze.postRequest svc "/campaigns/trigger/send"
            (VObj (js_object
               [("campaign_id", campaignId);
                ("recipients", VArr [VObj (js_object
                   [("external_user_id", userId);
                    ("trigger_properties",
                     default_param triggerProperties (VObj ∅));
                    ("attributes", VObj sent)])])]%string))), sent.
  split.
  { unfold try_catch, mbind, completion_bind, Js.bind, mret, completion_ret.
    by destruct (http _). }
  split; [done|]. split; [done|]. split; [reflexivity|].
  assert (own_props (default_param userAttributes (VObj ∅))
          = own_props userAttributes) as Hown by (by destruct userAttributes).
  subst sent. rewrite Hown. unfold spread. split.
  - intros k v Hk. by apply lookup_union_Some_l.
  - intros k Hk. by apply lookup_union_r.
Qed.

Lemma triggerCampaign_request_witness :
  ∃ (req : HttpRequest) (sent : JsObj),
    Braze.triggerCampaign (http_ok (VObj (js_object [("message", VStr "success")]%string)))
                          braze (VStr "user1") (VStr "campaign-1")
                          (Server.triggerPropertiesFor (VStr "flagX") (VStr "control"))
                          VUndef
    = Return (VObj (js_object [("message", VStr "success")]%string)) ∧
    url req = "https://rest.iad-01.braze.com/campaigns/trigger/send"%string ∧
    sent !! "email_subscribe"%string = Some (VStr "subscribed") ∧
    sent !! "push_subscribe"%string = Some (VStr "subscribed").
Proof.
  destruct (triggerCampaign_request
              (http_ok (VObj (js_object [("message", VStr "success")]%string)))
              braze (VStr "user1") (VStr "campaign-1")
              (Server.triggerPropertiesFor (VStr "flagX") (VStr "control"))
              VUndef eq_refl eq_refl)
    as (req & sent & Hres & _ & Hurl & _ & _ & Himplicit).
  exists req, sent. split; [exact Hres|]. split; [exact Hurl|].
  split; (rewrite Himplicit by (vm_compute; reflexivity);
          vm_compute; reflexivity).
Defined.

(** ** The request handlers of the server *)

Lemma getAssignment_returns_object sdk now flagKey userId userAttributes s :
  ∃ o, (getAssignment sdk now flagKey userId userAttributes s).1 = Return (VObj o).
Proof.
  unfold getAssignment.
  destruct (client s); [|eauto].
  destruct (initialized s); cbn [negb]; [|eauto].
  destruct (outcome _); [|eauto].
  destruct (lookupStored _ _ _ _) as [d m]. eauto.
Qed.

Lemma ensureGate_run w userId s :
  Server.ensureGate w userId s
  = (Return tt, s, [Server.UpdateUserAttributes userId Server.gateAttributes]).
Proof.
  unfold Server.ensureGate, Server.tryH, Server.brazeUpdateUserAttributes,
    mbind, Server.handler_bind, mret, Server.handler_ret.
  by destruct (Braze.updateUserAttributes _ _ _ _).
Qed.

Lemma maybeTriggerCampaign_run w fromBraze userId flagKey assignment s :
  Server.maybeTriggerCampaign w fromBraze userId flagKey assignment s
  = (Return tt, s, dispatchCalls w fromBraze userId flagKey assignment).
Proof.
  unfold Server.maybeTriggerCampaign, dispatchCalls, campaignToTrigger,
    Server.tryH, Server.brazeTriggerCampaign,
    mbind, Server.handler_bind, mret, Server.handler_ret.
  destruct (Server.rt_env w !! "BRAZE_WEBHOOK_CAMPAIGN_ID"%string) as [id|];
    destruct fromBraze; cbn [negb env_str]; try done.
  - by destruct (env_truthy (Some id) && negb (Server.includes "your_" id)).
  - destruct (env_truthy (Some id)); cbn [andb negb]; [|done].
    destruct (Server.includes "your_" id); cbn [negb]; [done|].
    by destruct (Braze.triggerCampaign _ _ _ _ _ _).
Qed.

(** The whole of [processWebhookAndSendMessage] on a body that is an
    object. *)
Lemma processWebhook_run w body s :
  is_nullish body = false →
  let field := prop (own_props body) in
  let userId := Server.webhookUserId field in
  let flagKey := VStr (Server.experimentFlagKey (Server.rt_env w)) in
  let ga := getAssignment (Server.rt_sdk w) (Server.rt_now w) flagKey userId
                          (Server.webhookUserAttributes field) s in
  ∃ o, ga.1 = Return (VObj o) ∧
    Server.processWebhookAndSendMessage w body s =
    (Return (VObj (js_object
       [("userId", userId);
        ("eppoAssignment", prop o "assignment");
        ("flagKey", flagKey);
        ("assignmentDetails", prop o "assignmentDetails");
        ("messagePreview", VObj (Server.messagePreviewFor (prop o "assignment")));
        ("messageType", js_or (prop o "assignment") (VStr "default"));
        ("timestamp", VStr (Server.rt_now w));
        ("demo_mode", VBool true);
        ("note", VStr "This is a demo - no actual messages were sent")]%string)),
     ga.2,
     Server.UpdateUserAttributes userId Server.gateAttributes
       :: dispatchCalls w (Server.isFromBrazeWebhook field) userId flagKey
                        (prop o "assignment")).
Proof.
  intros Hb field userId flagKey ga.
  destruct (getAssignment_returns_object (Server.rt_sdk w) (Server.rt_now w)
              flagKey userId (Server.webhookUserAttributes field) s) as [o Ho].
  fold ga in Ho. exists o. split; [done|].
  unfold Server.processWebhookAndSendMessage, mbind, Server.handler_bind,
    Server.liftC, mret, Server.handler_ret.
  rewrite (get_prop_defined body _ Hb).
  fold field. fold userId. rewrite ensureGate_run.
  unfold Server.eppoGetAssignment. fold flagKey. fold ga.
  destruct ga as [r s'] eqn:Hga. cbn [fst snd] in *. subst r.
  cbn [get_prop own_props]. rewrite maybeTriggerCampaign_run.
  cbn [app]. by rewrite app_nil_r.
Qed.

Lemma strict_eq_str_true v s : strict_eq_str v s = true ↔ v = VStr s.
Proof.
  destruct v; cbn [strict_eq_str]; try (split; intros; discriminate).
  rewrite bool_decide_eq_true. split; [by intros -> | by intros [= ->]].
Qed.

Lemma messagePreviewFor_type assignment :
  Server.messagePreviewFor assignment !! "type"%string =
  Some (VStr (if strict_eq_str assignment "treatment" then "TREATMENT"
              else if strict_eq_str assignment "control" then "CONTROL"
              else "DEFAULT")).
Proof.
  unfold Server.messagePreviewFor.
  destruct (strict_eq_str assignment "treatment"); [by js_lookup|].
  destruct (strict_eq_str assignment "control"); by js_lookup.
Qed.

Lemma getAssignment_has_assignment sdk now flagKey userId userAttributes s :
  ∃ o a, (getAssignment sdk now flagKey userId userAttributes s).1
           = Return (VObj o) ∧
         o !! "assignment"%string = Some a.
Proof.
  unfold getAssignment.
  destruct (client s); [|eexists _, _; split; [done | by js_lookup]].
  destruct (initialized s); cbn [negb];
    [|eexists _, _; split; [done | by js_lookup]].
  destruct (outcome _); [|eexists _, _; split; [done | by js_lookup]].
  destruct (lookupStored _ _ _ _) as [d m].
  eexists _, _; split; [done | by js_lookup].
Qed.

(** X16. On a body that is an object [processWebhookAndSendMessage] always
    completes: neither a failing gate update nor a failing campaign trigger
    surfaces or changes what it returns.  The service object is left as
    [getAssignment] leaves it; the result carries the user id, the
    assignment [getAssignment] reported and the preview chosen by exact
    match: TREATMENT for "treatment", CONTROL for "control", DEFAULT for
    anything else, [null] included.  A body that is [null] or [undefined]
    makes it throw before anything is called. *)
Theorem processWebhook_result :
  ∀ w body s,
    let r := Server.processWebhookAndSendMessage w body s in
    let ga := webhookAssignment w body s in
    (is_nullish body = true →
     (∃ e, r.1.1 = Throw e) ∧ r.1.2 = s ∧ r.2 = []) ∧
    (is_nullish body = false →
     ∃ assignment,
       result_field ga.1 "assignment" = Some assignment ∧
       r.1.2 = ga.2 ∧
       result_field r.1.1 "eppoAssignment" = Some assignment ∧
       result_field r.1.1 "userId"
         = Some (Server.webhookUserId (prop (own_props body))) ∧
       result_field r.1.1 "assignmentDetails"
         = result_field ga.1 "assignmentDetails" ∧
       (assignment = VStr "treatment" →
        field_of (result_field r.1.1 "messagePreview") "type"
          = Some (VStr "TREATMENT")) ∧
       (assignment = VStr "control" →
        field_of (result_field r.1.1 "messagePreview") "type"
          = Some (VStr "CONTROL")) ∧
       (assignment ≠ VStr "treatment" → assignment ≠ VStr "control" →
        field_of (result_field r.1.1 "messagePreview") "type"
          = Some (VStr "DEFAULT")) ∧
       ∀ http' braze',
         (Server.processWebhookAndSendMessage
            {| Server.rt_http := http'; Server.rt_sdk := Server.rt_sdk w;
               Server.rt_now := Server.rt_now w; Server.rt_env := Server.rt_env w;
               Server.rt_braze := braze' |} body s).1 = r.1).
Proof.
  intros w body s r ga. split.
  - intros Hb. subst r.
    unfold Server.processWebhookAndSendMessage, mbind, Server.handler_bind,
      Server.liftC.
    destruct body; try discriminate Hb; cbn [get_prop]; eauto.
  - intros Hb.
    destruct (processWebhook_run w body s Hb) as (o & Ho & Hrun).
    destruct (getAssignment_has_assignment (Server.rt_sdk w) (Server.rt_now w)
                (VStr (Server.experimentFlagKey (Server.rt_env w)))
                (Server.webhookUserId (prop (own_props body)))
                (Server.webhookUserAttributes (prop (own_props body))) s)
      as (o' & a & Ho' & Ha).
    rewrite Ho in Ho'. injection Ho' as <-.
    fold (webhookAssignment w body s) in Ho, Hrun. fold ga in Ho, Hrun.
    fold r in Hrun. exists a.
    assert (prop o "assignment" = a) as Hpa by (unfold prop; by rewrite Ha).
    rewrite Hpa in Hrun.
    split; [by rewrite Ho|]. rewrite Hrun. cbn [fst snd].
    split; [done|]. split; [by js_lookup|]. split; [by js_lookup|].
    split.
    { rewrite Ho. js_lookup. unfold prop.
      destruct (o !! "assignmentDetails"%string) as [d|] eqn:Hd; [done|].
      exfalso. revert Hd. clear -Ho. subst ga. unfold webhookAssignment in Ho.
      unfold getAssignment in Ho.
      destruct (client s); [|injection Ho as <-; by js_lookup].
      destruct (initialized s); cbn [negb] in Ho;
        [|injection Ho as <-; by js_lookup].
      destruct (outcome _); [|injection Ho as <-; by js_lookup].
      destruct (lookupStored _ _ _ _) as [d m].
      injection Ho as <-. by js_lookup. }
    assert (field_of (result_field (Return (VObj (js_object
              [("userId", Server.webhookUserId (prop (own_props body)));
               ("eppoAssignment", a);
               ("flagKey", VStr (Server.experimentFlagKey (Server.rt_env w)));
               ("assignmentDetails", prop o "assignmentDetails");
               ("messagePreview", VObj (Server.messagePreviewFor a));
               ("messageType", js_or a (VStr "default"));
               ("timestamp", VStr (Server.rt_now w));
               ("demo_mode", VBool true);
               ("note", VStr "This is a demo - no actual messages were sent")]%string)))
              "messagePreview") "type"
            = Server.messagePreviewFor a !! "type"%string) as Hprev
      by (by js_lookup).
    rewrite Hprev, messagePreviewFor_type.
    split; [by intros ->|]. split; [by intros ->|]. split.
    + intros H1 H2.
      destruct (strict_eq_str a "treatment") eqn:E1;
        [by apply strict_eq_str_true in E1|].
      destruct (strict_eq_str a "control") eqn:E2;
        [by apply strict_eq_str_true in E2|]. done.
    + intros http' braze'.
      destruct (processWebhook_run
                  {| Server.rt_http := http'; Server.rt_sdk := Server.rt_sdk w;
                     Server.rt_now := Server.rt_now w;
                     Server.rt_env := Server.rt_env w;
                     Server.rt_braze := braze' |} body s Hb)
        as (o2 & Ho2 & Hrun2).
      cbn [Server.rt_sdk Server.rt_now Server.rt_env] in Ho2, Hrun2.
      fold (webhookAssignment w body s) in Ho2, Hrun2. fold ga in Ho2, Hrun2.
      rewrite Ho in Ho2. injection Ho2 as <-.
      rewrite Hrun2, Hpa. done.
Qed.

Lemma processWebhook_result_witness :
  let w := demo_runtime (http_down timeout_error)
                        (silent (Return (VStr "treatment"))) in
  let r := Server.processWebhookAndSendMessage w braze_webhook_body ready in
  result_field r.1.1 "eppoAssignment" = Some (VStr "treatment") ∧
  field_of (result_field r.1.1 "messagePreview") "type" = Some (VStr "TREATMENT") ∧
  (∃ e, (Server.processWebhookAndSendMessage w VNull ready).1.1 = Throw e).
Proof.
  intros w r.
  destruct (processWebhook_result w braze_webhook_body ready) as (_ & Hobj).
  destruct (Hobj eq_refl) as (a & Ha & _ & He & _ & _ & Ht & _).
  assert (a = VStr "treatment") as -> by (vm_compute in Ha; by injection Ha).
  split; [exact He|]. split; [by apply Ht|].
  destruct (processWebhook_result w VNull ready) as (Hnull & _).
  by destruct (Hnull eq_refl) as (? & _).
Defined.

(** X17. Loop prevention: when the body has any of [trigger_properties],
    [eppo_variant], [eppo_flagkey], [subject] with a value other than
    [undefined] ([null] counts), the only call made on [brazeService] is
    the gate update; no campaign is triggered, whatever campaign id is
    configured. *)
Theorem braze_webhook_never_dispatches :
  ∀ w body s k,
    is_nullish body = false →
    k ∈ originFields →
    prop (own_props body) k ≠ VUndef →
    (Server.processWebhookAndSendMessage w body s).2 =
    [Server.UpdateUserAttributes (Server.webhookUserId (prop (own_props body)))
                                 Server.gateAttributes].
Proof.
  intros w body s k Hb Hk Hdef.
  destruct (processWebhook_run w body s Hb) as (o & _ & ->). cbn [snd].
  f_equal. unfold dispatchCalls.
  assert (Server.isFromBrazeWebhook (prop (own_props body)) = true) as ->.
  { unfold Server.isFromBrazeWebhook, originFields in *.
    rewrite !elem_of_cons in Hk.
    assert (Server.not_undefined (prop (own_props body) k) = true) as Hnu
      by (by destruct (prop (own_props body) k)).
    destruct Hk as [-> | [-> | [-> | [-> | Hk]]]];
      [..|by apply elem_of_nil in Hk]; rewrite Hnu;
      by rewrite ?orb_true_r. }
  by destruct (campaignToTrigger _).
Qed.

Lemma braze_webhook_never_dispatches_witness :
  let w := demo_runtime (http_ok VNull) (silent (Return (VStr "treatment"))) in
  campaignToTrigger (Server.rt_env w) = Some "campaign-1"%string ∧
  (Server.processWebhookAndSendMessage w braze_webhook_body ready).2 =
  [Server.UpdateUserAttributes (VStr "user1") Server.gateAttributes].
Proof.
  intros w. split; [vm_compute; reflexivity|].
  apply (braze_webhook_never_dispatches w braze_webhook_body ready
           "trigger_properties"%string eq_refl).
  - by_decision.
  - vm_compute. discriminate.
Defined.

(** X18. A body with none of those four fields counts as internal.  With a
    campaign id configured that is not empty and does not contain "your_",
    the gate update is followed by exactly one [triggerCampaign], for the
    same user, with trigger properties [eppo_flag_key] (the experiment flag
    key) and [eppo_assignment] (the assignment just obtained).  Without
    such a campaign id only the gate update is made.  The fields
    [eppo_flag_key] and [eppo_assignment] are not among the four, so the
    body the README configures for the Braze webhook is internal too. *)
Theorem internal_request_dispatches :
  ∀ w body s,
    is_nullish body = false →
    (∀ k, k ∈ originFields → prop (own_props body) k = VUndef) →
    let userId := Server.webhookUserId (prop (own_props body)) in
    let flagKey := VStr (Server.experimentFlagKey (Server.rt_env w)) in
    ∃ assignment,
      result_field (webhookAssignment w body s).1 "assignment" = Some assignment ∧
      (∀ id, campaignToTrigger (Server.rt_env w) = Some id →
         (Server.processWebhookAndSendMessage w body s).2 =
         [Server.UpdateUserAttributes userId Server.gateAttributes;
          Server.TriggerCampaign userId (VStr id)
            (VObj (js_object [("eppo_flag_key", flagKey);
                              ("eppo_assignment", assignment)]%string))]) ∧
      (campaignToTrigger (Server.rt_env w) = None →
         (Server.processWebhookAndSendMessage w body s).2 =
         [Server.UpdateUserAttributes userId Server.gateAttributes]) ∧
      (campaignToTrigger (Server.rt_env w) = None ↔
       ∀ id, Server.rt_env w !! "BRAZE_WEBHOOK_CAMPAIGN_ID"%string = Some id →
             id = ""%string ∨ Server.includes "your_" id = true).
Proof.
  intros w body s Hb Hnone userId flagKey. subst userId flagKey.
  destruct (processWebhook_run w body s Hb) as (o & Ho & Hrun).
  destruct (getAssignment_has_assignment (Server.rt_sdk w) (Server.rt_now w)
              (VStr (Server.experimentFlagKey (Server.rt_env w)))
              (Server.webhookUserId (prop (own_props body)))
              (Server.webhookUserAttributes (prop (own_props body))) s)
    as (o' & a & Ho' & Ha).
  rewrite Ho in Ho'. injection Ho' as <-.
  exists a. rewrite Hrun. cbn [snd].
  assert (prop o "assignment" = a) as -> by (unfold prop; by rewrite Ha).
  assert (Server.isFromBrazeWebhook (prop (own_props body)) = false) as ->.
  { unfold Server.isFromBrazeWebhook.
    rewrite !Hnone by by_decision. done. }
  split; [unfold webhookAssignment; by rewrite Ho|].
  unfold dispatchCalls. split; [by intros id ->|]. split; [by intros ->|].
  unfold campaignToTrigger.
  destruct (Server.rt_env w !! "BRAZE_WEBHOOK_CAMPAIGN_ID"%string) as [id|];
    [|split; [by intros _ id' ? | done]].
  cbn [env_truthy].
  destruct (String.eqb id "") eqn:Hempty; cbn [negb andb].
  - apply String.eqb_eq in Hempty as ->.
    split; [intros _ id' [= <-]; by left | done].
  - destruct (Server.includes "your_" id) eqn:Hinc; cbn [negb].
    + split; [intros _ id' [= <-]; by right | done].
    + split; [done|]. intros H.
      destruct (H id eq_refl) as [-> | Hi]; [discriminate Hempty | congruence].
Qed.

Lemma internal_request_dispatches_witness :
  let w := demo_runtime (http_ok VNull) (silent (Return (VStr "treatment"))) in
  (Server.processWebhookAndSendMessage w documented_webhook_body ready).2 =
  [Server.UpdateUserAttributes (VStr "user1") Server.gateAttributes;
   Server.TriggerCampaign (VStr "user1") (VStr "campaign-1")
     (VObj (js_object [("eppo_flag_key", VStr "flagX");
                       ("eppo_assignment", VStr "treatment")]%string))].
Proof.
  intros w.
  destruct (internal_request_dispatches w documented_webhook_body ready eq_refl)
    as (a & Ha & Hsome & _).
  { intros k Hk. unfold originFields in Hk. rewrite !elem_of_cons in Hk.
    destruct Hk as [-> | [-> | [-> | [-> | Hk]]]];
      [..|by apply elem_of_nil in Hk]; vm_compute; reflexivity. }
  assert (a = VStr "treatment") as -> by (vm_compute in Ha; by injection Ha).
  apply (Hsome "campaign-1"%string). vm_compute. reflexivity.
Defined.

(** X19. The webhook routes [POST /] and [POST /webhook] never fail.  For
    a body that is an object they answer 200 with the message preview
    alone, none of the other fields of the aggregate; for a body that is
    [null] or [undefined] they answer 500 with the error's message, having
    called nothing. *)
Theorem webhookRoute_reply :
  ∀ w body s,
    let r := Server.webhookRoute w body s in
    (is_nullish body = true →
     ∃ msg,
       r = (Return {| Server.code := 500;
                      Server.json := VObj (js_object
                        [("status", VStr "error");
                         ("message", VStr "Failed to process webhook");
                         ("error", VStr msg);
                         ("timestamp", VStr (Server.rt_now w))]%string) |},
            s, [])) ∧
    (is_nullish body = false →
     ∃ assignment,
       result_field (webhookAssignment w body s).1 "assignment" = Some assignment ∧
       r.1.1 = Return {| Server.code := 200;
                         Server.json := VObj (Server.messagePreviewFor assignment) |} ∧
       r.1.2 = (webhookAssignment w body s).2 ∧
       r.2 = (Server.processWebhookAndSendMessage w body s).2).
Proof.
  intros w body s r. subst r. split.
  - intros Hb.
    unfold Server.webhookRoute, Server.tryH, Server.processWebhookAndSendMessage,
      mbind, Server.handler_bind, Server.liftC, mret, Server.handler_ret.
    destruct body; try discriminate Hb; cbn [get_prop]; eauto.
  - intros Hb.
    destruct (processWebhook_run w body s Hb) as (o & Ho & Hrun).
    destruct (getAssignment_has_assignment (Server.rt_sdk w) (Server.rt_now w)
                (VStr (Server.experimentFlagKey (Server.rt_env w)))
                (Server.webhookUserId (prop (own_props body)))
                (Server.webhookUserAttributes (prop (own_props body))) s)
      as (o' & a & Ho' & Ha).
    rewrite Ho in Ho'. injection Ho' as <-.
    assert (prop o "assignment" = a) as Hpa by (unfold prop; by rewrite Ha).
    rewrite Hpa in Hrun. exists a.
    split; [unfold webhookAssignment; by rewrite Ho|].
    unfold Server.webhookRoute, Server.tryH, mbind, Server.handler_bind,
      Server.liftC, mret, Server.handler_ret.
    rewrite Hrun. cbn [get_prop own_props fst snd].
    assert (prop (js_object
              [("userId", Server.webhookUserId (prop (own_props body)));
               ("eppoAssignment", a);
               ("flagKey", VStr (Server.experimentFlagKey (Server.rt_env w)));
               ("assignmentDetails", prop o "assignmentDetails");
               ("messagePreview", VObj (Server.messagePreviewFor a));
               ("messageType", js_or a (VStr "default"));
               ("timestamp", VStr (Server.rt_now w));
               ("demo_mode", VBool true);
               ("note", VStr "This is a demo - no actual messages were sent")]%string)
              "messagePreview" = VObj (Server.messagePreviewFor a)) as ->
      by (unfold prop; by js_lookup).
    cbn [js_or truthy fst snd]. rewrite !app_nil_r.
    split; [done|]. split; [|done].
    unfold webhookAssignment.
    by destruct (getAssignment _ _ _ _ _ s).
Qed.

Lemma webhookRoute_reply_witness :
  let w := demo_runtime (http_down timeout_error)
                        (silent (Return (VStr "control"))) in
  (Server.webhookRoute w braze_webhook_body ready).1.1
    = Return {| Server.code := 200;
                Server.json := VObj (Server.messagePreviewFor (VStr "control")) |} ∧
  (∃ reply, (Server.webhookRoute w VUndef ready).1.1 = Return reply ∧
            Server.code reply = 500%Z).
Proof.
  intros w.
  destruct (webhookRoute_reply w braze_webhook_body ready) as (_ & Hobj).
  destruct (Hobj eq_refl) as (a & Ha & Hr & _).
  assert (a = VStr "control") as -> by (vm_compute in Ha; by injection Ha).
  split; [exact Hr|].
  destruct (webhookRoute_reply w VUndef ready) as (Hnull & _).
  destruct (Hnull eq_refl) as (msg & ->). eauto.
Defined.

Lemma destructure_defined v k what :
  is_nullish v = false →
  Server.destructure v k what = Return (prop (own_props v) k).
Proof. by destruct v. Qed.

(** X20. [POST /get-assignment] never fails.  Without a truthy [userId] it
    answers 400 and touches nothing: no gate update, no SDK call.  With one
    it makes the gate update (whose failure is ignored), calls
    [getAssignment] with the body's [userAttributes] ([{}] when omitted),
    and answers 200 with every property of the object [getAssignment]
    returned plus [serverInfo], which reports the flag key and the
    initialization state.  A body that is [null] or [undefined] gives 500. *)
Theorem getAssignmentRoute_reply :
  ∀ w body s,
    let r := Server.getAssignmentRoute w body s in
    let userId := prop (own_props body) "userId" in
    let flagKey := VStr (Server.experimentFlagKey (Server.rt_env w)) in
    let ga := getAssignment (Server.rt_sdk w) (Server.rt_now w) flagKey userId
                (default_param (prop (own_props body) "userAttributes") (VObj ∅))
                s in
    (is_nullish body = true →
     ∃ reply, r = (Return reply, s, []) ∧ Server.code reply = 500%Z) ∧
    (is_nullish body = false → truthy userId = false →
     r = (Return {| Server.code := 400;
                    Server.json := VObj (js_object
                      [("error", VStr "userId is required")]%string) |}, s, [])) ∧
    (is_nullish body = false → truthy userId = true →
     ∃ o j,
       ga.1 = Return (VObj o) ∧
       r = (Return {| Server.code := 200; Server.json := VObj j |}, ga.2,
            [Server.UpdateUserAttributes userId Server.gateAttributes]) ∧
       (∀ k, k ≠ "serverInfo"%string → j !! k = o !! k) ∧
       field_of (j !! "serverInfo"%string) "flagKey" = Some flagKey ∧
       field_of (j !! "serverInfo"%string) "eppoInitialized"
         = Some (VBool (initialized ga.2))).
Proof.
  intros w body s r userId flagKey ga. subst r.
  unfold Server.getAssignmentRoute, Server.tryH, mbind, Server.handler_bind,
    Server.liftC, mret, Server.handler_ret.
  split; [|split].
  - intros Hb. destruct body; try discriminate Hb; cbn [Server.destructure]; eauto.
  - intros Hb Hu. rewrite (destructure_defined body _ _ Hb).
    fold userId. by rewrite Hu.
  - intros Hb Hu. rewrite (destructure_defined body _ _ Hb).
    fold userId. rewrite Hu. cbn [negb]. rewrite ensureGate_run.
    unfold Server.eppoGetAssignment, Server.getService. fold flagKey. fold ga.
    destruct (getAssignment_returns_object (Server.rt_sdk w) (Server.rt_now w)
                flagKey userId
                (default_param (prop (own_props body) "userAttributes") (VObj ∅))
                s) as [o Ho].
    fold ga in Ho. destruct ga as [res s'] eqn:Hga. cbn [fst snd] in *.
    subst res. cbn [own_props app].
    eexists o, _. split; [done|]. split; [reflexivity|].
    unfold spread. split; [|split].
    + intros k Hk. apply lookup_union_r. unfold js_object. cbn [foldl fst snd].
      rewrite lookup_insert_ne by done. apply lookup_empty.
    + rewrite lookup_union_Some_l
        with (x := VObj (js_object
                 [("flagKey", flagKey);
                  ("eppoInitialized", VBool (isInitialized s'));
                  ("clientInfo", VObj (getClientInfo s'));
                  ("environment",
                   VStr (Server.env_or (Server.rt_env w !! "NODE_ENV"%string)
                                       "development"))]%string))
        by (by js_lookup).
      cbn [field_of]. by js_lookup.
    + rewrite lookup_union_Some_l
        with (x := VObj (js_object
                 [("flagKey", flagKey);
                  ("eppoInitialized", VBool (isInitialized s'));
                  ("clientInfo", VObj (getClientInfo s'));
                  ("environment",
                   VStr (Server.env_or (Server.rt_env w !! "NODE_ENV"%string)
                                       "development"))]%string))
        by (by js_lookup).
      cbn [field_of]. by js_lookup.
Qed.

Lemma getAssignmentRoute_reply_witness :
  let w := demo_runtime (http_down timeout_error)
                        (silent (Return (VStr "control"))) in
  let missing := VObj (js_object [("userAttributes", VObj ∅)]%string) in
  let given := VObj (js_object [("userId", VStr "user1")]%string) in
  Server.getAssignmentRoute w missing ready
    = (Return {| Server.code := 400;
                 Server.json := VObj (js_object
                   [("error", VStr "userId is required")]%string) |}, ready, []) ∧
  (∃ j, (Server.getAssignmentRoute w given ready).1.1
          = Return {| Server.code := 200; Server.json := VObj j |} ∧
        j !! "assignment"%string = Some (VStr "control")).
Proof.
  intros w missing given.
  destruct (getAssignmentRoute_reply w missing ready) as (_ & H400 & _).
  split; [apply H400; reflexivity|].
  destruct (getAssignmentRoute_reply w given ready) as (_ & _ & H200).
  destruct (H200 eq_refl eq_refl) as (o & j & Ho & Hr & Hkeep & _).
  exists j. split; [by rewrite Hr|].
  rewrite Hkeep by done.
  vm_compute in Ho. injection Ho as <-. vm_compute. reflexivity.
Defined.

(** X21. [POST /track-event] answers 400, touching nothing, unless both
    [userId] and [eventName] are truthy.  Otherwise it calls
    [getAssignment] and then [trackEvent] once.  What it forwards as
    [eppo_assignment] in the event properties and as [eppo_variant] in the
    user attributes is the whole object [getAssignment] returned, not the
    variant string, and both override a key of that name given by the
    caller.  Here a failure of the Braze call does surface: the route
    answers 500 with the error's message, while the assignment, already
    made, stays recorded in the service object. *)
Theorem trackEventRoute_reply :
  ∀ w body s,
    is_nullish body = false →
    let r := Server.trackEventRoute w body s in
    let field := prop (own_props body) in
    let userId := field "userId" in
    let eventName := field "eventName" in
    let flagKey := VStr (Server.experimentFlagKey (Server.rt_env w)) in
    let ga := getAssignment (Server.rt_sdk w) (Server.rt_now w) flagKey userId
                (default_param (field "userAttributes") (VObj ∅)) s in
    (truthy userId && truthy eventName = false →
     r = (Return {| Server.code := 400;
                    Server.json := VObj (js_object
                      [("error", VStr "userId and eventName are required")]%string) |},
          s, [])) ∧
    (truthy userId && truthy eventName = true →
     ∃ o props attrs,
       ga.1 = Return (VObj o) ∧
       r.1.2 = ga.2 ∧
       r.2 = [Server.TrackEvent userId eventName (VObj props) (VObj attrs)] ∧
       props !! "eppo_assignment"%string = Some (VObj o) ∧
       props !! "eppo_flag_key"%string = Some flagKey ∧
       attrs !! "eppo_variant"%string = Some (VObj o) ∧
       (∀ k, k ≠ "eppo_variant"%string →
             attrs !! k = own_props (field "userAttributes") !! k) ∧
       match Braze.trackEvent (Server.rt_http w) (Server.rt_now w)
                              (Server.rt_braze w) userId eventName
                              (VObj props) (VObj attrs) with
       | Return response =>
           ∃ j, r.1.1 = Return {| Server.code := 200; Server.json := VObj j |} ∧
                j !! "brazeResponse"%string = Some (data response) ∧
                j !! "eppoVariant"%string = Some (VObj o)
       | Throw e =>
           r.1.1 = Return {| Server.code := 500;
                             Server.json := VObj (js_object
                               [("error", VStr "Failed to track event");
                                ("details", VStr (message e))]%string) |}
       end).
Proof.
  intros w body s Hb r field userId eventName flagKey ga. subst r.
  unfold Server.trackEventRoute, Server.tryH, mbind, Server.handler_bind,
    Server.liftC, mret, Server.handler_ret.
  rewrite (destructure_defined body _ _ Hb).
  fold field. fold userId. fold eventName. split.
  - intros Hreq.
    assert (negb (truthy userId) || negb (truthy eventName) = true) as ->
      by (destruct (truthy userId), (truthy eventName); done).
    done.
  - intros Hreq.
    assert (negb (truthy userId) || negb (truthy eventName) = false) as ->
      by (destruct (truthy userId), (truthy eventName); done).
    unfold Server.eppoGetAssignment, Server.brazeTrackEvent.
    fold flagKey. fold ga.
    destruct (getAssignment_returns_object (Server.rt_sdk w) (Server.rt_now w)
                flagKey userId
                (default_param (field "userAttributes") (VObj ∅)) s) as [o Ho].
    fold ga in Ho. destruct ga as [res s'] eqn:Hga. cbn [fst snd] in *.
    subst res.
    assert (own_props (default_param (field "userAttributes") (VObj ∅))
            = own_props (field "userAttributes")) as Hown
      by (by destruct (field "userAttributes")).
    set (props := spread
           (own_props (default_param (field "eventProperties") (VObj ∅)))
           (js_object
              [("eppo_flag_key", flagKey);
               ("eppo_assignment", VObj o);
               ("experiment_id",
                match Server.rt_env w !! "EXPERIMENT_FLAG_KEY"%string with
                | Some k => VStr k
                | None => VUndef
                end);
               ("timestamp", VStr (Server.rt_now w))]%string)).
    set (attrs := spread
           (own_props (default_param (field "userAttributes") (VObj ∅)))
           (js_object [("eppo_variant", VObj o)]%string)).
    exists o, props, attrs. split; [done|].
    assert (props !! "eppo_assignment"%string = Some (VObj o)) as Hp1
      by (subst props; unfold spread; apply lookup_union_Some_l; by js_lookup).
    assert (props !! "eppo_flag_key"%string = Some flagKey) as Hp2
      by (subst props; unfold spread; apply lookup_union_Some_l; by js_lookup).
    assert (attrs !! "eppo_variant"%string = Some (VObj o)) as Ha1
      by (subst attrs; unfold spread; apply lookup_union_Some_l; by js_lookup).
    assert (∀ k, k ≠ "eppo_variant"%string →
                 attrs !! k = own_props (field "userAttributes") !! k) as Ha2.
    { intros k Hk. subst attrs. unfold spread. rewrite Hown.
      apply lookup_union_r. unfold js_object. cbn [foldl fst snd].
      rewrite lookup_insert_ne by done. apply lookup_empty. }
    destruct (Braze.trackEvent (Server.rt_http w) (Server.rt_now w)
                (Server.rt_braze w) userId eventName (VObj props) (VObj attrs))
      as [response|e'] eqn:Hbraze; cbn [fst snd app];
      (split; [done|]); (split; [reflexivity|]);
      do 4 (split; [done|]).
    + eexists. split; [reflexivity|]. split; by js_lookup.
    + reflexivity.
Qed.

Lemma trackEventRoute_reply_witness :
  let w := demo_runtime (http_down (status_error 500))
                        (logging bare_event (VStr "control")) in
  let body := VObj (js_object [("userId", VStr "user1");
                               ("eventName", VStr "purchase")]%string) in
  let r := Server.trackEventRoute w body ready in
  r.1.1 = Return {| Server.code := 500;
                    Server.json := VObj (js_object
                      [("error", VStr "Failed to track event");
                       ("details", VStr "Request failed with status code 500")]%string) |} ∧
  map_keys (recentAssignments r.1.2) = ["user1:flagX"%string] ∧
  (Server.trackEventRoute w (VObj (js_object [("userId", VStr "user1")]%string))
                          ready).2 = [].
Proof.
  intros w body r.
  destruct (trackEventRoute_reply w body ready eq_refl) as (_ & Hok).
  destruct (Hok eq_refl) as (o & props & attrs & _ & Hs & _ & _ & _ & _ & _ & Hb).
  fold r in Hs, Hb.
  assert (Braze.trackEvent (Server.rt_http w) (Server.rt_now w)
            (Server.rt_braze w) (prop (own_props body) "userId")
            (prop (own_props body) "eventName") (VObj props) (VObj attrs)
          = Throw (status_error 500)) as Hthrow by reflexivity.
  rewrite Hthrow in Hb.
  split; [exact Hb|]. split; [rewrite Hs; vm_compute; reflexivity|].
  destruct (trackEventRoute_reply w
              (VObj (js_object [("userId", VStr "user1")]%string)) ready eq_refl)
    as (H400 & _).
  by rewrite H400.
Defined.

(** The body [/send-message] builds for [processWebhookAndSendMessage]. *)
Lemma internal_body_fields userId userAttributes :
  truthy userId = true →
  let field := prop (own_props (VObj (js_object
                 [("userId", userId);
                  ("user_attributes", userAttributes)]%string))) in
  Server.isFromBrazeWebhook field = false ∧
  Server.webhookUserId field = userId ∧
  Server.webhookUserAttributes field = js_or userAttributes (VObj ∅).
Proof.
  intros Hu field.
  assert (∀ k, k ≠ "userId"%string → k ≠ "user_attributes"%string →
               field k = VUndef) as Hundef.
  { intros k H1 H2. subst field. unfold prop. cbn [own_props].
    unfold js_object. cbn [foldl fst snd].
    by rewrite !lookup_insert_ne, lookup_empty. }
  assert (field "userId"%string = userId) as Hid
    by (subst field; unfold prop; cbn [own_props]; by js_lookup).
  assert (field "user_attributes"%string = userAttributes) as Hattrs
    by (subst field; unfold prop; cbn [own_props]; by js_lookup).
  split; [|split].
  - unfold Server.isFromBrazeWebhook. by rewrite !Hundef.
  - unfold Server.webhookUserId.
    rewrite (Hundef "user_id"%string), (Hundef "external_user_id"%string), Hid
      by done.
    unfold js_or. cbn [truthy]. by rewrite Hu.
  - unfold Server.webhookUserAttributes.
    rewrite Hattrs, (Hundef "attributes"%string) by done.
    unfold js_or. cbn [truthy]. by destruct (truthy userAttributes).
Qed.

(** X22. [POST /send-message] hands [processWebhookAndSendMessage] a body it
    builds itself from [userId] and [userAttributes] alone.  So whatever
    else the request carries ([trigger_properties], [subject], ...), the
    request counts as internal: after the gate update the campaign is
    triggered whenever a usable campaign id is configured.  Without a
    truthy [userId] the route answers 400 and touches nothing. *)
Theorem sendMessageRoute_always_internal :
  ∀ w body s,
    is_nullish body = false →
    let r := Server.sendMessageRoute w body s in
    let userId := prop (own_props body) "userId" in
    let userAttributes :=
      default_param (prop (own_props body) "userAttributes") (VObj ∅) in
    let flagKey := VStr (Server.experimentFlagKey (Server.rt_env w)) in
    let ga := getAssignment (Server.rt_sdk w) (Server.rt_now w) flagKey userId
                            (js_or userAttributes (VObj ∅)) s in
    (truthy userId = false →
     r = (Return {| Server.code := 400;
                    Server.json := VObj (js_object
                      [("error", VStr "userId is required")]%string) |}, s, [])) ∧
    (truthy userId = true →
     ∃ assignment j,
       result_field ga.1 "assignment" = Some assignment ∧
       r.1.2 = ga.2 ∧
       r.2 = Server.UpdateUserAttributes userId Server.gateAttributes
             :: match campaignToTrigger (Server.rt_env w) with
                | Some id =>
                    [Server.TriggerCampaign userId (VStr id)
                       (Server.triggerPropertiesFor flagKey assignment)]
                | None => []
                end ∧
       r.1.1 = Return {| Server.code := 200; Server.json := VObj j |} ∧
       j !! "messagePreview"%string
         = Some (VObj (Server.messagePreviewFor assignment)) ∧
       field_of (field_of (j !! "eventToTrack"%string) "properties")
                "eppo_assignment" = Some assignment).
Proof.
  intros w body s Hb r userId userAttributes flagKey ga. subst r.
  unfold Server.sendMessageRoute, Server.tryH, mbind, Server.handler_bind,
    Server.liftC, mret, Server.handler_ret.
  rewrite (destructure_defined body _ _ Hb). fold userId. split.
  - by intros ->.
  - intros Hu. rewrite Hu. cbn [negb]. fold userAttributes.
    destruct (processWebhook_run w
                (VObj (js_object [("userId", userId);
                                  ("user_attributes", userAttributes)]%string))
                s eq_refl) as (o & Ho & Hrun).
    destruct (internal_body_fields userId userAttributes Hu)
      as (Hint & Hid & Hattrs).
    rewrite Hint, Hid in Hrun. rewrite Hid, Hattrs in Ho.
    fold flagKey in Ho, Hrun. fold ga in Ho.
    destruct (getAssignment_has_assignment (Server.rt_sdk w) (Server.rt_now w)
                flagKey userId (js_or userAttributes (VObj ∅)) s)
      as (o' & a & Ho' & Ha).
    fold ga in Ho'. rewrite Ho in Ho'. injection Ho' as <-.
    assert (prop o "assignment" = a) as Hpa by (unfold prop; by rewrite Ha).
    rewrite Hpa, Hattrs in Hrun. fold ga in Hrun.
    rewrite Hrun. cbn [get_prop own_props fst snd].
    unfold prop. js_lookup. cbn [default from_option id app].
    eexists a, _. split; [by rewrite Ho|]. split; [done|].
    split; [unfold dispatchCalls; rewrite !app_nil_r;
            by destruct (campaignToTrigger _)|].
    split; [reflexivity|]. split; [by js_lookup|].
    js_lookup. cbn [field_of]. js_lookup. cbn [field_of]. by js_lookup.
Qed.

Lemma sendMessageRoute_always_internal_witness :
  let w := demo_runtime (http_ok VNull) (silent (Return (VStr "treatment"))) in
  let body := VObj (js_object
    [("userId", VStr "user1");
     ("trigger_properties", VObj (js_object [("eppo_flag_key", VStr "flagX")]));
     ("subject", VStr "user1")]%string) in
  (Server.sendMessageRoute w body ready).2 =
  [Server.UpdateUserAttributes (VStr "user1") Server.gateAttributes;
   Server.TriggerCampaign (VStr "user1") (VStr "campaign-1")
     (Server.triggerPropertiesFor (VStr "flagX") (VStr "treatment"))] ∧
  (Server.processWebhookAndSendMessage w body ready).2 =
  [Server.UpdateUserAttributes (VStr "user1") Server.gateAttributes].
Proof.
  intros w body.
  destruct (sendMessageRoute_always_internal w body ready eq_refl) as (_ & Hok).
  destruct (Hok eq_refl) as (a & j & Ha & _ & Hcalls & _).
  assert (a = VStr "treatment") as -> by (vm_compute in Ha; by injection Ha).
  split; [exact Hcalls | vm_compute; reflexivity].
Defined.
